(** * Checker: the statement-matching automaton of tools/checker/match/file.py

    A shallow embedding of [findMatchingLine], [ExecutionState] and its
    handlers, [MatchTestCase] and [MatchFiles], together with the properties
    of the automaton: cursor bounds and monotonicity, the InOrder, NextLine,
    DAG, NOT, Eval and end-of-file handlers, and the reporting loop.

    Python integers are [Z]; a list subscript follows Python (negative
    indices count from the end, anything else out of range raises
    IndexError); exceptions are an explicit [Raise] outcome and the object
    [self] is threaded through every method, so the state in which an
    exception leaves the object can be observed. *)

From Stdlib Require Import ZArith String.
From stdpp Require Import base list strings gmap pretty sorting.

Open Scope Z_scope.

(** ** Data model *)

(** Modelled from the spec: [TestStatement] of file_format/checker/struct.py
    (absent from the sources): a variant tag, an opaque pattern or
    expression, and the source location of the directive. *)
Module TestStatement.
Inductive Variant := InOrder | NextLine | DAG | Not | Eval.

Record t := mk {
  variant : Variant;
  payload : string;
  sourceLocation : string * Z
}.
End TestStatement.

#[global] Instance Variant_eq_dec : EqDecision TestStatement.Variant.
Proof. solve_decision. Defined.

Abbreviation Statement := TestStatement.t.

(** Modelled from the spec: [C1visualizerPass] of
    file_format/c1visualizer/struct.py (absent from the sources): a named
    sequence of lines with the line number the pass starts at. *)
Module C1visualizerPass.
Record t := mk {
  name : string;
  body : list string;
  startLineNo : Z
}.
End C1visualizerPass.

(** The value held by a [variables] slot: an [ImmutableDict] of captured
    values, or Python's [None] (what [MatchLines] returns on no match and
    what [handleEOF] passes to [moveCursor]). *)
Inductive Variables :=
  | PyNone
  | ImmutableDict (d : gmap string string).

Module MatchScope.
Record t := mk { start : Z; end_ : Z }.
End MatchScope.

Module MatchInfo.
Record t := mk { scope : MatchScope.t; variables : Variables }.
End MatchInfo.

Inductive Exception :=
  | MatchFailedException (statement : Statement) (lineNo : Z) (variables : Variables)
  | IndexError
  | AssertionError
  | ValueError
  | EvaluateLineError
  | LoggerFailure
  | IOError.

Inductive Result (A : Type) :=
  | Return (a : A)
  | Raise (e : Exception).
Arguments Return {A} a.
Arguments Raise {A} e.

Record ExecutionState := {
  cursor : Z;
  c1Pass : C1visualizerPass.t;
  c1Length : Z;
  variables : Variables;
  dagQueue : list Statement;
  notQueue : list Statement
}.

Definition set_cursor (v : Z) (self : ExecutionState) : ExecutionState :=
  {| cursor := v; c1Pass := c1Pass self; c1Length := c1Length self;
     variables := variables self; dagQueue := dagQueue self;
     notQueue := notQueue self |}.

Definition set_variables (v : Variables) (self : ExecutionState) : ExecutionState :=
  {| cursor := cursor self; c1Pass := c1Pass self; c1Length := c1Length self;
     variables := v; dagQueue := dagQueue self; notQueue := notQueue self |}.

Definition set_dagQueue (q : list Statement) (self : ExecutionState) : ExecutionState :=
  {| cursor := cursor self; c1Pass := c1Pass self; c1Length := c1Length self;
     variables := variables self; dagQueue := q; notQueue := notQueue self |}.

Definition set_notQueue (q : list Statement) (self : ExecutionState) : ExecutionState :=
  {| cursor := cursor self; c1Pass := c1Pass self; c1Length := c1Length self;
     variables := variables self; dagQueue := dagQueue self; notQueue := q |}.

(** ** Python primitives *)

(** [l[i]]: [None] stands for IndexError. *)
Definition getitem {A : Type} (l : list A) (i : Z) : option A :=
  if decide (0 <= i) then l !! Z.to_nat i
  else if decide (- Z.of_nat (length l) <= i)
       then l !! Z.to_nat (Z.of_nat (length l) + i)
       else None.

(** [range(start, stop)]. *)
Definition range (start stop : Z) : list Z := seqZ start (stop - start).

(** [min(l)] and [max(l)]: [None] stands for the ValueError on an empty
    list. *)
Definition py_min (l : list Z) : option Z :=
  match l with
  | [] => None
  | x :: r => Some (foldl Z.min x r)
  end.

Definition py_max (l : list Z) : option Z :=
  match l with
  | [] => None
  | x :: r => Some (foldl Z.max x r)
  end.

(** ** Methods: state passing with exceptions

    A method receives [self] and returns an outcome together with [self] as
    the call left it, also when it raises. *)
Definition Method (A : Type) : Type := ExecutionState -> Result A * ExecutionState.

Definition ret {A} (a : A) : Method A := fun self => (Return a, self).
Definition raise {A} (e : Exception) : Method A := fun self => (Raise e, self).
Definition bind {A B} (m : Method A) (k : A -> Method B) : Method B :=
  fun self =>
    match m self with
    | (Return a, self') => k a self'
    | (Raise e, self') => (Raise e, self')
    end.
Definition get : Method ExecutionState := fun self => (Return self, self).
Definition modify (f : ExecutionState -> ExecutionState) : Method unit :=
  fun self => (Return tt, f self).
Definition lift {A} (r : Result A) : Method A := fun self => (r, self).
Definition py_assert (b : bool) : Method unit :=
  if b then ret tt else raise AssertionError.

Declare Scope method_scope.
Delimit Scope method_scope with method.
Notation "x <- c1 ;; c2" := (bind c1 (fun x => c2))
  (at level 100, c1 at next level, right associativity) : method_scope.
Notation "c1 ;; c2" := (bind c1 (fun _ => c2))
  (at level 100, right associativity) : method_scope.
Open Scope method_scope.

Section Automaton.

(** The line matcher and the expression evaluator of match/line.py are
    external to this file. [MatchLines] returns the new variables, or
    [PyNone] when the line does not match. [EvaluateLine] returns the truth
    value of the expression; [None] stands for an error raised by the
    evaluator itself. *)
Variable MatchLines : Statement -> string -> Variables -> Variables.
Variable EvaluateLine : Statement -> Variables -> option bool.

(** The [for i in range(...)] loop of [findMatchingLine]; [Return None]
    when the loop runs to its end. *)
Fixpoint findMatchingLine_loop (statement : Statement) (c1Pass : C1visualizerPass.t)
    (variables : Variables) (excludeLines : list Z) (indices : list Z)
    : Result (option MatchInfo.t) :=
  match indices with
  | [] => Return None
  | i :: rest =>
    if decide (i ∈ excludeLines)
    then findMatchingLine_loop statement c1Pass variables excludeLines rest
    else
      match getitem (C1visualizerPass.body c1Pass) i with
      | None => Raise IndexError
      | Some line =>
        match MatchLines statement line variables with
        | ImmutableDict d =>
          Return (Some (MatchInfo.mk (MatchScope.mk i i) (ImmutableDict d)))
        | PyNone =>
          findMatchingLine_loop statement c1Pass variables excludeLines rest
        end
      end
  end.

Definition findMatchingLine (statement : Statement) (c1Pass : C1visualizerPass.t)
    (scope : MatchScope.t) (variables : Variables) (excludeLines : list Z)
    : Result MatchInfo.t :=
  match findMatchingLine_loop statement c1Pass variables excludeLines
          (range (MatchScope.start scope) (MatchScope.end_ scope)) with
  | Return (Some m) => Return m
  | Return None => Raise (MatchFailedException statement (MatchScope.start scope) variables)
  | Raise e => Raise e
  end.

(** The constructor [ExecutionState(c1Pass)]. *)
Definition ExecutionState_init (c1Pass : C1visualizerPass.t) : ExecutionState :=
  {| cursor := 0;
     c1Pass := c1Pass;
     c1Length := Z.of_nat (length (C1visualizerPass.body c1Pass));
     variables := ImmutableDict ∅;
     dagQueue := [];
     notQueue := [] |}.

(** The inner loop of [handleNotQueue]: one statement against the lines of
    the scope. *)
Fixpoint handleNotQueue_lines (statement : Statement) (body : list string)
    (variables : Variables) (indices : list Z) : Result unit :=
  match indices with
  | [] => Return tt
  | i :: rest =>
    match getitem body i with
    | None => Raise IndexError
    | Some line =>
      match MatchLines statement line variables with
      | ImmutableDict _ => Raise (MatchFailedException statement i variables)
      | PyNone => handleNotQueue_lines statement body variables rest
      end
    end
  end.

(** The outer loop of [handleNotQueue]. *)
Fixpoint handleNotQueue_loop (queue : list Statement) (body : list string)
    (variables : Variables) (scope : MatchScope.t) : Result unit :=
  match queue with
  | [] => Return tt
  | statement :: rest =>
    if decide (TestStatement.variant statement = TestStatement.Not)
    then
      match handleNotQueue_lines statement body variables
              (range (MatchScope.start scope) (MatchScope.end_ scope)) with
      | Return _ => handleNotQueue_loop rest body variables scope
      | Raise e => Raise e
      end
    else Raise AssertionError
  end.

Definition handleNotQueue (scope : MatchScope.t) : Method unit :=
  self <- get ;;
  lift (handleNotQueue_loop (notQueue self) (C1visualizerPass.body (c1Pass self))
          (variables self) scope) ;;
  modify (set_notQueue []).

Definition moveCursor (match_ : MatchInfo.t) : Method unit :=
  self <- get ;;
  py_assert (bool_decide (cursor self <= MatchScope.end_ (MatchInfo.scope match_))) ;;
  handleNotQueue (MatchScope.mk (cursor self) (MatchScope.start (MatchInfo.scope match_))) ;;
  modify (set_cursor (MatchScope.end_ (MatchInfo.scope match_) + 1)) ;;
  modify (set_variables (MatchInfo.variables match_)).

(** The loop of [handleDagQueue] over the queued statements, with its two
    locals [matchedLines] and [variables]. *)
Fixpoint handleDagQueue_loop (queue : list Statement) (c1Pass : C1visualizerPass.t)
    (scope : MatchScope.t) (matchedLines : list Z) (variables : Variables)
    : Result (list Z * Variables) :=
  match queue with
  | [] => Return (matchedLines, variables)
  | statement :: rest =>
    if decide (TestStatement.variant statement = TestStatement.DAG)
    then
      match findMatchingLine statement c1Pass scope variables matchedLines with
      | Raise e => Raise e
      | Return match_ =>
        let variables := MatchInfo.variables match_ in
        let found := MatchInfo.scope match_ in
        if decide (MatchScope.start found = MatchScope.end_ found)
        then
          if decide (MatchScope.start found ∈ matchedLines)
          then Raise AssertionError
          else handleDagQueue_loop rest c1Pass scope
                 (matchedLines ++ [MatchScope.start found]) variables
        else Raise AssertionError
      end
    else Raise AssertionError
  end.

Definition handleDagQueue (scope : MatchScope.t) : Method unit :=
  self <- get ;;
  match dagQueue self with
  | [] => ret tt
  | _ =>
    found <-
      lift (handleDagQueue_loop (dagQueue self) (c1Pass self) scope [] (variables self)) ;;
    let matchedLines := fst found in
    let variables := snd found in
    match py_min matchedLines, py_max matchedLines with
    | Some lo, Some hi =>
      let match_ := MatchInfo.mk (MatchScope.mk lo hi) variables in
      modify (set_dagQueue []) ;;
      moveCursor match_
    | _, _ => raise ValueError
    end
  end.

Definition handleEOF : Method unit :=
  self <- get ;;
  let match_ := MatchInfo.mk (MatchScope.mk (c1Length self) (c1Length self)) PyNone in
  moveCursor match_.

Definition handleInOrder (statement : Statement) : Method unit :=
  self <- get ;;
  let scope := MatchScope.mk (cursor self) (c1Length self) in
  match_ <- lift (findMatchingLine statement (c1Pass self) scope (variables self) []) ;;
  moveCursor match_.

Definition handleNextLine (statement : Statement) : Method unit :=
  self <- get ;;
  let scope := MatchScope.mk (cursor self) (cursor self + 1) in
  match_ <- lift (findMatchingLine statement (c1Pass self) scope (variables self) []) ;;
  moveCursor match_.

Definition handleEval (statement : Statement) : Method unit :=
  self <- get ;;
  match EvaluateLine statement (variables self) with
  | None => raise EvaluateLineError
  | Some true => ret tt
  | Some false =>
    raise (MatchFailedException statement (cursor self) (variables self))
  end.

(** [handle(statement)]; [None] is the end-of-file marker. *)
Definition handle (statement : option Statement) : Method unit :=
  let variant := TestStatement.variant <$> statement in
  (if decide (variant = Some TestStatement.DAG) then ret tt
   else self <- get ;;
        handleDagQueue (MatchScope.mk (cursor self) (c1Length self))) ;;
  match statement with
  | None => handleEOF
  | Some st =>
    match TestStatement.variant st with
    | TestStatement.InOrder => handleInOrder st
    | TestStatement.NextLine => handleNextLine st
    | TestStatement.DAG =>
      modify (fun self => set_dagQueue (dagQueue self ++ [st]) self)
    | TestStatement.Not =>
      modify (fun self => set_notQueue (notQueue self ++ [st]) self)
    | TestStatement.Eval => handleEval st
    end
  end.

(** The loop [for statement in testStatements: state.handle(statement)]. *)
Fixpoint handleAll (testStatements : list (option Statement)) : Method unit :=
  match testStatements with
  | [] => ret tt
  | statement :: rest => handle statement ;; handleAll rest
  end.

End Automaton.

(** ** Test cases, files and the reporting loop *)

(** Modelled from the spec: [TestCase] and [CheckerFile] of
    file_format/checker/struct.py (absent from the sources), with the
    attributes that [MatchTestCase] and [MatchFiles] read. *)
Module TestCase.
Record t := mk {
  name : string;
  statements : list Statement;
  testArch : option string;
  forDebuggable : bool;
  fileName : string;
  startLineNo : Z
}.
End TestCase.

Module CheckerFile.
Record t := mk { testCases : list TestCase.t }.
End CheckerFile.

(** Modelled from the spec: [C1visualizerFile] of
    file_format/c1visualizer/struct.py (absent from the sources);
    [findPass] returns the first pass of the given name, or [None]. *)
Module C1visualizerFile.
Record t := mk {
  fileName : string;
  passes : list C1visualizerPass.t
}.

Definition findPass (self : t) (name : string) : option C1visualizerPass.t :=
  List.find (fun p => bool_decide (C1visualizerPass.name p = name)) (passes self).
End C1visualizerFile.

(** Modelled from the spec: the [Logger] of common/logger.py (absent from
    the sources). Each call is recorded as an event. [log], [startTest] and
    [testPassed] return to the caller; [fail] is fatal and raises. What
    [testFailed] does once it has reported is not fixed here: it is the
    capability [testFailedOutcome] of the reporting loop. *)
Module Logger.
Inductive Level := Error.

Inductive Event :=
  | log (text : string) (level : Level)
  | fail (msg file : string) (line : Z) (lineText : string)
  | startTest (name : string)
  | testPassed
  | testFailed (msg : string) (statement : Statement) (variables : Variables).
End Logger.

Section Orchestrator.

Variable MatchLines : Statement -> string -> Variables -> Variables.
Variable EvaluateLine : Statement -> Variables -> option bool.

(** [with file(name) as cfgFile: ''.join(cfgFile)]: the text of the file of
    the given name, or the exception raised when the file cannot be opened
    or read. The files are taken not to change while [MatchFiles] runs. *)
Variable fileText : string -> Result string.

(** Modelled from the spec: [Logger.testFailed(msg, statement, variables)]
    of common/logger.py (absent from the sources) reports a failure; whether
    the call then returns to [MatchFiles] ([Return tt]) or ends the run
    ([Raise e]) is left open here. The keep-going policy of the spec is a
    call that returns. *)
Variable testFailedOutcome : string -> Statement -> Variables -> Result unit.

Definition MatchTestCase (testCase : TestCase.t) (c1Pass : C1visualizerPass.t)
    : Result unit :=
  if decide (TestCase.name testCase = C1visualizerPass.name c1Pass)
  then
    let state := ExecutionState_init c1Pass in
    let testStatements := (Some <$> TestCase.statements testCase) ++ [None] in
    fst (handleAll MatchLines EvaluateLine testStatements state)
  else Raise AssertionError.

(** The message built in the [except] clause of [MatchFiles]. *)
Definition failureMessage (statement : Statement) (lineNo : Z) : string :=
  if decide (TestStatement.variant statement = TestStatement.Not)
  then "NOT statement matched line " +:+ pretty lineNo
  else "Statement could not be matched starting from line " +:+ pretty lineNo.

(** [MatchFiles]: the events logged, and how the loop ended. *)
Fixpoint MatchFiles_loop (testCases : list TestCase.t) (c1File : C1visualizerFile.t)
    (targetArch : option string) (debuggableMode : bool)
    : list Logger.Event * Result unit :=
  match testCases with
  | [] => ([], Return tt)
  | testCase :: rest =>
    if decide (TestCase.testArch testCase ∉ [None; targetArch])
    then MatchFiles_loop rest c1File targetArch debuggableMode
    else if decide (TestCase.forDebuggable testCase ≠ debuggableMode)
    then MatchFiles_loop rest c1File targetArch debuggableMode
    else
      match C1visualizerFile.findPass c1File (TestCase.name testCase) with
      | None =>
        match fileText (C1visualizerFile.fileName c1File) with
        | Raise e => ([], Raise e)
        | Return text =>
          ([Logger.log text Logger.Error;
            Logger.fail "Test case not found in the CFG file"
              (TestCase.fileName testCase) (TestCase.startLineNo testCase)
              (TestCase.name testCase)],
           Raise LoggerFailure)
        end
      | Some c1Pass =>
        match MatchTestCase testCase c1Pass with
        | Return _ =>
          let '(events, result) :=
            MatchFiles_loop rest c1File targetArch debuggableMode in
          (Logger.startTest (TestCase.name testCase) :: Logger.testPassed :: events,
           result)
        | Raise (MatchFailedException statement relLineNo variables) =>
          let lineNo := C1visualizerPass.startLineNo c1Pass + relLineNo in
          let msg := failureMessage statement lineNo in
          match fileText (C1visualizerFile.fileName c1File) with
          | Raise e => ([Logger.startTest (TestCase.name testCase)], Raise e)
          | Return text =>
            match testFailedOutcome msg statement variables with
            | Raise e =>
              ([Logger.startTest (TestCase.name testCase);
                Logger.log text Logger.Error;
                Logger.testFailed msg statement variables],
               Raise e)
            | Return _ =>
              let '(events, result) :=
                MatchFiles_loop rest c1File targetArch debuggableMode in
              (Logger.startTest (TestCase.name testCase)
                 :: Logger.log text Logger.Error
                 :: Logger.testFailed msg statement variables
                 :: events,
               result)
            end
          end
        | Raise e => ([Logger.startTest (TestCase.name testCase)], Raise e)
        end
      end
  end.

Definition MatchFiles (checkerFile : CheckerFile.t) (c1File : C1visualizerFile.t)
    (targetArch : option string) (debuggableMode : bool)
    : list Logger.Event * Result unit :=
  MatchFiles_loop (CheckerFile.testCases checkerFile) c1File targetArch debuggableMode.

End Orchestrator.

(** ** A concrete line matcher, for evaluating the automaton

    A statement matches the lines equal to its payload and binds the payload
    to the matched line; an Eval statement holds when its payload is bound. *)
Definition sampleMatchLines (statement : Statement) (line : string)
    (variables : Variables) : Variables :=
  if decide (TestStatement.payload statement = line)
  then
    match variables with
    | ImmutableDict d => ImmutableDict (<[TestStatement.payload statement := line]> d)
    | PyNone => ImmutableDict {[TestStatement.payload statement := line]}
    end
  else PyNone.

Definition sampleEvaluateLine (statement : Statement) (variables : Variables)
    : option bool :=
  match variables with
  | ImmutableDict d => Some (bool_decide (is_Some (d !! TestStatement.payload statement)))
  | PyNone => None
  end.

Definition stmt (v : TestStatement.Variant) (text : string) : Statement :=
  TestStatement.mk v text ("test.java", 1).

Definition samplePass (lines : list string) : C1visualizerPass.t :=
  C1visualizerPass.mk "pass" lines 100.

Definition sampleState (lines : list string) (cur : Z) (dag nots : list Statement)
    : ExecutionState :=
  {| cursor := cur; c1Pass := samplePass lines;
     c1Length := Z.of_nat (length lines); variables := ImmutableDict ∅;
     dagQueue := dag; notQueue := nots |}.

(** A dump with three passes and the test cases run against it. *)
Definition sampleFile : C1visualizerFile.t :=
  C1visualizerFile.mk "dump.cfg"
    [C1visualizerPass.mk "first" ["a"; "b"; "c"] 100;
     C1visualizerPass.mk "second" ["x"; "y"] 200;
     C1visualizerPass.mk "short" ["a"] 300].

Definition sampleFileText (fileName : string) : Result string :=
  Return "begin_cfg ...".

(** The dump has been removed by the time a failure is reported. *)
Definition missingFileText (fileName : string) : Result string := Raise IOError.

(** The logger of the spec: a reported failure returns to the loop. *)
Definition sampleTestFailedOutcome (msg : string) (statement : Statement)
    (variables : Variables) : Result unit :=
  Return tt.

(** Its Not statement is violated by line 1 of pass [first]. *)
Definition failingTestCase : TestCase.t :=
  TestCase.mk "first"
    [stmt TestStatement.Not "b"; stmt TestStatement.InOrder "c"]
    None false "Test.java" 10.

Definition passingTestCase : TestCase.t :=
  TestCase.mk "second"
    [stmt TestStatement.DAG "y"; stmt TestStatement.DAG "x"]
    None false "Test.java" 20.

(** A NextLine statement reached with the cursor at the end of the pass. *)
Definition nextLineAtEndTestCase : TestCase.t :=
  TestCase.mk "short"
    [stmt TestStatement.InOrder "a"; stmt TestStatement.NextLine "b"]
    None false "Test.java" 30.

(** The state of a run after the given statements. *)
Definition stateAfter (statements : list Statement) (c1Pass : C1visualizerPass.t)
    : ExecutionState :=
  snd (handleAll sampleMatchLines sampleEvaluateLine (Some <$> statements)
         (ExecutionState_init c1Pass)).

(** ** Specification vocabulary *)

Section Specification.

Variable MatchLines : Statement -> string -> Variables -> Variables.

(** Line [i] of [body] satisfies [statement] under [variables], the match
    producing the bindings [d]. *)
Definition lineMatches (statement : Statement) (body : list string)
    (variables : Variables) (i : Z) (d : gmap string string) : Prop :=
  0 <= i /\ exists line,
    body !! Z.to_nat i = Some line /\
    MatchLines statement line variables = ImmutableDict d.

Definition lineSatisfies (statement : Statement) (body : list string)
    (variables : Variables) (i : Z) : Prop :=
  exists d, lineMatches statement body variables i d.

(** [i] is the earliest line of [lo, hi) outside [claimed] that satisfies
    the statement. *)
Definition firstMatch (statement : Statement) (body : list string)
    (variables : Variables) (lo hi : Z) (claimed : list Z)
    (i : Z) (d : gmap string string) : Prop :=
  lo <= i < hi /\ (i ∉ claimed) /\
  lineMatches statement body variables i d /\
  forall j, lo <= j < i -> j ∈ claimed \/ ~ lineSatisfies statement body variables j.

(** No line of [lo, hi) outside [claimed] satisfies the statement. *)
Definition noMatch (statement : Statement) (body : list string)
    (variables : Variables) (lo hi : Z) (claimed : list Z) : Prop :=
  forall j, lo <= j < hi -> j ∈ claimed \/ ~ lineSatisfies statement body variables j.

(** Some statement of [queue] is satisfied by some line of [a, b). *)
Definition notQueueViolated (queue : list Statement) (body : list string)
    (variables : Variables) (a b : Z) : Prop :=
  exists statement i, statement ∈ queue /\ a <= i < b /\
    lineSatisfies statement body variables i.

(** A DAG group resolved over [lo, hi): the statements are taken in list
    order, each one claims the earliest satisfying line not claimed before
    it, and the bindings of one match are those the next statement is
    matched under. [claimed] and [variables] are the lines and bindings
    before the group, [matched] and [variables'] those after it. *)
Inductive dagGroup (body : list string) (lo hi : Z)
    : list Statement -> list Z -> Variables -> list Z -> Variables -> Prop :=
  | dagGroup_nil claimed variables :
      dagGroup body lo hi [] claimed variables claimed variables
  | dagGroup_cons statement rest claimed variables i d matched variables' :
      firstMatch statement body variables lo hi claimed i d ->
      dagGroup body lo hi rest (claimed ++ [i]) (ImmutableDict d) matched variables' ->
      dagGroup body lo hi (statement :: rest) claimed variables matched variables'.

(** A DAG group stuck at [statement]: the statements before it were
    resolved, leaving the bindings [variables'], and no unclaimed line
    satisfies [statement]. *)
Inductive dagStuck (body : list string) (lo hi : Z)
    : list Statement -> list Z -> Variables -> Statement -> Variables -> Prop :=
  | dagStuck_here statement rest claimed variables :
      noMatch statement body variables lo hi claimed ->
      dagStuck body lo hi (statement :: rest) claimed variables statement variables
  | dagStuck_later statement rest claimed variables i d culprit variables' :
      firstMatch statement body variables lo hi claimed i d ->
      dagStuck body lo hi rest (claimed ++ [i]) (ImmutableDict d) culprit variables' ->
      dagStuck body lo hi (statement :: rest) claimed variables culprit variables'.

End Specification.

(** The state invariant of a run: [c1Length] is the length of the pass, the
    cursor lies within the pass, and each queue holds statements of its own
    variant. *)
Definition wellFormed (self : ExecutionState) : Prop :=
  c1Length self = Z.of_nat (length (C1visualizerPass.body (c1Pass self))) /\
  0 <= cursor self <= c1Length self /\
  Forall (fun st => TestStatement.variant st = TestStatement.DAG) (dagQueue self) /\
  Forall (fun st => TestStatement.variant st = TestStatement.Not) (notQueue self).

(** The test cases that [MatchFiles] does not skip. *)
Definition applicable (targetArch : option string) (debuggableMode : bool)
    (testCase : TestCase.t) : Prop :=
  TestCase.testArch testCase ∈ [None; targetArch] /\
  TestCase.forDebuggable testCase = debuggableMode.

(** The statements whose match takes a line of the pass for itself:
    InOrder, NextLine and DAG. *)
Definition lineConsuming (statement : Statement) : bool :=
  match TestStatement.variant statement with
  | TestStatement.InOrder | TestStatement.NextLine | TestStatement.DAG => true
  | TestStatement.Not | TestStatement.Eval => false
  end.

(** The exceptions a run can end with, besides MatchFailedException. *)
Definition isMatchFailed (e : Exception) : Prop :=
  exists statement lineNo variables, e = MatchFailedException statement lineNo variables.

#[global] Instance applicable_dec targetArch debuggableMode testCase :
  Decision (applicable targetArch debuggableMode testCase).
Proof. unfold applicable. apply _. Defined.

(** A test case for another architecture, and the run of three test cases
    whose second one reaches a NextLine statement at the end of its pass. *)
Definition otherArchTestCase : TestCase.t :=
  TestCase.mk "first" [stmt TestStatement.InOrder "zzz"] (Some "arm64") false
    "Test.java" 40.

Definition onlyNotTestCase : TestCase.t :=
  TestCase.mk "first" [stmt TestStatement.Not "x"; stmt TestStatement.Not "y"]
    None false "Test.java" 50.

(** ** file_format/common.py: splitting a stream into chunks *)

(** [str.strip()] of a byte string: the white space removed at both ends
    is tab, line feed, vertical tab, form feed, carriage return and
    space. *)
Fixpoint lstrip (s : string) : string :=
  match s with
  | String a rest => if Ascii.is_space a then lstrip rest else s
  | EmptyString => EmptyString
  end.

Definition strip (s : string) : string :=
  String.rev (lstrip (String.rev (lstrip s))).

Section SplitStream.

(** The data extracted from a line and the names of chunks are whatever the
    caller's [fnProcessLine] produces. *)
Variable D N : Type.

(** A chunk is the tuple [(name, data, lineNo)]. *)
Definition Chunk : Type := N * list D * Z.

(** [fnProcessLine(line, lineNo)] returns the pair
    [(processedLine, newChunkName)], either of which may be [None].
    [fnLineOutsideChunk(line, lineNo)] is called for its effect and may
    raise. *)
Variable fnProcessLine : string -> Z -> option D * option N.
Variable fnLineOutsideChunk : string -> Z -> Result unit.

(** [currentChunk[1].append(processedLine)]: [currentChunk] is the tuple
    that [allChunks] holds at index [i], so the list inside [allChunks]
    grows. *)
Definition appendToChunk (processedLine : D) (i : nat) (allChunks : list Chunk)
    : list Chunk :=
  alter (fun chunk => (chunk.1.1, chunk.1.2 ++ [processedLine], chunk.2)) i allChunks.

(** The loop of [SplitStream] from a given state. [currentChunk] is [None]
    or the index in [allChunks] of the tuple it refers to. The result is the
    list of the calls made to [fnLineOutsideChunk], and the chunks or the
    exception that ended the loop. *)
Fixpoint SplitStream_loop (stream : list string) (lineNo : Z)
    (allChunks : list Chunk) (currentChunk : option nat)
    : list (string * Z) * Result (list Chunk) :=
  match stream with
  | [] => ([], Return allChunks)
  | line :: rest =>
    let lineNo := lineNo + 1 in
    let line := strip line in
    if decide (line = "")
    then SplitStream_loop rest lineNo allChunks currentChunk
    else
      let '(processedLine, newChunkName) := fnProcessLine line lineNo in
      let '(allChunks, currentChunk) :=
        match newChunkName with
        | Some name => (allChunks ++ [(name, [], lineNo)], Some (length allChunks))
        | None => (allChunks, currentChunk)
        end in
      match processedLine with
      | None => SplitStream_loop rest lineNo allChunks currentChunk
      | Some data =>
        match currentChunk with
        | Some i =>
          SplitStream_loop rest lineNo (appendToChunk data i allChunks) currentChunk
        | None =>
          match fnLineOutsideChunk line lineNo with
          | Return _ =>
            let '(calls, result) :=
              SplitStream_loop rest lineNo allChunks currentChunk in
            ((line, lineNo) :: calls, result)
          | Raise e => ([(line, lineNo)], Raise e)
          end
        end
      end
  end.

Definition SplitStream (stream : list string)
    : list (string * Z) * Result (list Chunk) :=
  SplitStream_loop stream 0 [] None.

(** *** The grouping that [SplitStream] computes, without mutation

    Read from the end of the stream: the data lines met before the first
    line that starts a chunk ([fst]), each with its stripped text and line
    number, and the chunks ([snd]). A line that starts a chunk takes its
    own data and the data lines after it, up to the next such line. *)
Fixpoint groupLines (stream : list string) (lineNo : Z)
    : list (string * Z * D) * list Chunk :=
  match stream with
  | [] => ([], [])
  | line :: rest =>
    let lineNo := lineNo + 1 in
    let line := strip line in
    let '(loose, chunks) := groupLines rest lineNo in
    if decide (line = "") then (loose, chunks)
    else
      let '(processedLine, newChunkName) := fnProcessLine line lineNo in
      let own :=
        match processedLine with
        | Some data => [(line, lineNo, data)]
        | None => []
        end in
      match newChunkName with
      | Some name => ([], (name, snd <$> (own ++ loose), lineNo) :: chunks)
      | None => (own ++ loose, chunks)
      end
  end.

(** The calls of [fnLineOutsideChunk] on the loose data lines, in order, up
    to the first one that raises. *)
Fixpoint reportLoose (loose : list (string * Z * D))
    : list (string * Z) * option Exception :=
  match loose with
  | [] => ([], None)
  | (line, lineNo, _) :: rest =>
    match fnLineOutsideChunk line lineNo with
    | Return _ =>
      let '(calls, e) := reportLoose rest in ((line, lineNo) :: calls, e)
    | Raise e => ([(line, lineNo)], Some e)
    end
  end.

(** The data that [fnProcessLine] extracts from the non-blank lines of the
    stream, in order. *)
Fixpoint processedData (stream : list string) (lineNo : Z) : list D :=
  match stream with
  | [] => []
  | line :: rest =>
    let lineNo := lineNo + 1 in
    let line := strip line in
    if decide (line = "") then processedData rest lineNo
    else
      match fst (fnProcessLine line lineNo) with
      | Some data => data :: processedData rest lineNo
      | None => processedData rest lineNo
      end
  end.

End SplitStream.

Arguments SplitStream {D N} fnProcessLine fnLineOutsideChunk stream.
Arguments SplitStream_loop {D N} fnProcessLine fnLineOutsideChunk stream lineNo
  allChunks currentChunk.
Arguments groupLines {D N} fnProcessLine stream lineNo.
Arguments reportLoose {D} fnLineOutsideChunk loose.
Arguments processedData {D N} fnProcessLine stream lineNo.
Arguments appendToChunk {D N} processedLine i allChunks.

(** A line processor in the manner of the callers of [SplitStream]: a line
    [begin NAME] starts the chunk NAME and carries no data, any other line
    is data. *)
Definition sampleProcessLine (line : string) (lineNo : Z)
    : option string * option string :=
  if Stdlib.Strings.String.prefix "begin " line
  then (None, Some (Stdlib.Strings.String.substring 6
                      (Stdlib.Strings.String.length line - 6) line))
  else (Some line, None).

Definition sampleLineOutsideChunk (line : string) (lineNo : Z) : Result unit :=
  Raise LoggerFailure.

Definition sampleStream : list string :=
  ["begin first"; "  a  "; ""; "b"; "begin second"; "x"].

(** ** test/370-dex-v37/build.py: the version bump of classes.dex *)

(** [b"dex\n035\x00"] and [b"dex\n037\x00"]. *)
Definition dexMagic035 : list Byte.byte :=
  [Byte.x64; Byte.x65; Byte.x78; Byte.x0a; Byte.x30; Byte.x33; Byte.x35; Byte.x00].

Definition dexMagic037 : list Byte.byte :=
  [Byte.x64; Byte.x65; Byte.x78; Byte.x0a; Byte.x30; Byte.x33; Byte.x37; Byte.x00].

#[global] Instance byte_eq_dec : EqDecision Byte.byte :=
  Stdlib.Strings.Byte.byte_eq_dec.

(** [f.seek(0); f.write(data)] on a file opened with "rb+": the bytes at
    the start of the file are overwritten, the rest is kept. *)
Definition writeAtStart (data content : list Byte.byte) : list Byte.byte :=
  data ++ drop (length data) content.

(** What [build] does to the bytes of classes.dex: nothing when [ctx.jvm]
    is set; otherwise the first eight bytes are read and, when they are the
    version 35 magic, overwritten with the version 37 magic. *)
Definition patchClassesDex (jvm : bool) (content : list Byte.byte) : list Byte.byte :=
  if jvm then content
  else if decide (take 8 content = dexMagic035)
       then writeAtStart dexMagic037 content
       else content.

(** ** runtime/interpreter/mterp/common/gen_setup.py: squashing empty lines *)

Abbreviation ascii := Stdlib.Strings.Ascii.ascii.

(** The line feed, "\n". *)
Definition newline : ascii :=
  Stdlib.Strings.Ascii.Ascii false true false true false false false false.

(** [re.sub(r"(\n\n)(\n)+", r"\1", text)] as a scan of the text from left
    to right. A match starts where three line feeds stand in a row, extends
    over all the line feeds that follow, and is replaced by its first two;
    [run] counts the line feeds already emitted for the run being scanned,
    so a third and any further one are dropped. *)
Fixpoint squashEmptyLines_from (run : nat) (text : list ascii) : list ascii :=
  match text with
  | [] => []
  | c :: rest =>
    if decide (c = newline)
    then if decide (run < 2)%nat
         then c :: squashEmptyLines_from (S run) rest
         else squashEmptyLines_from run rest
    else c :: squashEmptyLines_from 0 rest
  end.

Definition squashEmptyLines (text : list ascii) : list ascii :=
  squashEmptyLines_from 0 text.

(** ** test/testrunner/env.py: boolean settings from the environment *)

(** The values that [_getEnvBoolean] returns and takes as default: a
    boolean, a string (the default ['default']) or [None]. *)
Inductive PyValue :=
  | PyBool (b : bool)
  | PyStr (s : string)
  | PyNoneValue.

Definition _getEnvBoolean (_env : gmap string string) (var : string)
    (default : PyValue) : PyValue :=
  match _env !! var with
  | Some val =>
    if decide (val = "") then default
    else if decide (val = "True" \/ val = "true") then PyBool true
    else if decide (val = "False" \/ val = "false") then PyBool false
    else default
  | None => default
  end.

(** Module-level settings of env.py, as functions of the environment. *)
Definition ANDROID_COMPILE_WITH_JACK (_env : gmap string string) : PyValue :=
  _getEnvBoolean _env "ANDROID_COMPILE_WITH_JACK" (PyStr "default").

Definition ART_TEST_FULL (_env : gmap string string) : PyValue :=
  _getEnvBoolean _env "ART_TEST_FULL" (PyBool false).

Definition ART_TEST_JIT (_env : gmap string string) : PyValue :=
  _getEnvBoolean _env "ART_TEST_JIT" (ART_TEST_FULL _env).

(** The spellings that [_getEnvBoolean] recognises. *)
Definition spellsTrue (value : option string) : Prop :=
  value = Some "True" \/ value = Some "true".

Definition spellsFalse (value : option string) : Prop :=
  value = Some "False" \/ value = Some "false".

(** No three line feeds in a row. *)
Definition noTripleNewline (text : list ascii) : Prop :=
  forall before after, text <> before ++ [newline; newline; newline] ++ after.

(** Three line feeds in a row at position [i]. *)
Definition tripleAt (text : list ascii) (i : nat) : Prop :=
  text !! i = Some newline /\ text !! S i = Some newline /\
  text !! S (S i) = Some newline.

(** The letter "a", and a version 35 dex file of ten bytes. *)
Definition letterA : ascii :=
  Stdlib.Strings.Ascii.Ascii true false false false false true true false.

Definition sampleDex : list Byte.byte := dexMagic035 ++ [Byte.x70; Byte.x00].

(** ** Lemmas on the Python primitives *)

Lemma getitem_nonneg {A} (l : list A) (i : Z) :
  0 <= i -> getitem l i = l !! Z.to_nat i.
Proof. intros Hi. unfold getitem. by rewrite decide_True. Qed.

Lemma getitem_in_range {A} (l : list A) (i : Z) :
  0 <= i < Z.of_nat (length l) -> is_Some (getitem l i).
Proof.
  intros [H0 Hlt]. rewrite getitem_nonneg by done.
  apply lookup_lt_is_Some. lia.
Qed.

Lemma getitem_past_end {A} (l : list A) (i : Z) :
  Z.of_nat (length l) <= i -> getitem l i = None.
Proof.
  intros Hi. rewrite getitem_nonneg by lia.
  apply lookup_ge_None. lia.
Qed.

Lemma range_nil (a b : Z) : b <= a -> range a b = [].
Proof. intros H. unfold range. apply seqZ_nil. lia. Qed.

Lemma range_cons (a b : Z) : a < b -> range a b = a :: range (a + 1) b.
Proof.
  intros H. unfold range. rewrite seqZ_cons by lia.
  do 2 f_equal; lia.
Qed.

(** Induction over the ranges [range a b], by the number of elements. *)
Lemma range_ind (P : Z -> Z -> Prop) :
  (forall a b, b <= a -> P a b) ->
  (forall a b, a < b -> P (a + 1) b -> P a b) ->
  forall a b, P a b.
Proof.
  intros Hnil Hcons a b.
  remember (Z.to_nat (b - a)) as n eqn:Hn.
  revert a Hn. induction n as [|n IH]; intros a Hn.
  - apply Hnil. lia.
  - apply Hcons; [lia|]. apply IH. lia.
Qed.

(** ** The line scans *)

Section Scans.

Variable MatchLines : Statement -> string -> Variables -> Variables.

Lemma lineMatches_getitem statement body variables i d :
  lineMatches MatchLines statement body variables i d <->
  0 <= i /\ exists line, getitem body i = Some line /\
                        MatchLines statement line variables = ImmutableDict d.
Proof.
  unfold lineMatches. split; intros [H0 (line & Hl & Hm)]; split; try done;
    exists line; [rewrite getitem_nonneg by done | rewrite getitem_nonneg in Hl by done];
    done.
Qed.

Lemma lineMatches_fun statement body variables i d d' :
  lineMatches MatchLines statement body variables i d ->
  lineMatches MatchLines statement body variables i d' -> d = d'.
Proof.
  intros [_ (l & Hl & Hm)] [_ (l' & Hl' & Hm')]. congruence.
Qed.

Lemma firstMatch_unique statement body variables lo hi claimed i d i' d' :
  firstMatch MatchLines statement body variables lo hi claimed i d ->
  firstMatch MatchLines statement body variables lo hi claimed i' d' ->
  i = i' /\ d = d'.
Proof.
  intros (Hr & Hc & Hm & Hfirst) (Hr' & Hc' & Hm' & Hfirst').
  assert (i = i') as ->.
  { destruct (Z.lt_trichotomy i i') as [Hlt | [-> | Hgt]]; [|done|].
    - destruct (Hfirst' i) as [? | Hn]; [lia | done |].
      exfalso. apply Hn. by exists d.
    - destruct (Hfirst i') as [? | Hn]; [lia | done |].
      exfalso. apply Hn. by exists d'. }
  split; [done|]. eapply lineMatches_fun; eauto.
Qed.

Lemma firstMatch_noMatch statement body variables lo hi claimed i d :
  firstMatch MatchLines statement body variables lo hi claimed i d ->
  noMatch MatchLines statement body variables lo hi claimed -> False.
Proof.
  intros (Hr & Hc & Hm & _) Hno.
  destruct (Hno i Hr) as [? | Hn]; [done|]. apply Hn. by exists d.
Qed.

(** What the scan of [findMatchingLine] computes over a scope inside the
    pass: the earliest unclaimed match, or the absence of any. It never
    raises there. *)
Lemma findMatchingLine_loop_range statement c1Pass variables excludeLines lo hi :
  0 <= lo -> hi <= Z.of_nat (length (C1visualizerPass.body c1Pass)) ->
  match findMatchingLine_loop MatchLines statement c1Pass variables excludeLines
          (range lo hi) with
  | Return (Some m) =>
    exists i d, m = MatchInfo.mk (MatchScope.mk i i) (ImmutableDict d) /\
      firstMatch MatchLines statement (C1visualizerPass.body c1Pass) variables
        lo hi excludeLines i d
  | Return None =>
    noMatch MatchLines statement (C1visualizerPass.body c1Pass) variables
      lo hi excludeLines
  | Raise _ => False
  end.
Proof.
  set (body := C1visualizerPass.body c1Pass).
  revert lo hi. apply (range_ind (fun lo hi => 0 <= lo -> hi <= Z.of_nat (length body) -> _)).
  - intros a b Hba _ _. rewrite range_nil by done. simpl.
    intros j Hj. lia.
  - intros a b Hab IH Ha Hb. rewrite range_cons by done. simpl.
    specialize (IH ltac:(lia) Hb).
    assert (forall j, a <= j < b -> j = a \/ a + 1 <= j < b) as Hsplit by (intros; lia).
    destruct (decide (a ∈ excludeLines)) as [Hex | Hex].
    + destruct (findMatchingLine_loop _ _ _ _ _ _) as [[m|]|e]; [| |done].
      * destruct IH as (i & d & -> & Hr & Hc & Hm & Hfirst).
        exists i, d. split; [done|]. split; [lia|]. do 2 (split; [done|]).
        intros j Hj. destruct (decide (j = a)) as [-> | Hne]; [by left|].
        apply Hfirst. lia.
      * intros j Hj. destruct (Hsplit j Hj) as [-> | Hj']; [by left | by apply IH].
    + destruct (getitem_in_range body a) as [line Hline]; [lia|].
      fold body. rewrite Hline.
      destruct (MatchLines statement line variables) as [|d] eqn:Hm.
      * assert (~ lineSatisfies MatchLines statement body variables a) as Hna.
        { intros [d Hd%lineMatches_getitem]. destruct Hd as [_ (l & Hl & Hd)].
          congruence. }
        destruct (findMatchingLine_loop _ _ _ _ _ _) as [[m|]|e]; [| |done].
        -- destruct IH as (i & d & -> & Hr & Hc & Hmi & Hfirst).
           exists i, d. split; [done|]. split; [lia|]. do 2 (split; [done|]).
           intros j Hj. destruct (decide (j = a)) as [-> | Hne]; [by right|].
           apply Hfirst. lia.
        -- intros j Hj. destruct (Hsplit j Hj) as [-> | Hj']; [by right | by apply IH].
      * exists a, d. split; [done|]. split; [lia|]. split; [done|]. split.
        -- apply lineMatches_getitem. split; [done|]. by exists line.
        -- intros j Hj. lia.
Qed.

(** [findMatchingLine] over a scope inside the pass. *)
Lemma findMatchingLine_found statement c1Pass scope variables excludeLines i d :
  0 <= MatchScope.start scope ->
  MatchScope.end_ scope <= Z.of_nat (length (C1visualizerPass.body c1Pass)) ->
  firstMatch MatchLines statement (C1visualizerPass.body c1Pass) variables
    (MatchScope.start scope) (MatchScope.end_ scope) excludeLines i d ->
  findMatchingLine MatchLines statement c1Pass scope variables excludeLines
  = Return (MatchInfo.mk (MatchScope.mk i i) (ImmutableDict d)).
Proof.
  intros H0 Hend Hfirst. unfold findMatchingLine.
  pose proof (findMatchingLine_loop_range statement c1Pass variables excludeLines
                _ _ H0 Hend) as Hloop.
  destruct (findMatchingLine_loop _ _ _ _ _ _) as [[m|]|e]; [| |done].
  - destruct Hloop as (i' & d' & -> & Hfirst').
    destruct (firstMatch_unique _ _ _ _ _ _ _ _ _ _ Hfirst Hfirst') as [-> ->].
    done.
  - destruct (firstMatch_noMatch _ _ _ _ _ _ _ _ Hfirst Hloop).
Qed.

Lemma findMatchingLine_not_found statement c1Pass scope variables excludeLines :
  0 <= MatchScope.start scope ->
  MatchScope.end_ scope <= Z.of_nat (length (C1visualizerPass.body c1Pass)) ->
  noMatch MatchLines statement (C1visualizerPass.body c1Pass) variables
    (MatchScope.start scope) (MatchScope.end_ scope) excludeLines ->
  findMatchingLine MatchLines statement c1Pass scope variables excludeLines
  = Raise (MatchFailedException statement (MatchScope.start scope) variables).
Proof.
  intros H0 Hend Hno. unfold findMatchingLine.
  pose proof (findMatchingLine_loop_range statement c1Pass variables excludeLines
                _ _ H0 Hend) as Hloop.
  destruct (findMatchingLine_loop _ _ _ _ _ _) as [[m|]|e]; [| |done].
  - destruct Hloop as (i' & d' & -> & Hfirst').
    destruct (firstMatch_noMatch _ _ _ _ _ _ _ _ Hfirst' Hno).
  - done.
Qed.

(** Either there is an earliest unclaimed match or there is none. *)
Lemma firstMatch_or_noMatch statement c1Pass variables lo hi excludeLines :
  0 <= lo -> hi <= Z.of_nat (length (C1visualizerPass.body c1Pass)) ->
  (exists i d, firstMatch MatchLines statement (C1visualizerPass.body c1Pass)
                 variables lo hi excludeLines i d) \/
  noMatch MatchLines statement (C1visualizerPass.body c1Pass) variables
    lo hi excludeLines.
Proof.
  intros H0 Hend.
  pose proof (findMatchingLine_loop_range statement c1Pass variables excludeLines
                _ _ H0 Hend) as Hloop.
  destruct (findMatchingLine_loop _ _ _ _ _ _) as [[m|]|e]; [| |done].
  - left. destruct Hloop as (i & d & _ & Hfirst). eauto.
  - by right.
Qed.

End Scans.

(** ** The NOT queue and the cursor *)

Section NotQueue.

Variable MatchLines : Statement -> string -> Variables -> Variables.

Lemma handleNotQueue_lines_range statement body variables lo hi :
  0 <= lo -> hi <= Z.of_nat (length body) ->
  match handleNotQueue_lines MatchLines statement body variables (range lo hi) with
  | Return _ =>
    forall j, lo <= j < hi -> ~ lineSatisfies MatchLines statement body variables j
  | Raise e =>
    exists i, e = MatchFailedException statement i variables /\ lo <= i < hi /\
      lineSatisfies MatchLines statement body variables i
  end.
Proof.
  revert lo hi.
  apply (range_ind (fun lo hi => 0 <= lo -> hi <= Z.of_nat (length body) -> _)).
  - intros a b Hba _ _. rewrite range_nil by done. simpl. intros j Hj. lia.
  - intros a b Hab IH Ha Hb. rewrite range_cons by done. simpl.
    specialize (IH ltac:(lia) Hb).
    destruct (getitem_in_range body a) as [line Hline]; [lia|]. rewrite Hline.
    destruct (MatchLines statement line variables) as [|d] eqn:Hm.
    + destruct (handleNotQueue_lines _ _ _ _ _) as [[]|e].
      * intros j Hj. destruct (decide (j = a)) as [-> | Hne]; [|apply IH; lia].
        intros [d Hd%lineMatches_getitem]. destruct Hd as [_ (l & Hl & Hd)].
        congruence.
      * destruct IH as (i & -> & Hi & Hs). exists i. split; [done|]. split; [lia|done].
    + exists a. split; [done|]. split; [lia|]. exists d.
      apply lineMatches_getitem. split; [done|]. by exists line.
Qed.

Lemma handleNotQueue_loop_spec queue body variables scope :
  0 <= MatchScope.start scope -> MatchScope.end_ scope <= Z.of_nat (length body) ->
  Forall (fun st => TestStatement.variant st = TestStatement.Not) queue ->
  match handleNotQueue_loop MatchLines queue body variables scope with
  | Return _ =>
    ~ notQueueViolated MatchLines queue body variables
        (MatchScope.start scope) (MatchScope.end_ scope)
  | Raise e =>
    exists statement i, e = MatchFailedException statement i variables /\
      statement ∈ queue /\ MatchScope.start scope <= i < MatchScope.end_ scope /\
      lineSatisfies MatchLines statement body variables i
  end.
Proof.
  intros H0 Hend Hq. induction Hq as [|st queue Hst Hq IH]; simpl.
  - intros (st & i & Hin & _). by apply not_elem_of_nil in Hin.
  - rewrite decide_True by done.
    pose proof (handleNotQueue_lines_range st body variables _ _ H0 Hend) as Hl.
    destruct (handleNotQueue_lines _ _ _ _ _) as [[]|e].
    + destruct (handleNotQueue_loop _ _ _ _ _) as [[]|e].
      * intros (st' & i & Hin & Hi & Hs).
        apply elem_of_cons in Hin as [-> | Hin]; [by apply (Hl i)|].
        apply IH. by exists st', i.
      * destruct IH as (st' & i & -> & Hin & Hi & Hs).
        exists st', i. split; [done|]. split; [apply elem_of_cons; by right|done].
    + destruct Hl as (i & -> & Hi & Hs).
      exists st, i. split; [done|]. split; [apply elem_of_cons; by left|done].
Qed.

Lemma handleNotQueue_unfold scope self :
  handleNotQueue MatchLines scope self =
  match handleNotQueue_loop MatchLines (notQueue self)
          (C1visualizerPass.body (c1Pass self)) (variables self) scope with
  | Return _ => (Return tt, set_notQueue [] self)
  | Raise e => (Raise e, self)
  end.
Proof.
  unfold handleNotQueue, bind, get, lift, modify.
  by destruct (handleNotQueue_loop _ _ _ _ _).
Qed.

Lemma moveCursor_unfold match_ self :
  moveCursor MatchLines match_ self =
  if bool_decide (cursor self <= MatchScope.end_ (MatchInfo.scope match_))
  then
    match handleNotQueue MatchLines
            (MatchScope.mk (cursor self) (MatchScope.start (MatchInfo.scope match_)))
            self with
    | (Return _, self') =>
      (Return tt, set_variables (MatchInfo.variables match_)
                    (set_cursor (MatchScope.end_ (MatchInfo.scope match_) + 1) self'))
    | (Raise e, self') => (Raise e, self')
    end
  else (Raise AssertionError, self).
Proof.
  unfold moveCursor, bind, get, py_assert, modify, ret, raise.
  destruct (bool_decide _); [|done].
  by destruct (handleNotQueue _ _ _) as [[[]|e] self'].
Qed.

(** What [handleNotQueue] leaves of the object: everything except
    [notQueue], which is emptied on success and kept on failure. *)
Lemma handleNotQueue_frame scope self :
  let self' := snd (handleNotQueue MatchLines scope self) in
  cursor self' = cursor self /\ variables self' = variables self /\
  c1Pass self' = c1Pass self /\ c1Length self' = c1Length self /\
  dagQueue self' = dagQueue self /\
  (notQueue self' = [] \/ notQueue self' = notQueue self).
Proof.
  rewrite handleNotQueue_unfold.
  destruct (handleNotQueue_loop _ _ _ _ _); simpl; auto 10.
Qed.

End NotQueue.

Section Handlers.

Variable MatchLines : Statement -> string -> Variables -> Variables.
Variable EvaluateLine : Statement -> Variables -> option bool.

(** C6. NOT-queue verification over a scope [a, b) inside the pass raises
    if and only if some line of [a, b) satisfies some queued Not statement
    under the bindings of the state. The exception is a
    MatchFailedException that carries such a statement, such a line index
    and those bindings, and leaves the object untouched; without a
    violation the call returns, [notQueue] is empty afterwards and the rest
    of the object is as it was. *)
Theorem handleNotQueue_sound (self : ExecutionState) (scope : MatchScope.t) :
  0 <= MatchScope.start scope ->
  MatchScope.end_ scope <= Z.of_nat (length (C1visualizerPass.body (c1Pass self))) ->
  Forall (fun st => TestStatement.variant st = TestStatement.Not) (notQueue self) ->
  ((exists e, fst (handleNotQueue MatchLines scope self) = Raise e) <->
   notQueueViolated MatchLines (notQueue self) (C1visualizerPass.body (c1Pass self))
     (variables self) (MatchScope.start scope) (MatchScope.end_ scope)) /\
  (forall e, fst (handleNotQueue MatchLines scope self) = Raise e ->
     snd (handleNotQueue MatchLines scope self) = self /\
     exists statement i,
       e = MatchFailedException statement i (variables self) /\
       statement ∈ notQueue self /\
       MatchScope.start scope <= i < MatchScope.end_ scope /\
       lineSatisfies MatchLines statement (C1visualizerPass.body (c1Pass self))
         (variables self) i) /\
  (~ notQueueViolated MatchLines (notQueue self) (C1visualizerPass.body (c1Pass self))
       (variables self) (MatchScope.start scope) (MatchScope.end_ scope) ->
   fst (handleNotQueue MatchLines scope self) = Return tt /\
   notQueue (snd (handleNotQueue MatchLines scope self)) = [] /\
   cursor (snd (handleNotQueue MatchLines scope self)) = cursor self /\
   variables (snd (handleNotQueue MatchLines scope self)) = variables self /\
   dagQueue (snd (handleNotQueue MatchLines scope self)) = dagQueue self /\
   c1Pass (snd (handleNotQueue MatchLines scope self)) = c1Pass self /\
   c1Length (snd (handleNotQueue MatchLines scope self)) = c1Length self).
Proof.
  intros H0 Hend Hq. rewrite handleNotQueue_unfold.
  pose proof (handleNotQueue_loop_spec MatchLines (notQueue self)
                (C1visualizerPass.body (c1Pass self)) (variables self) scope
                H0 Hend Hq) as Hloop.
  destruct (handleNotQueue_loop _ _ _ _ _) as [[]|e]; simpl.
  - split; [|split].
    + split; [intros [e He]; done | intros Hv; by destruct Hloop].
    + intros e He. done.
    + done.
  - destruct Hloop as (st & i & -> & Hin & Hi & Hs).
    split; [|split].
    + split; [intros _; by exists st, i | intros _; eauto].
    + intros e [= <-]. split; [done|]. by exists st, i.
    + intros Hn. destruct Hn. by exists st, i.
Qed.

Lemma handleInOrder_unfold statement self :
  handleInOrder MatchLines statement self =
  match findMatchingLine MatchLines statement (c1Pass self)
          (MatchScope.mk (cursor self) (c1Length self)) (variables self) [] with
  | Return match_ => moveCursor MatchLines match_ self
  | Raise e => (Raise e, self)
  end.
Proof.
  unfold handleInOrder, bind, get, lift.
  by destruct (findMatchingLine _ _ _ _ _ _).
Qed.

Lemma handleNextLine_unfold statement self :
  handleNextLine MatchLines statement self =
  match findMatchingLine MatchLines statement (c1Pass self)
          (MatchScope.mk (cursor self) (cursor self + 1)) (variables self) [] with
  | Return match_ => moveCursor MatchLines match_ self
  | Raise e => (Raise e, self)
  end.
Proof.
  unfold handleNextLine, bind, get, lift.
  by destruct (findMatchingLine _ _ _ _ _ _).
Qed.

Lemma handleEOF_unfold self :
  handleEOF MatchLines self =
  moveCursor MatchLines
    (MatchInfo.mk (MatchScope.mk (c1Length self) (c1Length self)) PyNone) self.
Proof. done. Qed.

(** [moveCursor] to a single matched line [i] at or after the cursor. *)
Lemma moveCursor_line self i v :
  cursor self <= i ->
  moveCursor MatchLines (MatchInfo.mk (MatchScope.mk i i) v) self =
  match handleNotQueue MatchLines (MatchScope.mk (cursor self) i) self with
  | (Return _, self') => (Return tt, set_variables v (set_cursor (i + 1) self'))
  | (Raise e, self') => (Raise e, self')
  end.
Proof.
  intros Hi. rewrite moveCursor_unfold. simpl.
  by rewrite bool_decide_eq_true_2.
Qed.

(** The two outcomes of [moveCursor] to the lines [lo .. hi], told apart by
    the Not statements pending over [cursor, lo), with what each leaves in
    the object. *)
Lemma moveCursor_outcome self lo hi v :
  0 <= cursor self -> cursor self <= hi ->
  lo <= Z.of_nat (length (C1visualizerPass.body (c1Pass self))) ->
  Forall (fun st => TestStatement.variant st = TestStatement.Not) (notQueue self) ->
  let out := moveCursor MatchLines (MatchInfo.mk (MatchScope.mk lo hi) v) self in
  (~ notQueueViolated MatchLines (notQueue self) (C1visualizerPass.body (c1Pass self))
       (variables self) (cursor self) lo ->
   fst out = Return tt /\
   cursor (snd out) = hi + 1 /\ variables (snd out) = v /\
   notQueue (snd out) = [] /\ dagQueue (snd out) = dagQueue self /\
   c1Pass (snd out) = c1Pass self /\ c1Length (snd out) = c1Length self) /\
  (notQueueViolated MatchLines (notQueue self) (C1visualizerPass.body (c1Pass self))
     (variables self) (cursor self) lo ->
   snd out = self /\
   exists statement j,
     fst out = Raise (MatchFailedException statement j (variables self)) /\
     statement ∈ notQueue self /\ cursor self <= j < lo /\
     lineSatisfies MatchLines statement (C1visualizerPass.body (c1Pass self))
       (variables self) j).
Proof.
  intros Hcur Hhi Hlo Hq out. unfold out.
  rewrite moveCursor_unfold. simpl.
  rewrite bool_decide_eq_true_2 by done.
  rewrite handleNotQueue_unfold.
  pose proof (handleNotQueue_loop_spec MatchLines (notQueue self)
                (C1visualizerPass.body (c1Pass self)) (variables self)
                (MatchScope.mk (cursor self) lo)) as Hloop.
  simpl in Hloop. specialize (Hloop Hcur Hlo Hq).
  destruct (handleNotQueue_loop _ _ _ _ _) as [[]|e]; simpl.
  - split; [done|]. intros Hv. by destruct Hloop.
  - destruct Hloop as (st & j & -> & Hin & Hj & Hs). split.
    + intros Hn. destruct Hn. by exists st, j.
    + intros _. split; [done|]. by exists st, j.
Qed.

(** C4. An InOrder statement is matched against [cursor, len) front to
    back. With [i] the first line that satisfies it under the current
    bindings, the Not statements pending are verified over the skipped
    lines [cursor, i). When none of them is satisfied there, the call
    returns, the cursor is [i + 1], the bindings are those of the match and
    [notQueue] is empty; when one is, MatchFailedException carries that Not
    statement, the line that satisfies it and the current bindings, and the
    object is unchanged. When no line of [cursor, len) satisfies the InOrder
    statement, MatchFailedException carries the statement, the cursor (the
    start of the scope) and the current bindings, and the object is
    unchanged. One of the two cases, first match or no match, always
    applies. *)
Theorem handleInOrder_spec (self : ExecutionState) (statement : Statement) :
  c1Length self = Z.of_nat (length (C1visualizerPass.body (c1Pass self))) ->
  0 <= cursor self ->
  Forall (fun st => TestStatement.variant st = TestStatement.Not) (notQueue self) ->
  let out := handleInOrder MatchLines statement self in
  let body := C1visualizerPass.body (c1Pass self) in
  (forall i d,
     firstMatch MatchLines statement body (variables self)
       (cursor self) (c1Length self) [] i d ->
     cursor self <= i < c1Length self /\
     (~ notQueueViolated MatchLines (notQueue self) body (variables self)
          (cursor self) i ->
      fst out = Return tt /\
      cursor (snd out) = i + 1 /\ variables (snd out) = ImmutableDict d /\
      notQueue (snd out) = [] /\ dagQueue (snd out) = dagQueue self /\
      c1Pass (snd out) = c1Pass self /\ c1Length (snd out) = c1Length self) /\
     (notQueueViolated MatchLines (notQueue self) body (variables self)
        (cursor self) i ->
      snd out = self /\
      exists notStatement j,
        fst out = Raise (MatchFailedException notStatement j (variables self)) /\
        notStatement ∈ notQueue self /\ cursor self <= j < i /\
        lineSatisfies MatchLines notStatement body (variables self) j)) /\
  (noMatch MatchLines statement body (variables self) (cursor self) (c1Length self) [] ->
   out = (Raise (MatchFailedException statement (cursor self) (variables self)), self)) /\
  ((exists i d,
      firstMatch MatchLines statement body (variables self)
        (cursor self) (c1Length self) [] i d) \/
   noMatch MatchLines statement body (variables self) (cursor self) (c1Length self) []).
Proof.
  intros Hlen Hcur Hq out body. split; [|split].
  - intros i d Hfirst.
    assert (cursor self <= i < c1Length self) as Hi by (by destruct Hfirst).
    split; [done|].
    unfold out. rewrite handleInOrder_unfold.
    rewrite (findMatchingLine_found MatchLines _ _ _ _ _ i d); simpl; try done; try lia.
    apply moveCursor_outcome; try done; lia.
  - intros Hno. unfold out. rewrite handleInOrder_unfold.
    by rewrite findMatchingLine_not_found; simpl; try done; try lia.
  - apply firstMatch_or_noMatch; lia.
Qed.

(** C1 (as the code has it). The end-of-file marker does not require the
    cursor to stand at the end of the pass. For a cursor anywhere in
    [0, len], [handleEOF] verifies the NOT queue over [cursor, len): it
    returns exactly when no queued Not statement is satisfied by a line
    there, and then the cursor is [len + 1]; otherwise the exception and the
    state are those of the NOT-queue verification. With no DAG statement
    pending, [handle(None)] is [handleEOF]. *)
Theorem handleEOF_spec (self : ExecutionState) :
  wellFormed self ->
  handleEOF MatchLines self =
    match handleNotQueue MatchLines (MatchScope.mk (cursor self) (c1Length self)) self with
    | (Return _, self') =>
      (Return tt, set_variables PyNone (set_cursor (c1Length self + 1) self'))
    | (Raise e, self') => (Raise e, self')
    end /\
  (fst (handleEOF MatchLines self) = Return tt <->
   ~ notQueueViolated MatchLines (notQueue self) (C1visualizerPass.body (c1Pass self))
       (variables self) (cursor self) (c1Length self)) /\
  (fst (handleEOF MatchLines self) = Return tt ->
   cursor (snd (handleEOF MatchLines self)) = c1Length self + 1) /\
  (dagQueue self = [] ->
   handle MatchLines EvaluateLine None self = handleEOF MatchLines self).
Proof.
  intros (Hlen & Hcur & Hdag & Hnot).
  assert (handleEOF MatchLines self =
    match handleNotQueue MatchLines (MatchScope.mk (cursor self) (c1Length self)) self with
    | (Return _, self') =>
      (Return tt, set_variables PyNone (set_cursor (c1Length self + 1) self'))
    | (Raise e, self') => (Raise e, self')
    end) as Heq.
  { rewrite handleEOF_unfold. apply moveCursor_line. lia. }
  split; [done|].
  assert (dagQueue self = [] ->
          handle MatchLines EvaluateLine None self = handleEOF MatchLines self)
    as Hhandle.
  { intros Hd. unfold handle, bind, get. simpl.
    unfold handleDagQueue, bind, get, ret. by rewrite Hd. }
  pose proof (handleNotQueue_loop_spec MatchLines (notQueue self)
                (C1visualizerPass.body (c1Pass self)) (variables self)
                (MatchScope.mk (cursor self) (c1Length self))) as Hloop.
  simpl in Hloop. specialize (Hloop ltac:(lia) ltac:(lia) Hnot).
  rewrite Heq, handleNotQueue_unfold.
  rewrite Heq, handleNotQueue_unfold in Hhandle.
  destruct (handleNotQueue_loop _ _ _ _ _) as [[]|e]; simpl in *.
  - split_and!; done.
  - destruct Hloop as (st & i & -> & Hin & Hi & Hs).
    split_and!; try done.
    split; [done|]. intros Hn. destruct Hn. by exists st, i.
Qed.

Lemma handleEval_unfold statement self :
  handleEval EvaluateLine statement self =
  match EvaluateLine statement (variables self) with
  | None => (Raise EvaluateLineError, self)
  | Some true => (Return tt, self)
  | Some false =>
    (Raise (MatchFailedException statement (cursor self) (variables self)), self)
  end.
Proof.
  unfold handleEval, bind, get, raise, ret.
  by destruct (EvaluateLine _ _) as [[]|].
Qed.

(** C8. [handleEval] leaves the whole object as it was: cursor, bindings
    and both queues. It raises MatchFailedException exactly when the
    evaluator returns false, with the statement, the cursor and the bindings
    of the state; it returns exactly when the evaluator returns true. Its
    outcome depends on the current bindings and cursor alone, on no line of
    the pass. With no DAG statement pending, [handle] of an Eval statement is
    [handleEval]. *)
Theorem handleEval_spec (self : ExecutionState) (statement : Statement) :
  snd (handleEval EvaluateLine statement self) = self /\
  (fst (handleEval EvaluateLine statement self)
     = Raise (MatchFailedException statement (cursor self) (variables self)) <->
   EvaluateLine statement (variables self) = Some false) /\
  ((exists st' lineNo vars, fst (handleEval EvaluateLine statement self)
                            = Raise (MatchFailedException st' lineNo vars)) <->
   EvaluateLine statement (variables self) = Some false) /\
  (fst (handleEval EvaluateLine statement self) = Return tt <->
   EvaluateLine statement (variables self) = Some true) /\
  (forall other : ExecutionState,
     variables other = variables self -> cursor other = cursor self ->
     fst (handleEval EvaluateLine statement other)
     = fst (handleEval EvaluateLine statement self)) /\
  (TestStatement.variant statement = TestStatement.Eval -> dagQueue self = [] ->
   handle MatchLines EvaluateLine (Some statement) self
   = handleEval EvaluateLine statement self).
Proof.
  rewrite handleEval_unfold.
  split; [|split; [|split; [|split; [|split]]]].
  - by destruct (EvaluateLine _ _) as [[]|].
  - destruct (EvaluateLine _ _) as [[]|]; simpl; split; done.
  - destruct (EvaluateLine _ _) as [[]|]; simpl; split; try done.
    + by intros (? & ? & ? & ?).
    + intros _. eauto.
    + by intros (? & ? & ? & ?).
  - destruct (EvaluateLine _ _) as [[]|]; simpl; split; done.
  - intros other Hv Hc. rewrite handleEval_unfold, Hv, Hc.
    by destruct (EvaluateLine _ _) as [[]|].
  - intros Hvar Hd. unfold handle, bind, get. simpl. rewrite Hvar.
    rewrite decide_False by done.
    unfold handleDagQueue, bind, get, ret. rewrite Hd. simpl.
    by rewrite handleEval_unfold.
Qed.

End Handlers.

(** ** What each handler leaves of the object *)

Section Frames.

Variable MatchLines : Statement -> string -> Variables -> Variables.
Variable EvaluateLine : Statement -> Variables -> option bool.

Lemma foldl_min_spec (r : list Z) (x : Z) :
  foldl Z.min x r ∈ x :: r /\ forall y, y ∈ x :: r -> foldl Z.min x r <= y.
Proof.
  revert x. induction r as [|z r IH]; intros x; simpl.
  - split; [apply elem_of_cons; by left|].
    intros y Hy%list_elem_of_singleton. lia.
  - destruct (IH (Z.min x z)) as [Hin Hle]. split.
    + apply elem_of_cons in Hin as [Heq | Hin].
      * rewrite Heq. destruct (Z.min_spec x z) as [[_ ->] | [_ ->]];
          rewrite !elem_of_cons; auto.
      * rewrite !elem_of_cons; auto.
    + intros y Hy. apply elem_of_cons in Hy as [-> | Hy].
      * specialize (Hle (Z.min x z)). rewrite elem_of_cons in Hle.
        specialize (Hle (or_introl eq_refl)). lia.
      * apply elem_of_cons in Hy as [-> | Hy].
        -- specialize (Hle (Z.min x z)). rewrite elem_of_cons in Hle.
           specialize (Hle (or_introl eq_refl)). lia.
        -- apply Hle. rewrite elem_of_cons. auto.
Qed.

Lemma foldl_max_spec (r : list Z) (x : Z) :
  foldl Z.max x r ∈ x :: r /\ forall y, y ∈ x :: r -> y <= foldl Z.max x r.
Proof.
  revert x. induction r as [|z r IH]; intros x; simpl.
  - split; [apply elem_of_cons; by left|].
    intros y Hy%list_elem_of_singleton. lia.
  - destruct (IH (Z.max x z)) as [Hin Hle]. split.
    + apply elem_of_cons in Hin as [Heq | Hin].
      * rewrite Heq. destruct (Z.max_spec x z) as [[_ ->] | [_ ->]];
          rewrite !elem_of_cons; auto.
      * rewrite !elem_of_cons; auto.
    + intros y Hy. apply elem_of_cons in Hy as [-> | Hy].
      * specialize (Hle (Z.max x z)). rewrite elem_of_cons in Hle.
        specialize (Hle (or_introl eq_refl)). lia.
      * apply elem_of_cons in Hy as [-> | Hy].
        -- specialize (Hle (Z.max x z)). rewrite elem_of_cons in Hle.
           specialize (Hle (or_introl eq_refl)). lia.
        -- apply Hle. rewrite elem_of_cons. auto.
Qed.

Lemma py_min_spec (l : list Z) (lo : Z) :
  py_min l = Some lo -> lo ∈ l /\ forall y, y ∈ l -> lo <= y.
Proof. destruct l as [|x r]; [done|]. intros [= <-]. apply foldl_min_spec. Qed.

Lemma py_max_spec (l : list Z) (hi : Z) :
  py_max l = Some hi -> hi ∈ l /\ forall y, y ∈ l -> y <= hi.
Proof. destruct l as [|x r]; [done|]. intros [= <-]. apply foldl_max_spec. Qed.

Lemma py_min_max_nonempty (l : list Z) :
  l <> [] -> exists lo hi, py_min l = Some lo /\ py_max l = Some hi.
Proof. destruct l; [done|]. intros _. simpl. eauto. Qed.

(** The outcome of [moveCursor]: it returns with the cursor one past the end
    of the match, the new bindings and an empty [notQueue], or it raises
    with cursor and bindings untouched. *)
Lemma moveCursor_frame match_ self :
  let out := moveCursor MatchLines match_ self in
  c1Pass (snd out) = c1Pass self /\ c1Length (snd out) = c1Length self /\
  dagQueue (snd out) = dagQueue self /\
  ((fst out = Return tt /\
    cursor self <= MatchScope.end_ (MatchInfo.scope match_) /\
    cursor (snd out) = MatchScope.end_ (MatchInfo.scope match_) + 1 /\
    variables (snd out) = MatchInfo.variables match_ /\
    notQueue (snd out) = []) \/
   ((exists e, fst out = Raise e) /\
    cursor (snd out) = cursor self /\ variables (snd out) = variables self /\
    notQueue (snd out) = notQueue self)).
Proof.
  simpl. rewrite moveCursor_unfold.
  destruct (bool_decide _) eqn:Hb; [|simpl; eauto 10].
  apply bool_decide_eq_true_1 in Hb.
  rewrite handleNotQueue_unfold.
  destruct (handleNotQueue_loop _ _ _ _ _) as [[]|e]; simpl; eauto 12.
Qed.

(** A match returned by [findMatchingLine] is a single, unclaimed line of
    the scope that the pass really has. *)
Lemma findMatchingLine_loop_elem statement c1Pass variables excludeLines indices m :
  findMatchingLine_loop MatchLines statement c1Pass variables excludeLines indices
  = Return (Some m) ->
  exists i d, m = MatchInfo.mk (MatchScope.mk i i) (ImmutableDict d) /\
    i ∈ indices /\ (i ∉ excludeLines) /\
    is_Some (getitem (C1visualizerPass.body c1Pass) i).
Proof.
  induction indices as [|a rest IH]; simpl; [done|].
  destruct (decide (a ∈ excludeLines)) as [Hex | Hex].
  - intros H. destruct (IH H) as (i & d & -> & Hin & Hn & Hs).
    exists i, d. rewrite elem_of_cons. auto.
  - destruct (getitem _ a) as [line|] eqn:Hline; [|done].
    destruct (MatchLines statement line variables) as [|d] eqn:Hm.
    + intros H. destruct (IH H) as (i & d & -> & Hin & Hn & Hs).
      exists i, d. rewrite elem_of_cons. auto.
    + intros [= <-]. exists a, d. rewrite elem_of_cons, Hline. eauto.
Qed.

Lemma elem_of_range (a b i : Z) : i ∈ range a b <-> a <= i < b.
Proof. unfold range. rewrite elem_of_seqZ. lia. Qed.

Lemma getitem_is_Some_lt {A} (l : list A) (i : Z) :
  0 <= i -> is_Some (getitem l i) -> i < Z.of_nat (length l).
Proof.
  intros H0. rewrite getitem_nonneg by done.
  intros Hs%lookup_lt_is_Some. lia.
Qed.

Lemma findMatchingLine_Return statement c1Pass scope variables excludeLines m :
  findMatchingLine MatchLines statement c1Pass scope variables excludeLines = Return m ->
  exists i d, m = MatchInfo.mk (MatchScope.mk i i) (ImmutableDict d) /\
    MatchScope.start scope <= i < MatchScope.end_ scope /\ (i ∉ excludeLines) /\
    is_Some (getitem (C1visualizerPass.body c1Pass) i).
Proof.
  unfold findMatchingLine.
  destruct (findMatchingLine_loop _ _ _ _ _ _) as [[m'|]|e] eqn:Hloop; try done.
  intros [= <-]. apply findMatchingLine_loop_elem in Hloop as (i & d & -> & Hin & Hn & Hs).
  exists i, d. by rewrite <- elem_of_range.
Qed.

(** The lines claimed by the loop of [handleDagQueue]: one more line of the
    scope per statement, never one claimed before. *)
Lemma handleDagQueue_loop_Return queue c1Pass scope claimed variables matched variables' :
  handleDagQueue_loop MatchLines queue c1Pass scope claimed variables
  = Return (matched, variables') ->
  exists new, matched = claimed ++ new /\ length new = length queue /\
    (NoDup claimed -> NoDup matched) /\
    Forall (fun i => MatchScope.start scope <= i < MatchScope.end_ scope /\
                     is_Some (getitem (C1visualizerPass.body c1Pass) i)) new.
Proof.
  revert claimed variables. induction queue as [|st queue IH]; intros claimed variables; simpl.
  - intros [= <- <-]. exists []. rewrite app_nil_r. auto.
  - destruct (decide (_ = TestStatement.DAG)); [|done].
    destruct (findMatchingLine _ _ _ _ _ _) as [m|e'] eqn:Hfind; [|done].
    apply findMatchingLine_Return in Hfind as (i & d & -> & Hi & Hn & Hs). simpl.
    rewrite decide_True by done. rewrite decide_False by done.
    intros H. destruct (IH _ _ H) as (new & -> & Hlen & Hnd & Hall).
    exists (i :: new). split; [by rewrite <- app_assoc|].
    split; [simpl; lia|]. split.
    + intros Hc. apply Hnd. apply NoDup_app. split; [done|]. split.
      * intros x Hx Hx'%list_elem_of_singleton. by subst.
      * apply NoDup_singleton.
    + by constructor.
Qed.

Lemma handleDagQueue_unfold scope self :
  handleDagQueue MatchLines scope self =
  match dagQueue self with
  | [] => (Return tt, self)
  | _ =>
    match handleDagQueue_loop MatchLines (dagQueue self) (c1Pass self) scope []
            (variables self) with
    | Raise e => (Raise e, self)
    | Return (matchedLines, variables) =>
      match py_min matchedLines, py_max matchedLines with
      | Some lo, Some hi =>
        moveCursor MatchLines (MatchInfo.mk (MatchScope.mk lo hi) variables)
          (set_dagQueue [] self)
      | _, _ => (Raise ValueError, self)
      end
    end
  end.
Proof.
  unfold handleDagQueue, bind, get, ret, lift, raise, modify.
  destruct (dagQueue self) as [|st q]; [done|].
  destruct (handleDagQueue_loop _ _ _ _ _ _) as [[matched vars]|e]; [|done]. simpl.
  destruct (py_min matched), (py_max matched); done.
Qed.

(** The outcome of a DAG flush, whatever the scope. *)
Lemma handleDagQueue_frame scope self :
  let out := handleDagQueue MatchLines scope self in
  c1Pass (snd out) = c1Pass self /\ c1Length (snd out) = c1Length self /\
  (dagQueue (snd out) = [] \/ dagQueue (snd out) = dagQueue self) /\
  (notQueue (snd out) = [] \/ notQueue (snd out) = notQueue self) /\
  ((fst out = Return tt /\ dagQueue (snd out) = [] /\
    (snd out = self \/
     cursor self < cursor (snd out) /\ notQueue (snd out) = [] /\
     (0 <= MatchScope.start scope ->
      cursor (snd out) <= Z.of_nat (length (C1visualizerPass.body (c1Pass self)))))) \/
   ((exists e, fst out = Raise e) /\
    cursor (snd out) = cursor self /\ variables (snd out) = variables self)).
Proof.
  simpl. rewrite handleDagQueue_unfold.
  destruct (dagQueue self) as [|st q] eqn:Hq; [simpl; rewrite Hq; auto 10|].
  destruct (handleDagQueue_loop _ _ _ _ _ _) as [[matched vars]|e] eqn:Hloop;
    [|simpl; rewrite Hq; split_and!; auto; right; eauto].
  apply handleDagQueue_loop_Return in Hloop as (new & -> & Hlen & _ & Hall).
  simpl in *.
  destruct new as [|x new]; [done|].
  destruct (py_min_max_nonempty (x :: new)) as (lo & hi & Hlo & Hhi); [done|].
  rewrite Hlo, Hhi.
  apply py_max_spec in Hhi as [Hhi _].
  rewrite Forall_forall in Hall. destruct (Hall _ Hhi) as [Hr Hs].
  pose proof (moveCursor_frame (MatchInfo.mk (MatchScope.mk lo hi) vars)
                (set_dagQueue [] self)) as Hmc.
  simpl in Hmc.
  destruct Hmc as (Hp & Hl & Hd & [(Hret & Hle & Hcur & Hv & Hn) | ((e & He) & Hcur & Hv & Hn)]).
  - rewrite Hp, Hl, Hd, Hn, Hcur. repeat split; auto.
    left. repeat split; auto. right. repeat split; auto; [lia|].
    intros H0. apply getitem_is_Some_lt in Hs; lia.
  - rewrite Hp, Hl, Hd, Hn, Hcur, Hv. repeat split; auto.
    right. eauto.
Qed.

End Frames.

(** ** Cursor bounds and monotonicity *)

Section Cursor.

Variable MatchLines : Statement -> string -> Variables -> Variables.
Variable EvaluateLine : Statement -> Variables -> option bool.

Lemma handle_unfold statement self :
  handle MatchLines EvaluateLine statement self =
  match (if decide (TestStatement.variant <$> statement = Some TestStatement.DAG)
         then (Return tt, self)
         else handleDagQueue MatchLines
                (MatchScope.mk (cursor self) (c1Length self)) self) with
  | (Return _, flushed) =>
    match statement with
    | None => handleEOF MatchLines flushed
    | Some st =>
      match TestStatement.variant st with
      | TestStatement.InOrder => handleInOrder MatchLines st flushed
      | TestStatement.NextLine => handleNextLine MatchLines st flushed
      | TestStatement.DAG =>
        (Return tt, set_dagQueue (dagQueue flushed ++ [st]) flushed)
      | TestStatement.Not =>
        (Return tt, set_notQueue (notQueue flushed ++ [st]) flushed)
      | TestStatement.Eval => handleEval EvaluateLine st flushed
      end
    end
  | (Raise e, flushed) => (Raise e, flushed)
  end.
Proof.
  unfold handle, bind, get, ret, modify.
  destruct (decide _) as [Hd | Hd].
  - destruct statement as [st|]; [|done]. by destruct (TestStatement.variant st).
  - destruct (handleDagQueue _ _ _) as [[[]|e] flushed]; [|done].
    destruct statement as [st|]; [|done]. by destruct (TestStatement.variant st).
Qed.

(** The three handlers that end in [moveCursor], and [handleEval]: when
    they raise, cursor and bindings are as they found them; when they
    return, the cursor has not moved back. *)
Lemma handleInOrder_frame statement self :
  let out := handleInOrder MatchLines statement self in
  c1Pass (snd out) = c1Pass self /\ c1Length (snd out) = c1Length self /\
  dagQueue (snd out) = dagQueue self /\
  (notQueue (snd out) = [] \/ notQueue (snd out) = notQueue self) /\
  ((fst out = Return tt /\ cursor self < cursor (snd out) /\
    (0 <= cursor self ->
     cursor (snd out) <= Z.of_nat (length (C1visualizerPass.body (c1Pass self))))) \/
   ((exists e, fst out = Raise e) /\
    cursor (snd out) = cursor self /\ variables (snd out) = variables self)).
Proof.
  simpl. rewrite handleInOrder_unfold.
  destruct (findMatchingLine _ _ _ _ _ _) as [m|e] eqn:Hfind;
    [|simpl; split_and!; auto; right; eauto].
  apply findMatchingLine_Return in Hfind as (i & d & -> & Hi & _ & Hs). simpl in Hi.
  destruct (moveCursor_frame MatchLines
              (MatchInfo.mk (MatchScope.mk i i) (ImmutableDict d)) self)
    as (Hp & Hl & Hd & [(Hret & Hle & Hcur & Hv & Hn) | ((e & He) & Hcur & Hv & Hn)]);
    simpl in *.
  - rewrite Hp, Hl, Hd, Hn, Hcur. split_and!; auto. left. split_and!; auto; [lia|].
    intros H0. apply getitem_is_Some_lt in Hs; lia.
  - rewrite Hp, Hl, Hd, Hn, Hcur, Hv. split_and!; auto. right. eauto.
Qed.

Lemma handleNextLine_frame statement self :
  let out := handleNextLine MatchLines statement self in
  c1Pass (snd out) = c1Pass self /\ c1Length (snd out) = c1Length self /\
  dagQueue (snd out) = dagQueue self /\
  (notQueue (snd out) = [] \/ notQueue (snd out) = notQueue self) /\
  ((fst out = Return tt /\ cursor self < cursor (snd out) /\
    (0 <= cursor self ->
     cursor (snd out) <= Z.of_nat (length (C1visualizerPass.body (c1Pass self))))) \/
   ((exists e, fst out = Raise e) /\
    cursor (snd out) = cursor self /\ variables (snd out) = variables self)).
Proof.
  simpl. rewrite handleNextLine_unfold.
  destruct (findMatchingLine _ _ _ _ _ _) as [m|e] eqn:Hfind;
    [|simpl; split_and!; auto; right; eauto].
  apply findMatchingLine_Return in Hfind as (i & d & -> & Hi & _ & Hs). simpl in Hi.
  destruct (moveCursor_frame MatchLines
              (MatchInfo.mk (MatchScope.mk i i) (ImmutableDict d)) self)
    as (Hp & Hl & Hd & [(Hret & Hle & Hcur & Hv & Hn) | ((e & He) & Hcur & Hv & Hn)]);
    simpl in *.
  - rewrite Hp, Hl, Hd, Hn, Hcur. split_and!; auto. left. split_and!; auto; [lia|].
    intros H0. apply getitem_is_Some_lt in Hs; lia.
  - rewrite Hp, Hl, Hd, Hn, Hcur, Hv. split_and!; auto. right. eauto.
Qed.

Lemma handleEOF_frame self :
  let out := handleEOF MatchLines self in
  c1Pass (snd out) = c1Pass self /\ c1Length (snd out) = c1Length self /\
  dagQueue (snd out) = dagQueue self /\
  (notQueue (snd out) = [] \/ notQueue (snd out) = notQueue self) /\
  ((fst out = Return tt /\ cursor self <= c1Length self /\
    cursor (snd out) = c1Length self + 1) \/
   ((exists e, fst out = Raise e) /\
    cursor (snd out) = cursor self /\ variables (snd out) = variables self)).
Proof.
  simpl. rewrite handleEOF_unfold.
  destruct (moveCursor_frame MatchLines
              (MatchInfo.mk (MatchScope.mk (c1Length self) (c1Length self)) PyNone) self)
    as (Hp & Hl & Hd & [(Hret & Hle & Hcur & Hv & Hn) | ((e & He) & Hcur & Hv & Hn)]);
    simpl in *.
  - rewrite Hp, Hl, Hd, Hn, Hcur. split_and!; auto.
  - rewrite Hp, Hl, Hd, Hn, Hcur, Hv. split_and!; auto. right. eauto.
Qed.

Lemma handleEval_frame statement self :
  snd (handleEval EvaluateLine statement self) = self.
Proof. rewrite handleEval_unfold. by destruct (EvaluateLine _ _) as [[]|]. Qed.

Lemma handle_cursor_le statement self :
  cursor self <= cursor (snd (handle MatchLines EvaluateLine statement self)).
Proof.
  rewrite handle_unfold.
  assert (forall flushed, cursor self <= cursor flushed ->
    cursor self <= cursor (snd
      match statement with
      | None => handleEOF MatchLines flushed
      | Some st =>
        match TestStatement.variant st with
        | TestStatement.InOrder => handleInOrder MatchLines st flushed
        | TestStatement.NextLine => handleNextLine MatchLines st flushed
        | TestStatement.DAG =>
          (Return tt, set_dagQueue (dagQueue flushed ++ [st]) flushed)
        | TestStatement.Not =>
          (Return tt, set_notQueue (notQueue flushed ++ [st]) flushed)
        | TestStatement.Eval => handleEval EvaluateLine st flushed
        end
      end)) as Hdispatch.
  { intros flushed Hle. destruct statement as [st|].
    - destruct (TestStatement.variant st); simpl; try done.
      + destruct (handleInOrder_frame st flushed)
          as (_ & _ & _ & _ & [(_ & Hlt & _) | (_ & Hc & _)]); simpl in *; lia.
      + destruct (handleNextLine_frame st flushed)
          as (_ & _ & _ & _ & [(_ & Hlt & _) | (_ & Hc & _)]); simpl in *; lia.
      + by rewrite handleEval_frame.
    - destruct (handleEOF_frame flushed)
        as (_ & _ & _ & _ & [(_ & Hlt & Hc) | (_ & Hc & _)]); simpl in *; lia. }
  destruct (decide _) as [Hd | Hd]; [by apply Hdispatch|].
  destruct (handleDagQueue_frame MatchLines
              (MatchScope.mk (cursor self) (c1Length self)) self)
    as (_ & _ & _ & _ & Hcase); simpl in Hcase.
  destruct (handleDagQueue _ _ _) as [[[]|e] flushed]; simpl in *.
  - apply Hdispatch.
    destruct Hcase as [(_ & _ & [-> | (Hlt & _)]) | (_ & Hc & _)]; lia.
  - destruct Hcase as [(? & _) | (_ & Hc & _)]; [done | lia].
Qed.

(** C7. No transition decreases the cursor: not [handle] of any statement
    or of the end-of-file marker, whether it returns or raises, hence no
    sequence of them, and neither of the two steps inside [handle] that
    write the cursor, the DAG flush and [moveCursor]. *)
Theorem cursor_monotone :
  (forall statement self,
     cursor self <= cursor (snd (handle MatchLines EvaluateLine statement self))) /\
  (forall testStatements self,
     cursor self <= cursor (snd (handleAll MatchLines EvaluateLine testStatements self))) /\
  (forall scope self,
     cursor self <= cursor (snd (handleDagQueue MatchLines scope self))) /\
  (forall match_ self,
     cursor self <= cursor (snd (moveCursor MatchLines match_ self))).
Proof.
  split_and!.
  - apply handle_cursor_le.
  - intros testStatements. induction testStatements as [|st rest IH]; intros self.
    + simpl. lia.
    + simpl. unfold bind.
      pose proof (handle_cursor_le st self) as Hle.
      destruct (handle _ _ st self) as [[[]|e] self']; simpl in *; [|done].
      specialize (IH self'). lia.
  - intros scope self.
    destruct (handleDagQueue_frame MatchLines scope self)
      as (_ & _ & _ & _ & [(_ & _ & [-> | (Hlt & _)]) | (_ & Hc & _)]); simpl in *; lia.
  - intros match_ self.
    destruct (moveCursor_frame MatchLines match_ self)
      as (_ & _ & _ & [(_ & Hle & Hc & _) | (_ & Hc & _)]); simpl in *; lia.
Qed.

End Cursor.

(** ** The invariant of a run *)

Section Invariant.

Variable MatchLines : Statement -> string -> Variables -> Variables.
Variable EvaluateLine : Statement -> Variables -> option bool.

Lemma ExecutionState_init_wellFormed c1Pass :
  wellFormed (ExecutionState_init c1Pass).
Proof. unfold wellFormed. simpl. split_and!; auto; lia. Qed.

Lemma wellFormed_step self self' :
  wellFormed self ->
  c1Pass self' = c1Pass self -> c1Length self' = c1Length self ->
  (dagQueue self' = [] \/ dagQueue self' = dagQueue self) ->
  (notQueue self' = [] \/ notQueue self' = notQueue self) ->
  cursor self <= cursor self' <= c1Length self ->
  wellFormed self'.
Proof.
  intros (Hlen & Hcur & Hdag & Hnot) Hp Hl Hd Hn Hc. unfold wellFormed.
  rewrite Hp, Hl. split_and!; try lia.
  - by destruct Hd as [-> | ->].
  - by destruct Hn as [-> | ->].
Qed.

Lemma handleDagQueue_wellFormed self :
  wellFormed self ->
  wellFormed (snd (handleDagQueue MatchLines
                     (MatchScope.mk (cursor self) (c1Length self)) self)).
Proof.
  intros Hwf. pose proof Hwf as (Hlen & Hcur & _).
  destruct (handleDagQueue_frame MatchLines
              (MatchScope.mk (cursor self) (c1Length self)) self)
    as (Hp & Hl & Hd & Hn & Hcase); simpl in *.
  apply (wellFormed_step self); auto.
  destruct Hcase as [(_ & _ & [-> | (Hlt & _ & Hle)]) | (_ & Hc & _)]; lia.
Qed.

Lemma handle_wellFormed statement self :
  wellFormed self ->
  wellFormed (snd (handle MatchLines EvaluateLine (Some statement) self)).
Proof.
  intros Hwf. rewrite handle_unfold. simpl.
  assert (forall flushed, wellFormed flushed ->
    wellFormed (snd
      match TestStatement.variant statement with
      | TestStatement.InOrder => handleInOrder MatchLines statement flushed
      | TestStatement.NextLine => handleNextLine MatchLines statement flushed
      | TestStatement.DAG =>
        (Return tt, set_dagQueue (dagQueue flushed ++ [statement]) flushed)
      | TestStatement.Not =>
        (Return tt, set_notQueue (notQueue flushed ++ [statement]) flushed)
      | TestStatement.Eval => handleEval EvaluateLine statement flushed
      end)) as Hdispatch.
  { intros flushed Hf. pose proof Hf as (Hlen & Hcur & Hdag & Hnot).
    destruct (TestStatement.variant statement) eqn:Hv; simpl.
    - destruct (handleInOrder_frame MatchLines statement flushed)
        as (Hp & Hl & Hd & Hn & Hcase); simpl in *.
      apply (wellFormed_step flushed); auto.
      destruct Hcase as [(_ & Hlt & Hle) | (_ & Hc & _)]; lia.
    - destruct (handleNextLine_frame MatchLines statement flushed)
        as (Hp & Hl & Hd & Hn & Hcase); simpl in *.
      apply (wellFormed_step flushed); auto.
      destruct Hcase as [(_ & Hlt & Hle) | (_ & Hc & _)]; lia.
    - unfold wellFormed. simpl. split_and!; auto; try lia.
      apply Forall_app. split; [done|]. by constructor.
    - unfold wellFormed. simpl. split_and!; auto; try lia.
      apply Forall_app. split; [done|]. by constructor.
    - by rewrite handleEval_frame. }
  destruct (decide _) as [Hd | Hd]; [by apply Hdispatch|].
  pose proof (handleDagQueue_wellFormed self Hwf) as Hflush.
  destruct (handleDagQueue _ _ _) as [[[]|e] flushed]; simpl in *; [|done].
  by apply Hdispatch.
Qed.

Lemma handleAll_wellFormed statements self :
  wellFormed self ->
  wellFormed (snd (handleAll MatchLines EvaluateLine (Some <$> statements) self)).
Proof.
  revert self. induction statements as [|st rest IH]; intros self Hwf; [done|].
  simpl. unfold bind.
  pose proof (handle_wellFormed st self Hwf) as Hstep.
  destruct (handle _ _ (Some st) self) as [[[]|e] self']; simpl in *; [|done].
  by apply IH.
Qed.

Lemma handle_keeps_pass statement self :
  c1Pass (snd (handle MatchLines EvaluateLine statement self)) = c1Pass self /\
  c1Length (snd (handle MatchLines EvaluateLine statement self)) = c1Length self.
Proof.
  rewrite handle_unfold.
  assert (forall flushed,
    let r := snd
      match statement with
      | None => handleEOF MatchLines flushed
      | Some st =>
        match TestStatement.variant st with
        | TestStatement.InOrder => handleInOrder MatchLines st flushed
        | TestStatement.NextLine => handleNextLine MatchLines st flushed
        | TestStatement.DAG =>
          (Return tt, set_dagQueue (dagQueue flushed ++ [st]) flushed)
        | TestStatement.Not =>
          (Return tt, set_notQueue (notQueue flushed ++ [st]) flushed)
        | TestStatement.Eval => handleEval EvaluateLine st flushed
        end
      end in
    c1Pass r = c1Pass flushed /\ c1Length r = c1Length flushed) as Hdispatch.
  { intros flushed. destruct statement as [st|].
    - destruct (TestStatement.variant st); simpl; try done.
      + destruct (handleInOrder_frame MatchLines st flushed) as (Hp & Hl & _). auto.
      + destruct (handleNextLine_frame MatchLines st flushed) as (Hp & Hl & _). auto.
      + by rewrite handleEval_frame.
    - destruct (handleEOF_frame MatchLines flushed) as (Hp & Hl & _). auto. }
  destruct (decide _); [apply Hdispatch|].
  destruct (handleDagQueue_frame MatchLines
              (MatchScope.mk (cursor self) (c1Length self)) self) as (Hp & Hl & _).
  simpl in *.
  destruct (handleDagQueue _ _ _) as [[[]|e] flushed]; simpl in *; [|done].
  destruct (Hdispatch flushed) as [-> ->]. done.
Qed.

Lemma handleAll_keeps_pass testStatements self :
  c1Pass (snd (handleAll MatchLines EvaluateLine testStatements self)) = c1Pass self /\
  c1Length (snd (handleAll MatchLines EvaluateLine testStatements self)) = c1Length self.
Proof.
  revert self. induction testStatements as [|st rest IH]; intros self; [done|].
  simpl. unfold bind.
  pose proof (handle_keeps_pass st self) as Hstep.
  destruct (handle _ _ st self) as [[[]|e] self']; simpl in *; [|done].
  destruct (IH self') as [-> ->]. done.
Qed.

(** C2 (as the code has it). Along a run from the initial state, after any
    number of statements and whether the last one returned or raised, the
    cursor lies in [0, len], and so it does after the flush that precedes
    the end-of-file marker. Handling the marker takes it to [len + 1] when
    it returns (the marker is matched as a line at index
    [len], and the cursor is put after it) and keeps it in [0, len] when it
    raises. *)
Theorem cursor_bounds (pass : C1visualizerPass.t) (statements : list Statement) :
  let len := Z.of_nat (length (C1visualizerPass.body pass)) in
  let self := snd (handleAll MatchLines EvaluateLine (Some <$> statements)
                     (ExecutionState_init pass)) in
  let flushed := snd (handleDagQueue MatchLines
                        (MatchScope.mk (cursor self) (c1Length self)) self) in
  let out := handle MatchLines EvaluateLine None self in
  0 <= cursor self <= len /\
  0 <= cursor flushed <= len /\
  (fst out = Return tt -> cursor (snd out) = len + 1) /\
  ((exists e, fst out = Raise e) -> 0 <= cursor (snd out) <= len).
Proof.
  intros len self flushed out.
  assert (wellFormed self) as Hwf.
  { apply handleAll_wellFormed, ExecutionState_init_wellFormed. }
  assert (c1Length self = len) as Hlen.
  { subst self. by destruct (handleAll_keeps_pass (Some <$> statements)
                             (ExecutionState_init pass)) as [_ ->]. }
  pose proof Hwf as (_ & Hcur & _). rewrite Hlen in Hcur.
  split; [done|].
  subst out flushed. rewrite handle_unfold. simpl.
  pose proof (handleDagQueue_wellFormed self Hwf) as Hflush.
  destruct (handleDagQueue_frame MatchLines
              (MatchScope.mk (cursor self) (c1Length self)) self)
    as (Hp & Hl & _ & _ & Hcase); simpl in *.
  split; [destruct Hflush as (_ & Hfc & _); rewrite Hl in Hfc; lia|].
  destruct (handleDagQueue _ _ _) as [[[]|e] flushed]; simpl in *.
  - destruct Hflush as (_ & Hfc & _). rewrite Hl, Hlen in Hfc.
    destruct (handleEOF_frame MatchLines flushed)
      as (_ & _ & _ & _ & [(Hret & _ & Hc) | ((e & He) & Hc & _)]); simpl in *.
    + rewrite Hc, Hl, Hlen. split; [done|]. intros [e He]. congruence.
    + rewrite Hc. split; [congruence | done].
  - destruct Hflush as (_ & Hfc & _). rewrite Hl, Hlen in Hfc.
    split; [done | auto].
Qed.

(** C10 (as the code has it). When [handle] raises, cursor and bindings
    are those of the call's entry, or, when a pending DAG group was flushed
    successfully before the statement's own handler raised, those left by
    that flush; with no DAG statement pending they are always those of the
    entry. Each handler taken alone (DAG flush, NOT verification,
    [moveCursor], end of file, InOrder, NextLine, Eval) leaves cursor and
    bindings as it found them whenever it raises. *)
Theorem failure_atomicity :
  (forall statement self e,
     fst (handle MatchLines EvaluateLine statement self) = Raise e ->
     let self' := snd (handle MatchLines EvaluateLine statement self) in
     let flushed := handleDagQueue MatchLines
                      (MatchScope.mk (cursor self) (c1Length self)) self in
     ((cursor self' = cursor self /\ variables self' = variables self) \/
      (dagQueue self <> [] /\ fst flushed = Return tt /\
       cursor self' = cursor (snd flushed) /\
       variables self' = variables (snd flushed))) /\
     (dagQueue self = [] ->
      cursor self' = cursor self /\ variables self' = variables self)) /\
  (forall scope self e,
     fst (handleDagQueue MatchLines scope self) = Raise e ->
     cursor (snd (handleDagQueue MatchLines scope self)) = cursor self /\
     variables (snd (handleDagQueue MatchLines scope self)) = variables self) /\
  (forall scope self e,
     fst (handleNotQueue MatchLines scope self) = Raise e ->
     cursor (snd (handleNotQueue MatchLines scope self)) = cursor self /\
     variables (snd (handleNotQueue MatchLines scope self)) = variables self) /\
  (forall match_ self e,
     fst (moveCursor MatchLines match_ self) = Raise e ->
     cursor (snd (moveCursor MatchLines match_ self)) = cursor self /\
     variables (snd (moveCursor MatchLines match_ self)) = variables self) /\
  (forall self e,
     fst (handleEOF MatchLines self) = Raise e ->
     cursor (snd (handleEOF MatchLines self)) = cursor self /\
     variables (snd (handleEOF MatchLines self)) = variables self) /\
  (forall statement self e,
     fst (handleInOrder MatchLines statement self) = Raise e ->
     cursor (snd (handleInOrder MatchLines statement self)) = cursor self /\
     variables (snd (handleInOrder MatchLines statement self)) = variables self) /\
  (forall statement self e,
     fst (handleNextLine MatchLines statement self) = Raise e ->
     cursor (snd (handleNextLine MatchLines statement self)) = cursor self /\
     variables (snd (handleNextLine MatchLines statement self)) = variables self) /\
  (forall statement self e,
     fst (handleEval EvaluateLine statement self) = Raise e ->
     cursor (snd (handleEval EvaluateLine statement self)) = cursor self /\
     variables (snd (handleEval EvaluateLine statement self)) = variables self).
Proof.
  split_and!.
  - intros statement self e. rewrite handle_unfold.
    assert (forall flushed e,
      let r :=
        match statement with
        | None => handleEOF MatchLines flushed
        | Some st =>
          match TestStatement.variant st with
          | TestStatement.InOrder => handleInOrder MatchLines st flushed
          | TestStatement.NextLine => handleNextLine MatchLines st flushed
          | TestStatement.DAG =>
            (Return tt, set_dagQueue (dagQueue flushed ++ [st]) flushed)
          | TestStatement.Not =>
            (Return tt, set_notQueue (notQueue flushed ++ [st]) flushed)
          | TestStatement.Eval => handleEval EvaluateLine st flushed
          end
        end in
      fst r = Raise e ->
      cursor (snd r) = cursor flushed /\ variables (snd r) = variables flushed)
      as Hdispatch.
    { intros flushed e'. destruct statement as [st|].
      - destruct (TestStatement.variant st); simpl; try done.
        + destruct (handleInOrder_frame MatchLines st flushed)
            as (_ & _ & _ & _ & [(Hret & _) | (_ & Hc & Hv)]); simpl in *;
            [congruence | auto].
        + destruct (handleNextLine_frame MatchLines st flushed)
            as (_ & _ & _ & _ & [(Hret & _) | (_ & Hc & Hv)]); simpl in *;
            [congruence | auto].
        + by rewrite handleEval_frame.
      - destruct (handleEOF_frame MatchLines flushed)
          as (_ & _ & _ & _ & [(Hret & _) | (_ & Hc & Hv)]); simpl in *;
          [congruence | auto]. }
    destruct (decide _) as [Hd | Hd].
    { intros He. split; [left|intros _]; by apply (Hdispatch self e). }
    destruct (handleDagQueue_frame MatchLines
                (MatchScope.mk (cursor self) (c1Length self)) self)
      as (_ & _ & _ & _ & Hcase); simpl in Hcase.
    pose proof (handleDagQueue_unfold MatchLines
                  (MatchScope.mk (cursor self) (c1Length self)) self) as Hunf.
    destruct (handleDagQueue _ _ _) as [[[]|e'] flushed] eqn:Hflush; simpl in *.
    + intros He. destruct (Hdispatch flushed e He) as [Hc Hv]. split.
      * destruct (dagQueue self) as [|st q] eqn:Hq.
        -- left. injection Hunf as <-. done.
        -- right. done.
      * intros Hq. rewrite Hq in Hunf. injection Hunf as <-. done.
    + intros _. destruct Hcase as [(? & _) | (_ & Hc & Hv)]; [done|].
      split; [left|]; done.
  - intros scope self e He.
    destruct (handleDagQueue_frame MatchLines scope self)
      as (_ & _ & _ & _ & [(Hret & _) | (_ & Hc & Hv)]); simpl in *;
      [congruence | auto].
  - intros scope self e _.
    destruct (handleNotQueue_frame MatchLines scope self) as (Hc & Hv & _). auto.
  - intros match_ self e He.
    destruct (moveCursor_frame MatchLines match_ self)
      as (_ & _ & _ & [(Hret & _) | (_ & Hc & Hv & _)]); simpl in *;
      [congruence | auto].
  - intros self e He.
    destruct (handleEOF_frame MatchLines self)
      as (_ & _ & _ & _ & [(Hret & _) | (_ & Hc & Hv)]); simpl in *;
      [congruence | auto].
  - intros statement self e He.
    destruct (handleInOrder_frame MatchLines statement self)
      as (_ & _ & _ & _ & [(Hret & _) | (_ & Hc & Hv)]); simpl in *;
      [congruence | auto].
  - intros statement self e He.
    destruct (handleNextLine_frame MatchLines statement self)
      as (_ & _ & _ & _ & [(Hret & _) | (_ & Hc & Hv)]); simpl in *;
      [congruence | auto].
  - intros statement self e _. by rewrite handleEval_frame.
Qed.

End Invariant.

(** ** The DAG flush *)

Section DagQueue.

Variable MatchLines : Statement -> string -> Variables -> Variables.

Lemma dagGroup_fun body lo hi queue claimed variables m1 v1 m2 v2 :
  dagGroup MatchLines body lo hi queue claimed variables m1 v1 ->
  dagGroup MatchLines body lo hi queue claimed variables m2 v2 ->
  m1 = m2 /\ v1 = v2.
Proof.
  intros H1. revert m2 v2.
  induction H1 as [|st rest claimed variables i d m1 v1 Hfirst Hrest IH];
    intros m2 v2 H2; inversion H2; subst; [done|].
  match goal with
  | H : firstMatch _ _ _ _ _ _ _ ?i' ?d' |- _ =>
    destruct (firstMatch_unique _ _ _ _ _ _ _ _ _ _ _ Hfirst H) as [-> ->]
  end.
  by apply IH.
Qed.

Lemma dagGroup_not_stuck body lo hi queue claimed variables m v culprit v' :
  dagGroup MatchLines body lo hi queue claimed variables m v ->
  dagStuck MatchLines body lo hi queue claimed variables culprit v' ->
  False.
Proof.
  intros H1. revert culprit v'.
  induction H1 as [|st rest claimed variables i d m1 v1 Hfirst Hrest IH];
    intros culprit v' H2; inversion H2; subst.
  - eapply firstMatch_noMatch; eauto.
  - match goal with
    | H : firstMatch _ _ _ _ _ _ _ ?i' ?d' |- _ =>
      destruct (firstMatch_unique _ _ _ _ _ _ _ _ _ _ _ Hfirst H) as [-> ->]
    end.
    eapply IH; eauto.
Qed.

Lemma dagStuck_fun body lo hi queue claimed variables c1 v1 c2 v2 :
  dagStuck MatchLines body lo hi queue claimed variables c1 v1 ->
  dagStuck MatchLines body lo hi queue claimed variables c2 v2 ->
  c1 = c2 /\ v1 = v2.
Proof.
  intros H1. revert c2 v2.
  induction H1 as [st rest claimed variables Hno
                  |st rest claimed variables i d c1 v1 Hfirst Hrest IH];
    intros c2 v2 H2; inversion H2; subst; try done.
  - exfalso. eapply firstMatch_noMatch; eauto.
  - exfalso. eapply firstMatch_noMatch; eauto.
  - match goal with
    | H : firstMatch _ _ _ _ _ _ _ ?i' ?d' |- _ =>
      destruct (firstMatch_unique _ _ _ _ _ _ _ _ _ _ _ Hfirst H) as [-> ->]
    end.
    by apply IH.
Qed.

(** The loop of [handleDagQueue] over a scope inside the pass resolves the
    group as [dagGroup] describes, or stops at the first statement that no
    unclaimed line satisfies. *)
Lemma handleDagQueue_loop_spec queue c1Pass scope claimed variables :
  0 <= MatchScope.start scope ->
  MatchScope.end_ scope <= Z.of_nat (length (C1visualizerPass.body c1Pass)) ->
  Forall (fun st => TestStatement.variant st = TestStatement.DAG) queue ->
  match handleDagQueue_loop MatchLines queue c1Pass scope claimed variables with
  | Return (matched, variables') =>
    dagGroup MatchLines (C1visualizerPass.body c1Pass)
      (MatchScope.start scope) (MatchScope.end_ scope)
      queue claimed variables matched variables'
  | Raise e =>
    exists culprit variables',
      e = MatchFailedException culprit (MatchScope.start scope) variables' /\
      dagStuck MatchLines (C1visualizerPass.body c1Pass)
        (MatchScope.start scope) (MatchScope.end_ scope)
        queue claimed variables culprit variables'
  end.
Proof.
  intros H0 Hend Hq. revert claimed variables.
  induction Hq as [|st queue Hst Hq IH]; intros claimed variables; simpl.
  - constructor.
  - rewrite decide_True by done.
    destruct (firstMatch_or_noMatch MatchLines st c1Pass variables
                (MatchScope.start scope) (MatchScope.end_ scope) claimed H0 Hend)
      as [(i & d & Hfirst) | Hno].
    + rewrite (findMatchingLine_found MatchLines _ _ _ _ _ i d) by done. simpl.
      rewrite decide_True by done.
      rewrite decide_False by (by destruct Hfirst as (_ & ? & _)).
      specialize (IH (claimed ++ [i]) (ImmutableDict d)).
      destruct (handleDagQueue_loop _ _ _ _ _ _) as [[matched vars']|e].
      * econstructor; eauto.
      * destruct IH as (culprit & vars' & -> & Hstuck).
        exists culprit, vars'. split; [done|]. econstructor; eauto.
    + rewrite findMatchingLine_not_found by done.
      exists st, variables. split; [done|]. by constructor.
Qed.

(** C5. A flush over S = [cursor, len). An empty [dagQueue] makes it a
    no-op. Otherwise the queued statements are resolved in list order, each
    claiming the earliest line of S that satisfies it and that no earlier
    statement of the group claimed, under the bindings of the match before
    it ([dagGroup]). When the whole group resolves, the claimed lines are
    pairwise distinct, one per statement; with [lo] their minimum and [hi]
    their maximum, the Not statements pending are verified over
    [cursor, lo) under the bindings held before the flush. When none of
    them is satisfied there, the call returns, the cursor is [hi + 1], the
    bindings are those of the last match and both queues are empty; when
    one is, MatchFailedException carries that Not statement, the line that
    satisfies it and the bindings held before the flush, cursor, bindings
    and [notQueue] are as they were and [dagQueue] is empty. When the group
    is stuck at a statement, MatchFailedException carries that statement,
    the start of S and the bindings reached, and the object is unchanged.
    Resolved or stuck: one of the two always applies. *)
Theorem handleDagQueue_spec (self : ExecutionState) :
  wellFormed self ->
  let flushScope := MatchScope.mk (cursor self) (c1Length self) in
  let body := C1visualizerPass.body (c1Pass self) in
  let out := handleDagQueue MatchLines flushScope self in
  (dagQueue self = [] -> out = (Return tt, self)) /\
  (dagQueue self <> [] ->
   forall matched variables',
     dagGroup MatchLines body (cursor self) (c1Length self)
       (dagQueue self) [] (variables self) matched variables' ->
     NoDup matched /\ length matched = length (dagQueue self) /\
     exists lo hi,
       py_min matched = Some lo /\ py_max matched = Some hi /\
       lo ∈ matched /\ hi ∈ matched /\
       (forall i, i ∈ matched -> cursor self <= lo <= i /\ i <= hi < c1Length self) /\
       (~ notQueueViolated MatchLines (notQueue self) body (variables self)
            (cursor self) lo ->
        fst out = Return tt /\
        cursor (snd out) = hi + 1 /\ variables (snd out) = variables' /\
        dagQueue (snd out) = [] /\ notQueue (snd out) = [] /\
        c1Pass (snd out) = c1Pass self /\ c1Length (snd out) = c1Length self) /\
       (notQueueViolated MatchLines (notQueue self) body (variables self)
          (cursor self) lo ->
        (exists notStatement j,
           fst out = Raise (MatchFailedException notStatement j (variables self)) /\
           notStatement ∈ notQueue self /\ cursor self <= j < lo /\
           lineSatisfies MatchLines notStatement body (variables self) j) /\
        cursor (snd out) = cursor self /\ variables (snd out) = variables self /\
        dagQueue (snd out) = [] /\ notQueue (snd out) = notQueue self /\
        c1Pass (snd out) = c1Pass self /\ c1Length (snd out) = c1Length self)) /\
  (forall culprit variables',
     dagStuck MatchLines body (cursor self) (c1Length self)
       (dagQueue self) [] (variables self) culprit variables' ->
     out = (Raise (MatchFailedException culprit (cursor self) variables'), self)) /\
  ((exists matched variables',
      dagGroup MatchLines body (cursor self) (c1Length self)
        (dagQueue self) [] (variables self) matched variables') \/
   (exists culprit variables',
      dagStuck MatchLines body (cursor self) (c1Length self)
        (dagQueue self) [] (variables self) culprit variables')).
Proof.
  intros (Hlen & Hcur & Hdag & Hnot) flushScope body out.
  pose proof (handleDagQueue_loop_spec (dagQueue self) (c1Pass self) flushScope []
                (variables self)) as Hloop.
  simpl in Hloop. specialize (Hloop ltac:(lia) ltac:(lia) Hdag). fold body in Hloop.
  unfold out. clear out.
  split_and!.
  - intros Hq. rewrite handleDagQueue_unfold. by rewrite Hq.
  - intros Hne matched variables' Hgroup.
    rewrite handleDagQueue_unfold.
    destruct (handleDagQueue_loop _ _ _ _ _ _) as [[m v]|e] eqn:Heq.
    + destruct (dagGroup_fun _ _ _ _ _ _ _ _ _ _ Hgroup Hloop) as [<- <-].
      apply handleDagQueue_loop_Return in Heq as (new & Hm & Hlennew & Hnd & Hall).
      simpl in Hm. subst new.
      split; [apply Hnd, NoDup_nil_2|]. split; [done|].
      assert (matched <> []) as Hmne.
      { intros ->. destruct (dagQueue self); [done | simpl in *; lia]. }
      destruct (py_min_max_nonempty matched Hmne) as (lo & hi & Hlo & Hhi).
      exists lo, hi. rewrite Hlo, Hhi.
      apply py_min_spec in Hlo as [Hlo_in Hlo_le].
      apply py_max_spec in Hhi as [Hhi_in Hhi_le].
      rewrite Forall_forall in Hall. simpl in Hall.
      assert (forall i, i ∈ matched ->
                cursor self <= lo <= i /\ i <= hi < c1Length self) as Hbounds.
      { intros i Hi. destruct (Hall _ Hlo_in) as [? _].
        destruct (Hall _ Hhi_in) as [? _].
        specialize (Hlo_le i Hi). specialize (Hhi_le i Hi). lia. }
      pose proof (Hbounds lo Hlo_in) as Hlo_b.
      pose proof (Hbounds hi Hhi_in) as Hhi_b.
      destruct (moveCursor_outcome MatchLines (set_dagQueue [] self) lo hi variables')
        as [Hok Hbad]; simpl; try done; try lia.
      simpl in Hok, Hbad. fold body in Hok, Hbad.
      destruct (dagQueue self) as [|st q] eqn:Hq; [done|].
      split_and!; try done.
      * intros Hn. destruct (Hok Hn) as (? & ? & ? & ? & ? & ? & ?). by split_and!.
      * intros Hv. destruct (Hbad Hv) as (Hsame & st' & j & Hraise & Hin & Hj & Hs).
        rewrite Hsame. split; [by exists st', j | done].
    + destruct Hloop as (culprit & v' & _ & Hstuck).
      destruct (dagGroup_not_stuck _ _ _ _ _ _ _ _ _ _ Hgroup Hstuck).
  - intros culprit variables' Hstuck.
    rewrite handleDagQueue_unfold.
    destruct (dagQueue self) as [|st q] eqn:Hq; [inversion Hstuck|].
    destruct (handleDagQueue_loop _ _ _ _ _ _) as [[m v]|e] eqn:Heq.
    + destruct (dagGroup_not_stuck _ _ _ _ _ _ _ _ _ _ Hloop Hstuck).
    + destruct Hloop as (culprit' & v' & -> & Hstuck').
      by destruct (dagStuck_fun _ _ _ _ _ _ _ _ _ _ Hstuck Hstuck') as [-> ->].
  - destruct (handleDagQueue_loop _ _ _ _ _ _) as [[m v]|e].
    + left. eauto.
    + right. destruct Hloop as (culprit & v' & _ & Hstuck). eauto.
Qed.

End DagQueue.

(** ** The NextLine handler *)

Section NextLine.

Variable MatchLines : Statement -> string -> Variables -> Variables.

(** With the cursor at the end of the pass, the scope [cursor, cursor + 1)
    holds an index the pass does not have: the subscript raises before any
    MatchFailedException can be built. *)
Lemma handleNextLine_at_end statement self :
  c1Length self = Z.of_nat (length (C1visualizerPass.body (c1Pass self))) ->
  cursor self = c1Length self ->
  handleNextLine MatchLines statement self = (Raise IndexError, self).
Proof.
  intros Hlen Hcur. rewrite handleNextLine_unfold. unfold findMatchingLine. simpl.
  rewrite range_cons by lia. rewrite range_nil by lia. simpl.
  by rewrite getitem_past_end by lia.
Qed.

(** With the cursor inside the pass, the statement is tried on the current
    line alone. *)
Lemma handleNextLine_within statement self line :
  0 <= cursor self ->
  C1visualizerPass.body (c1Pass self) !! Z.to_nat (cursor self) = Some line ->
  handleNextLine MatchLines statement self =
  match MatchLines statement line (variables self) with
  | ImmutableDict d =>
    match handleNotQueue MatchLines (MatchScope.mk (cursor self) (cursor self)) self with
    | (Return _, self') =>
      (Return tt, set_variables (ImmutableDict d) (set_cursor (cursor self + 1) self'))
    | (Raise e, self') => (Raise e, self')
    end
  | PyNone =>
    (Raise (MatchFailedException statement (cursor self) (variables self)), self)
  end.
Proof.
  intros H0 Hline. rewrite handleNextLine_unfold. unfold findMatchingLine. simpl.
  rewrite range_cons by lia. rewrite range_nil by lia. simpl.
  rewrite getitem_nonneg, Hline by done.
  destruct (MatchLines statement line (variables self)) as [|d]; [done|].
  apply moveCursor_line. lia.
Qed.

End NextLine.

(** C3. The test case [InOrder a; NextLine b] against the pass of the
    single line [a]: the InOrder statement takes the cursor to the end of
    the pass, and the NextLine statement then ends the run with IndexError,
    not with MatchFailedException. *)
Theorem handleNextLine_IndexError_at_end :
  cursor (stateAfter [stmt TestStatement.InOrder "a"]
            (C1visualizerPass.mk "short" ["a"] 300)) = 1 /\
  handleNextLine sampleMatchLines (stmt TestStatement.NextLine "b")
    (stateAfter [stmt TestStatement.InOrder "a"]
       (C1visualizerPass.mk "short" ["a"] 300))
  = (Raise IndexError,
     stateAfter [stmt TestStatement.InOrder "a"]
       (C1visualizerPass.mk "short" ["a"] 300)) /\
  MatchTestCase sampleMatchLines sampleEvaluateLine nextLineAtEndTestCase
    (C1visualizerPass.mk "short" ["a"] 300)
  = Raise IndexError.
Proof.
  split; [by vm_compute|]. split.
  - apply handleNextLine_at_end; by vm_compute.
  - by vm_compute.
Qed.

(** ** The reporting loop *)

Section Reporting.

Variable MatchLines : Statement -> string -> Variables -> Variables.
Variable EvaluateLine : Statement -> Variables -> option bool.
Variable fileText : string -> Result string.
Variable testFailedOutcome : string -> Statement -> Variables -> Result unit.

Lemma MatchFiles_loop_app before after c1File targetArch debuggableMode :
  MatchFiles_loop MatchLines EvaluateLine fileText testFailedOutcome (before ++ after)
    c1File targetArch debuggableMode =
  match MatchFiles_loop MatchLines EvaluateLine fileText testFailedOutcome before
          c1File targetArch debuggableMode with
  | (events, Return _) =>
    (events ++ fst (MatchFiles_loop MatchLines EvaluateLine fileText testFailedOutcome
                      after c1File targetArch debuggableMode),
     snd (MatchFiles_loop MatchLines EvaluateLine fileText testFailedOutcome
            after c1File targetArch debuggableMode))
  | (events, Raise e) => (events, Raise e)
  end.
Proof.
  induction before as [|tc before IH]; simpl.
  - by destruct (MatchFiles_loop _ _ _ _ after _ _ _).
  - destruct (decide _); [done|]. destruct (decide _); [done|].
    destruct (C1visualizerFile.findPass _ _) as [c1Pass|];
      [|by destruct (fileText _)].
    destruct (MatchTestCase _ _ _ _) as [[]|[]]; try done.
    + rewrite IH.
      destruct (MatchFiles_loop _ _ _ _ before _ _ _) as [events [[]|e]]; done.
    + destruct (fileText _) as [text|e]; [|done].
      destruct (testFailedOutcome _ _ _) as [[]|e]; [|done].
      rewrite IH.
      destruct (MatchFiles_loop _ _ _ _ before _ _ _) as [events [[]|e]]; done.
Qed.

(** The message of a failure report determines the line it names. *)
Lemma failureMessage_inj statement lineNo lineNo' :
  failureMessage statement lineNo = failureMessage statement lineNo' ->
  lineNo = lineNo'.
Proof.
  unfold failureMessage. intros Heq.
  destruct (decide _); apply (inj (String.app _)) in Heq;
    by apply (inj pretty) in Heq.
Qed.

(** C9. A test case that is not skipped, whose pass is found and whose
    run raises MatchFailedException, at any position of the list that the
    loop reaches: the exception is caught and the message is built from the
    absolute line number [startLineNo + lineNo], which it determines. The
    handler then reads the dump. When the dump is read and
    [Logger.testFailed] returns, the events logged for the test case are
    its start, the dump, and the failure with that message, the statement
    and the bindings of the exception, and the loop goes on with the test
    cases after it, whose events and outcome are those of processing them
    on their own. When [Logger.testFailed] does not return, the loop ends
    there, after the report. When reading the dump raises, that exception
    leaves [MatchFiles] after the start of the test was logged: no failure
    is reported and the test cases after it are not run. *)
Theorem MatchFiles_keeps_going
    (checkerFile : CheckerFile.t) (c1File : C1visualizerFile.t)
    (targetArch : option string) (debuggableMode : bool)
    (before after : list TestCase.t) (testCase : TestCase.t)
    (c1Pass : C1visualizerPass.t) (events : list Logger.Event)
    (statement : Statement) (lineNo : Z) (variables : Variables) :
  CheckerFile.testCases checkerFile = before ++ testCase :: after ->
  MatchFiles_loop MatchLines EvaluateLine fileText testFailedOutcome before
    c1File targetArch debuggableMode = (events, Return tt) ->
  applicable targetArch debuggableMode testCase ->
  C1visualizerFile.findPass c1File (TestCase.name testCase) = Some c1Pass ->
  MatchTestCase MatchLines EvaluateLine testCase c1Pass
    = Raise (MatchFailedException statement lineNo variables) ->
  let rest := MatchFiles_loop MatchLines EvaluateLine fileText testFailedOutcome after
                c1File targetArch debuggableMode in
  let out := MatchFiles MatchLines EvaluateLine fileText testFailedOutcome
               checkerFile c1File targetArch debuggableMode in
  let absLineNo := C1visualizerPass.startLineNo c1Pass + lineNo in
  let msg :=
    if decide (TestStatement.variant statement = TestStatement.Not)
    then "NOT statement matched line " +:+ pretty absLineNo
    else "Statement could not be matched starting from line " +:+ pretty absLineNo in
  let report text :=
    [Logger.startTest (TestCase.name testCase);
     Logger.log text Logger.Error;
     Logger.testFailed msg statement variables] in
  (forall text,
     fileText (C1visualizerFile.fileName c1File) = Return text ->
     testFailedOutcome msg statement variables = Return tt ->
     out = (events ++ report text ++ fst rest, snd rest)) /\
  (forall text e,
     fileText (C1visualizerFile.fileName c1File) = Return text ->
     testFailedOutcome msg statement variables = Raise e ->
     out = (events ++ report text, Raise e)) /\
  (forall e,
     fileText (C1visualizerFile.fileName c1File) = Raise e ->
     out = (events ++ [Logger.startTest (TestCase.name testCase)], Raise e)) /\
  (forall otherLineNo,
     failureMessage statement (C1visualizerPass.startLineNo c1Pass + otherLineNo) = msg ->
     otherLineNo = lineNo).
Proof.
  intros Hcases Hbefore [Harch Hdbg] Hpass Hfail rest out absLineNo msg report.
  assert (msg = failureMessage statement absLineNo) as Hmsg by done.
  assert (out =
    match fileText (C1visualizerFile.fileName c1File) with
    | Raise e => (events ++ [Logger.startTest (TestCase.name testCase)], Raise e)
    | Return text =>
      match testFailedOutcome msg statement variables with
      | Raise e => (events ++ report text, Raise e)
      | Return _ => (events ++ report text ++ fst rest, snd rest)
      end
    end) as Hout.
  { unfold out, MatchFiles. rewrite Hcases, MatchFiles_loop_app, Hbefore. simpl.
    rewrite decide_False by (intros Hn; by apply Hn).
    rewrite decide_False by (intros Hn; by apply Hn).
    rewrite Hpass, Hfail. fold absLineNo. rewrite <- Hmsg.
    destruct (fileText _) as [text|e]; [|done].
    destruct (testFailedOutcome _ _ _) as [[]|e]; [|done].
    fold rest. by destruct rest. }
  split_and!.
  - intros text Hread Hret. by rewrite Hout, Hread, Hret.
  - intros text e Hread Hraise. by rewrite Hout, Hread, Hraise.
  - intros e Hread. by rewrite Hout, Hread.
  - intros otherLineNo Heq. rewrite Hmsg in Heq.
    apply failureMessage_inj in Heq. unfold absLineNo in Heq. lia.
Qed.

End Reporting.

(** ** The automaton on concrete runs *)

(** Scenario 1: two InOrder statements matched in order; before the
    end-of-file marker the cursor is 2. *)
Example scenario_inorder_success :
  handleAll sampleMatchLines sampleEvaluateLine
    [Some (stmt TestStatement.InOrder "Add"); Some (stmt TestStatement.InOrder "Return")]
    (ExecutionState_init (samplePass ["Add"; "Return"]))
  = (Return tt,
     {| cursor := 2; c1Pass := samplePass ["Add"; "Return"]; c1Length := 2;
        variables := ImmutableDict (<["Return" := "Return"]> {["Add" := "Add"]});
        dagQueue := []; notQueue := [] |}).
Proof. by vm_compute. Qed.

(** Scenario 2: an InOrder statement that no line satisfies fails at the
    start of its scope. *)
Example scenario_inorder_failure :
  fst (handleAll sampleMatchLines sampleEvaluateLine
         [Some (stmt TestStatement.InOrder "Mul")]
         (ExecutionState_init (samplePass ["Add"; "Return"])))
  = Raise (MatchFailedException (stmt TestStatement.InOrder "Mul") 0 (ImmutableDict ∅)).
Proof. by vm_compute. Qed.

(** Scenario 3: a DAG group declared against the order of the lines. *)
Example scenario_dag_unordered :
  handleDagQueue sampleMatchLines (MatchScope.mk 0 2)
    (stateAfter [stmt TestStatement.DAG "y"; stmt TestStatement.DAG "x"]
       (samplePass ["x"; "y"]))
  = (Return tt,
     {| cursor := 2; c1Pass := samplePass ["x"; "y"]; c1Length := 2;
        variables := ImmutableDict (<["x" := "x"]> {["y" := "y"]});
        dagQueue := []; notQueue := [] |}).
Proof. by vm_compute. Qed.

(** Scenario 4: two DAG statements cannot claim the same line. *)
Example scenario_dag_claims :
  fst (handleDagQueue sampleMatchLines (MatchScope.mk 0 2)
         (stateAfter [stmt TestStatement.DAG "x"; stmt TestStatement.DAG "x"]
            (samplePass ["x"; "x"]))) = Return tt /\
  fst (handleDagQueue sampleMatchLines (MatchScope.mk 0 1)
         (stateAfter [stmt TestStatement.DAG "x"; stmt TestStatement.DAG "x"]
            (samplePass ["x"])))
  = Raise (MatchFailedException (stmt TestStatement.DAG "x") 0
             (ImmutableDict {["x" := "x"]})).
Proof. split; by vm_compute. Qed.

(** Scenario 5: a Not statement guarding the lines an InOrder match
    skips. *)
Example scenario_not_guard :
  fst (handleAll sampleMatchLines sampleEvaluateLine
         [Some (stmt TestStatement.Not "b"); Some (stmt TestStatement.InOrder "c")]
         (ExecutionState_init (samplePass ["a"; "b"; "c"])))
  = Raise (MatchFailedException (stmt TestStatement.Not "b") 1 (ImmutableDict ∅)).
Proof. by vm_compute. Qed.

(** Counterexample to C1 as stated: after [InOrder a] on the pass [a; b] the
    cursor is 1, short of the length 2, no DAG statement is pending, and the
    end-of-file marker is handled without an exception; the test case
    passes. *)
Lemma handleEOF_returns_before_end :
  let self := stateAfter [stmt TestStatement.InOrder "a"] (samplePass ["a"; "b"]) in
  cursor self = 1 /\ c1Length self = 2 /\ cursor self <> c1Length self /\
  dagQueue self = [] /\
  fst (handle sampleMatchLines sampleEvaluateLine None self) = Return tt /\
  MatchTestCase sampleMatchLines sampleEvaluateLine
    (TestCase.mk "pass" [stmt TestStatement.InOrder "a"] None false "Test.java" 1)
    (samplePass ["a"; "b"]) = Return tt.
Proof. by vm_compute. Qed.

(** Counterexample to C2 as stated: once the end-of-file marker has been
    handled in scenario 1, the cursor is 3 on a pass of 2 lines. *)
Lemma cursor_past_end_after_EOF :
  let pass := samplePass ["Add"; "Return"] in
  let out := handleAll sampleMatchLines sampleEvaluateLine
               [Some (stmt TestStatement.InOrder "Add");
                Some (stmt TestStatement.InOrder "Return"); None]
               (ExecutionState_init pass) in
  fst out = Return tt /\ cursor (snd out) = 3 /\
  Z.of_nat (length (C1visualizerPass.body pass)) = 2 /\
  ~ (0 <= cursor (snd out) <= Z.of_nat (length (C1visualizerPass.body pass))).
Proof.
  split_and!; try by vm_compute.
  vm_compute. intros [_ H]. by apply H.
Qed.

(** Counterexample to C10 as stated: with the DAG statement [a] pending on
    the pass [a], handling [InOrder zzz] first flushes the group (cursor 0
    to 1, [a] bound) and then raises MatchFailedException; the object keeps
    the cursor and the bindings of the flush, not those it had when the
    statement was handed to [handle]. *)
Lemma handle_raises_after_flush :
  let self := stateAfter [stmt TestStatement.DAG "a"] (samplePass ["a"]) in
  let out := handle sampleMatchLines sampleEvaluateLine
               (Some (stmt TestStatement.InOrder "zzz")) self in
  fst out = Raise (MatchFailedException (stmt TestStatement.InOrder "zzz") 1
                     (ImmutableDict {["a" := "a"]})) /\
  cursor self = 0 /\ cursor (snd out) = 1 /\
  variables self = ImmutableDict ∅ /\
  variables (snd out) = ImmutableDict {["a" := "a"]} /\
  cursor (snd out) <> cursor self /\ variables (snd out) <> variables self.
Proof. split_and!; by vm_compute. Qed.

(** Counterexample to C9 as stated: the first of two test cases raises
    MatchFailedException and the dump cannot be opened when the handler
    reads it for the report. IOError leaves [MatchFiles] after the start
    of the test was logged: the failure is not reported, and the second
    test case, which passes when run on its own, is not run. *)
Lemma MatchFiles_unreadable_dump_stops :
  let c1Pass := C1visualizerPass.mk "first" ["a"; "b"; "c"] 100 in
  let out := MatchFiles sampleMatchLines sampleEvaluateLine missingFileText
               sampleTestFailedOutcome
               (CheckerFile.mk [failingTestCase; passingTestCase])
               sampleFile None false in
  C1visualizerFile.findPass sampleFile (TestCase.name failingTestCase) = Some c1Pass /\
  MatchTestCase sampleMatchLines sampleEvaluateLine failingTestCase c1Pass
    = Raise (MatchFailedException (stmt TestStatement.Not "b") 1 (ImmutableDict ∅)) /\
  out = ([Logger.startTest "first"], Raise IOError) /\
  (forall msg statement variables,
     Logger.testFailed msg statement variables ∉ fst out) /\
  (Logger.startTest "second" ∉ fst out) /\
  MatchFiles sampleMatchLines sampleEvaluateLine missingFileText
    sampleTestFailedOutcome (CheckerFile.mk [passingTestCase]) sampleFile None false
  = ([Logger.startTest "second"; Logger.testPassed], Return tt).
Proof.
  split_and!; try by vm_compute.
  - intros msg statement variables Hin. vm_compute in Hin.
    apply list_elem_of_singleton in Hin. discriminate.
  - intros Hin. vm_compute in Hin.
    apply list_elem_of_singleton in Hin. discriminate.
Qed.

(** ** The theorems at concrete inputs *)

(** [handleNotQueue_sound] on the Not statement [c] checked over [0, 2) of
    the pass [a; b; c]: neither line satisfies it, the call returns and
    [notQueue] is empty afterwards. *)
Lemma handleNotQueue_sound_witness :
  let self := sampleState ["a"; "b"; "c"] 0 [] [stmt TestStatement.Not "c"] in
  let scope := MatchScope.mk 0 2 in
  let out := handleNotQueue sampleMatchLines scope self in
  0 <= MatchScope.start scope /\
  MatchScope.end_ scope <= Z.of_nat (length (C1visualizerPass.body (c1Pass self))) /\
  Forall (fun st => TestStatement.variant st = TestStatement.Not) (notQueue self) /\
  ~ notQueueViolated sampleMatchLines (notQueue self)
      (C1visualizerPass.body (c1Pass self))
      (variables self) (MatchScope.start scope) (MatchScope.end_ scope) /\
  notQueue self = [stmt TestStatement.Not "c"] /\
  fst out = Return tt /\ notQueue (snd out) = [] /\
  cursor (snd out) = 0 /\ variables (snd out) = ImmutableDict ∅.
Proof.
  intros self scope out.
  assert (0 <= MatchScope.start scope) as H0 by (simpl; lia).
  assert (MatchScope.end_ scope
          <= Z.of_nat (length (C1visualizerPass.body (c1Pass self)))) as Hend
    by (simpl; lia).
  assert (Forall (fun st => TestStatement.variant st = TestStatement.Not)
            (notQueue self)) as Hq by (repeat constructor).
  destruct (handleNotQueue_sound sampleMatchLines self scope H0 Hend Hq)
    as (Hiff & _ & Hok).
  assert (~ notQueueViolated sampleMatchLines (notQueue self)
              (C1visualizerPass.body (c1Pass self))
              (variables self) (MatchScope.start scope) (MatchScope.end_ scope))
    as Hn.
  { intros Hv. apply Hiff in Hv as [e He]. vm_compute in He. discriminate He. }
  destruct (Hok Hn) as (Hret & Hnq & Hc & Hv & _).
  exact (conj H0 (conj Hend (conj Hq (conj Hn (conj eq_refl
           (conj Hret (conj Hnq (conj Hc Hv)))))))).
Defined.

(** [handleInOrder_spec] on the statement [InOrder c] at the start of the
    pass [a; b; c], with the Not statement [z] pending: line 2 is the first
    match, no line of [0, 2) satisfies [z], and the call returns with the
    cursor at 3, [c] bound and [notQueue] empty. *)
Lemma handleInOrder_spec_witness :
  let self := sampleState ["a"; "b"; "c"] 0 [] [stmt TestStatement.Not "z"] in
  let statement := stmt TestStatement.InOrder "c" in
  let out := handleInOrder sampleMatchLines statement self in
  c1Length self = Z.of_nat (length (C1visualizerPass.body (c1Pass self))) /\
  0 <= cursor self /\
  Forall (fun st => TestStatement.variant st = TestStatement.Not) (notQueue self) /\
  firstMatch sampleMatchLines statement (C1visualizerPass.body (c1Pass self))
    (variables self) (cursor self) (c1Length self) [] 2 {["c" := "c"]} /\
  ~ notQueueViolated sampleMatchLines (notQueue self)
      (C1visualizerPass.body (c1Pass self)) (variables self) (cursor self) 2 /\
  fst out = Return tt /\
  cursor (snd out) = 2 + 1 /\ variables (snd out) = ImmutableDict {["c" := "c"]} /\
  notQueue (snd out) = [].
Proof.
  intros self statement out.
  assert (c1Length self
          = Z.of_nat (length (C1visualizerPass.body (c1Pass self)))) as Hlen
    by reflexivity.
  assert (0 <= cursor self) as Hcur by (simpl; lia).
  assert (Forall (fun st => TestStatement.variant st = TestStatement.Not)
            (notQueue self)) as Hq by (repeat constructor).
  assert (firstMatch sampleMatchLines statement (C1visualizerPass.body (c1Pass self))
            (variables self) (cursor self) (c1Length self) [] 2 {["c" := "c"]})
    as Hfirst.
  { pose proof (findMatchingLine_loop_range sampleMatchLines statement (c1Pass self)
                  (variables self) [] 0 3 ltac:(lia) ltac:(simpl; lia)) as Hscan.
    destruct (findMatchingLine_loop _ _ _ _ _ _) as [[m|]|e] eqn:Hloop;
      vm_compute in Hloop; try discriminate.
    destruct Hscan as (i & d & -> & Hf).
    inversion Hloop; subst i d. exact Hf. }
  assert (~ notQueueViolated sampleMatchLines (notQueue self)
              (C1visualizerPass.body (c1Pass self)) (variables self) (cursor self) 2)
    as Hn.
  { pose proof (handleNotQueue_loop_spec sampleMatchLines (notQueue self)
                  (C1visualizerPass.body (c1Pass self)) (variables self)
                  (MatchScope.mk 0 2) ltac:(simpl; lia) ltac:(simpl; lia) Hq) as Hl.
    destruct (handleNotQueue_loop _ _ _ _ _) as [[]|e] eqn:Hloop;
      vm_compute in Hloop; try discriminate.
    exact Hl. }
  destruct (proj1 (handleInOrder_spec sampleMatchLines self statement Hlen Hcur Hq)
              2 {["c" := "c"]} Hfirst) as (_ & Hok & _).
  destruct (Hok Hn) as (Hret & Hc & Hv & Hnq & _).
  exact (conj Hlen (conj Hcur (conj Hq (conj Hfirst (conj Hn
           (conj Hret (conj Hc (conj Hv Hnq)))))))).
Defined.

(** [handleEOF_spec] on the state of the run [InOrder a] over the pass
    [a; b], cursor 1 of 2. *)
Lemma handleEOF_spec_witness :
  let self := stateAfter [stmt TestStatement.InOrder "a"] (samplePass ["a"; "b"]) in
  wellFormed self /\
  (handleEOF sampleMatchLines self =
     match handleNotQueue sampleMatchLines
             (MatchScope.mk (cursor self) (c1Length self)) self with
     | (Return _, self') =>
       (Return tt, set_variables PyNone (set_cursor (c1Length self + 1) self'))
     | (Raise e, self') => (Raise e, self')
     end /\
   (fst (handleEOF sampleMatchLines self) = Return tt <->
    ~ notQueueViolated sampleMatchLines (notQueue self)
        (C1visualizerPass.body (c1Pass self))
        (variables self) (cursor self) (c1Length self)) /\
   (fst (handleEOF sampleMatchLines self) = Return tt ->
    cursor (snd (handleEOF sampleMatchLines self)) = c1Length self + 1) /\
   (dagQueue self = [] ->
    handle sampleMatchLines sampleEvaluateLine None self
    = handleEOF sampleMatchLines self)).
Proof.
  intros self.
  assert (wellFormed self) as Hwf.
  { apply handleAll_wellFormed, ExecutionState_init_wellFormed. }
  exact (conj Hwf (handleEOF_spec sampleMatchLines sampleEvaluateLine self Hwf)).
Defined.

(** [handleEval_spec] on an Eval statement whose variable is not bound. *)
Lemma handleEval_spec_witness :
  let self := sampleState ["a"] 0 [] [] in
  let statement := stmt TestStatement.Eval "x" in
  sampleEvaluateLine statement (variables self) = Some false /\
  snd (handleEval sampleEvaluateLine statement self) = self /\
  fst (handleEval sampleEvaluateLine statement self)
  = Raise (MatchFailedException statement (cursor self) (variables self)) /\
  (TestStatement.variant statement = TestStatement.Eval -> dagQueue self = [] ->
   handle sampleMatchLines sampleEvaluateLine (Some statement) self
   = handleEval sampleEvaluateLine statement self).
Proof.
  intros self statement.
  assert (sampleEvaluateLine statement (variables self) = Some false) as Hfalse
    by (by vm_compute).
  destruct (handleEval_spec sampleMatchLines sampleEvaluateLine self statement)
    as (Hsame & Hfail & _ & _ & _ & Hhandle).
  exact (conj Hfalse (conj Hsame (conj (proj2 Hfail Hfalse) Hhandle))).
Defined.

(** [cursor_bounds] on scenario 1. *)
Lemma cursor_bounds_witness :
  let pass := samplePass ["Add"; "Return"] in
  let statements := [stmt TestStatement.InOrder "Add";
                     stmt TestStatement.InOrder "Return"] in
  let len := Z.of_nat (length (C1visualizerPass.body pass)) in
  let self := snd (handleAll sampleMatchLines sampleEvaluateLine (Some <$> statements)
                     (ExecutionState_init pass)) in
  let out := handle sampleMatchLines sampleEvaluateLine None self in
  fst out = Return tt /\
  0 <= cursor self <= len /\ cursor (snd out) = len + 1.
Proof.
  intros pass statements len self out.
  assert (fst out = Return tt) as Hret by (by vm_compute).
  destruct (cursor_bounds sampleMatchLines sampleEvaluateLine pass statements)
    as (Hin & _ & Hafter & _).
  exact (conj Hret (conj Hin (Hafter Hret))).
Defined.

(** [failure_atomicity] where [handle] raises after a successful flush. *)
Lemma failure_atomicity_witness :
  let self := stateAfter [stmt TestStatement.DAG "a"] (samplePass ["a"]) in
  let statement := Some (stmt TestStatement.InOrder "zzz") in
  let e := MatchFailedException (stmt TestStatement.InOrder "zzz") 1
             (ImmutableDict {["a" := "a"]}) in
  fst (handle sampleMatchLines sampleEvaluateLine statement self) = Raise e /\
  let self' := snd (handle sampleMatchLines sampleEvaluateLine statement self) in
  let flushed := handleDagQueue sampleMatchLines
                   (MatchScope.mk (cursor self) (c1Length self)) self in
  ((cursor self' = cursor self /\ variables self' = variables self) \/
   (dagQueue self <> [] /\ fst flushed = Return tt /\
    cursor self' = cursor (snd flushed) /\
    variables self' = variables (snd flushed))) /\
  (dagQueue self = [] ->
   cursor self' = cursor self /\ variables self' = variables self).
Proof.
  intros self statement e.
  assert (fst (handle sampleMatchLines sampleEvaluateLine statement self) = Raise e)
    as Hraise by (by vm_compute).
  exact (conj Hraise
           (proj1 (failure_atomicity sampleMatchLines sampleEvaluateLine)
              statement self e Hraise)).
Defined.

(** [handleDagQueue_spec] on the group [y; x] queued after the Not
    statement [z] on the pass [a; x; y]: the group claims line 2, then
    line 1; line 0 does not satisfy [z]; the flush returns with the cursor
    at 3, both bindings and both queues empty. *)
Lemma handleDagQueue_spec_witness :
  let self := stateAfter [stmt TestStatement.Not "z"; stmt TestStatement.DAG "y";
                          stmt TestStatement.DAG "x"]
                (samplePass ["a"; "x"; "y"]) in
  let flushScope := MatchScope.mk (cursor self) (c1Length self) in
  let body := C1visualizerPass.body (c1Pass self) in
  let variables' := ImmutableDict (<["x" := "x"]> {["y" := "y"]}) in
  let out := handleDagQueue sampleMatchLines flushScope self in
  wellFormed self /\
  dagQueue self <> [] /\
  dagGroup sampleMatchLines body (cursor self) (c1Length self)
    (dagQueue self) [] (variables self) [2; 1] variables' /\
  NoDup [2; 1] /\ py_min [2; 1] = Some 1 /\ py_max [2; 1] = Some 2 /\
  ~ notQueueViolated sampleMatchLines (notQueue self) body (variables self)
      (cursor self) 1 /\
  notQueue self = [stmt TestStatement.Not "z"] /\
  fst out = Return tt /\
  cursor (snd out) = 2 + 1 /\ variables (snd out) = variables' /\
  dagQueue (snd out) = [] /\ notQueue (snd out) = [].
Proof.
  intros self flushScope body variables' out.
  assert (wellFormed self) as Hwf.
  { apply handleAll_wellFormed, ExecutionState_init_wellFormed. }
  assert (dagQueue self <> []) as Hne by (by vm_compute).
  assert (dagGroup sampleMatchLines body (cursor self) (c1Length self)
            (dagQueue self) [] (variables self) [2; 1] variables') as Hgroup.
  { pose proof (handleDagQueue_loop_spec sampleMatchLines (dagQueue self)
                  (c1Pass self) flushScope [] (variables self)) as Hloop.
    destruct Hwf as (Hlen & Hcur & Hdag & _).
    specialize (Hloop ltac:(simpl; lia) ltac:(simpl; lia) Hdag).
    destruct (handleDagQueue_loop _ _ _ _ _ _) as [[m v]|e] eqn:Heq;
      vm_compute in Heq; try discriminate.
    inversion Heq; subst m v. exact Hloop. }
  assert (~ notQueueViolated sampleMatchLines (notQueue self) body (variables self)
              (cursor self) 1) as Hn.
  { pose proof (handleNotQueue_loop_spec sampleMatchLines (notQueue self)
                  body (variables self) (MatchScope.mk (cursor self) 1)) as Hl.
    destruct Hwf as (_ & _ & _ & Hnot).
    specialize (Hl ltac:(simpl; lia) ltac:(simpl; lia) Hnot).
    destruct (handleNotQueue_loop _ _ _ _ _) as [[]|e] eqn:Hloop;
      vm_compute in Hloop; try discriminate.
    exact Hl. }
  destruct (proj1 (proj2 (handleDagQueue_spec sampleMatchLines self Hwf))
              Hne [2; 1] variables' Hgroup)
    as (Hnd & _ & lo & hi & Hlo & Hhi & _ & _ & _ & Hok & _).
  vm_compute in Hlo. injection Hlo as <-.
  vm_compute in Hhi. injection Hhi as <-.
  destruct (Hok Hn) as (Hret & Hc & Hv & Hdq & Hnq & _).
  exact (conj Hwf (conj Hne (conj Hgroup (conj Hnd (conj eq_refl (conj eq_refl
           (conj Hn (conj eq_refl
              (conj Hret (conj Hc (conj Hv (conj Hdq Hnq)))))))))))).
Defined.

(** [MatchFiles_keeps_going] on three test cases, the second of which
    fails, with a dump that can be read and a logger that returns: the
    failure is reported at line 101 = 100 + 1 of the dump and the third
    test case is still run. *)
Lemma MatchFiles_keeps_going_witness :
  let checkerFile :=
    CheckerFile.mk [passingTestCase; failingTestCase; passingTestCase] in
  let c1Pass := C1visualizerPass.mk "first" ["a"; "b"; "c"] 100 in
  let statement := stmt TestStatement.Not "b" in
  CheckerFile.testCases checkerFile
    = [passingTestCase] ++ failingTestCase :: [passingTestCase] /\
  MatchFiles_loop sampleMatchLines sampleEvaluateLine sampleFileText
    sampleTestFailedOutcome [passingTestCase] sampleFile None false
    = ([Logger.startTest "second"; Logger.testPassed], Return tt) /\
  applicable None false failingTestCase /\
  C1visualizerFile.findPass sampleFile (TestCase.name failingTestCase) = Some c1Pass /\
  MatchTestCase sampleMatchLines sampleEvaluateLine failingTestCase c1Pass
    = Raise (MatchFailedException statement 1 (ImmutableDict ∅)) /\
  sampleFileText (C1visualizerFile.fileName sampleFile) = Return "begin_cfg ..." /\
  sampleTestFailedOutcome "NOT statement matched line 101" statement (ImmutableDict ∅)
    = Return tt /\
  MatchFiles sampleMatchLines sampleEvaluateLine sampleFileText sampleTestFailedOutcome
    checkerFile sampleFile None false
  = ([Logger.startTest "second"; Logger.testPassed;
      Logger.startTest "first";
      Logger.log "begin_cfg ..." Logger.Error;
      Logger.testFailed "NOT statement matched line 101" statement (ImmutableDict ∅);
      Logger.startTest "second"; Logger.testPassed],
     Return tt).
Proof.
  intros checkerFile c1Pass statement.
  assert (CheckerFile.testCases checkerFile
          = [passingTestCase] ++ failingTestCase :: [passingTestCase]) as Hcases
    by reflexivity.
  assert (MatchFiles_loop sampleMatchLines sampleEvaluateLine sampleFileText
            sampleTestFailedOutcome [passingTestCase] sampleFile None false
          = ([Logger.startTest "second"; Logger.testPassed], Return tt)) as Hbefore
    by (by vm_compute).
  assert (applicable None false failingTestCase) as Happ.
  { split; [apply elem_of_cons; by left | reflexivity]. }
  assert (C1visualizerFile.findPass sampleFile (TestCase.name failingTestCase)
          = Some c1Pass) as Hpass by (by vm_compute).
  assert (MatchTestCase sampleMatchLines sampleEvaluateLine failingTestCase c1Pass
          = Raise (MatchFailedException statement 1 (ImmutableDict ∅))) as Hfail
    by (by vm_compute).
  assert (sampleFileText (C1visualizerFile.fileName sampleFile)
          = Return "begin_cfg ...") as Hread by reflexivity.
  assert (sampleTestFailedOutcome "NOT statement matched line 101" statement
            (ImmutableDict ∅) = Return tt) as Hret by reflexivity.
  exact (conj Hcases (conj Hbefore (conj Happ (conj Hpass (conj Hfail
           (conj Hread (conj Hret
           (proj1 (MatchFiles_keeps_going sampleMatchLines sampleEvaluateLine
                     sampleFileText sampleTestFailedOutcome
                     checkerFile sampleFile None false
                     [passingTestCase] [passingTestCase] failingTestCase c1Pass
                     [Logger.startTest "second"; Logger.testPassed]
                     statement 1 (ImmutableDict ∅)
                     Hcases Hbefore Happ Hpass Hfail)
              "begin_cfg ..." Hread Hret)))))))).
Defined.

(** ** Whole runs *)

Section Runs.

Variable MatchLines : Statement -> string -> Variables -> Variables.
Variable EvaluateLine : Statement -> Variables -> option bool.

Lemma handleNotQueue_loop_empty_scope queue body variables a b :
  b <= a ->
  Forall (fun st => TestStatement.variant st = TestStatement.Not) queue ->
  handleNotQueue_loop MatchLines queue body variables (MatchScope.mk a b) = Return tt.
Proof.
  intros Hba Hq. induction Hq as [|st queue Hst Hq IH]; simpl; [done|].
  rewrite decide_True by done. rewrite range_nil by done. simpl. exact IH.
Qed.

Lemma moveCursor_Raise match_ self e :
  0 <= cursor self ->
  cursor self <= MatchScope.end_ (MatchInfo.scope match_) ->
  MatchScope.start (MatchInfo.scope match_)
    <= Z.of_nat (length (C1visualizerPass.body (c1Pass self))) ->
  Forall (fun st => TestStatement.variant st = TestStatement.Not) (notQueue self) ->
  fst (moveCursor MatchLines match_ self) = Raise e ->
  isMatchFailed e.
Proof.
  intros H0 Hend Hstart Hq. rewrite moveCursor_unfold.
  rewrite bool_decide_eq_true_2 by done. rewrite handleNotQueue_unfold.
  pose proof (handleNotQueue_loop_spec MatchLines (notQueue self)
                (C1visualizerPass.body (c1Pass self)) (variables self)
                (MatchScope.mk (cursor self) (MatchScope.start (MatchInfo.scope match_)))
                H0 Hstart Hq) as Hloop.
  destruct (handleNotQueue_loop _ _ _ _ _) as [[]|e']; simpl; [done|].
  intros [= <-]. destruct Hloop as (st & i & -> & _). by exists st, i, (variables self).
Qed.

(** The lines a successful DAG loop claimed, seen from the flush of a
    well-formed state: as many as queued statements, pairwise distinct, all
    in [cursor, len). *)
Lemma handleDagQueue_loop_claims self matched variables' :
  wellFormed self ->
  handleDagQueue_loop MatchLines (dagQueue self) (c1Pass self)
    (MatchScope.mk (cursor self) (c1Length self)) [] (variables self)
  = Return (matched, variables') ->
  length matched = length (dagQueue self) /\ NoDup matched /\
  forall i, i ∈ matched -> cursor self <= i < c1Length self.
Proof.
  intros (Hlen & Hcur & _) Hloop.
  apply handleDagQueue_loop_Return in Hloop as (new & -> & Hlennew & Hnd & Hall).
  simpl in *. split; [done|]. split; [apply Hnd, NoDup_nil_2|].
  rewrite Forall_forall in Hall. intros i Hi. by destruct (Hall i Hi).
Qed.

(** Pairwise distinct integers of [a, h] are at most [h - a + 1]. *)
Lemma NoDup_bounded_length (l : list Z) (a h : Z) :
  NoDup l -> (forall i, i ∈ l -> a <= i <= h) ->
  Z.of_nat (length l) <= Z.max 0 (h - a + 1).
Proof.
  intros Hnd Hin.
  assert (l ⊆+ seqZ a (h - a + 1)) as Hsub.
  { apply NoDup_submseteq; [done|]. intros i Hi. apply elem_of_seqZ.
    specialize (Hin i Hi). lia. }
  apply submseteq_length in Hsub. rewrite length_seqZ in Hsub. lia.
Qed.

Lemma handleDagQueue_Raise self e :
  wellFormed self ->
  fst (handleDagQueue MatchLines (MatchScope.mk (cursor self) (c1Length self)) self)
  = Raise e ->
  isMatchFailed e.
Proof.
  intros Hwf. pose proof Hwf as (Hlen & Hcur & Hdag & Hnot).
  rewrite handleDagQueue_unfold.
  pose proof (handleDagQueue_loop_spec MatchLines (dagQueue self) (c1Pass self)
                (MatchScope.mk (cursor self) (c1Length self)) [] (variables self))
    as Hspec.
  simpl in Hspec. specialize (Hspec ltac:(lia) ltac:(lia) Hdag).
  pose proof (handleDagQueue_loop_claims self) as Hclaims.
  destruct (dagQueue self) as [|st q] eqn:Hq; [done|].
  destruct (handleDagQueue_loop _ _ _ _ _ _) as [[matched vars]|e'] eqn:Hloop.
  - destruct (Hclaims matched vars Hwf eq_refl) as (Hlenm & _ & Hin).
    assert (matched <> []) as Hne.
    { intros ->. simpl in Hlenm. lia. }
    destruct (py_min_max_nonempty matched Hne) as (lo & hi & Hlo & Hhi).
    rewrite Hlo, Hhi.
    apply py_min_spec in Hlo as [Hlo _]. apply py_max_spec in Hhi as [Hhi _].
    pose proof (Hin hi Hhi). pose proof (Hin lo Hlo).
    intros He. apply moveCursor_Raise in He; [done | simpl; try done; lia ..].
  - simpl. intros [= <-]. destruct Hspec as (culprit & v & -> & _).
    by exists culprit, (cursor self), v.
Qed.

(** What [handle] can raise on a well-formed state: a
    MatchFailedException; IndexError, from a NextLine statement only;
    the evaluator's own error, from an Eval statement only. *)
Lemma handle_Raise statement self e :
  wellFormed self ->
  fst (handle MatchLines EvaluateLine statement self) = Raise e ->
  isMatchFailed e \/
  (e = IndexError /\ exists st, statement = Some st /\
     TestStatement.variant st = TestStatement.NextLine) \/
  (e = EvaluateLineError /\ exists st, statement = Some st /\
     TestStatement.variant st = TestStatement.Eval).
Proof.
  intros Hwf. rewrite handle_unfold.
  assert (forall flushed, wellFormed flushed ->
    fst match statement with
        | None => handleEOF MatchLines flushed
        | Some st =>
          match TestStatement.variant st with
          | TestStatement.InOrder => handleInOrder MatchLines st flushed
          | TestStatement.NextLine => handleNextLine MatchLines st flushed
          | TestStatement.DAG =>
            (Return tt, set_dagQueue (dagQueue flushed ++ [st]) flushed)
          | TestStatement.Not =>
            (Return tt, set_notQueue (notQueue flushed ++ [st]) flushed)
          | TestStatement.Eval => handleEval EvaluateLine st flushed
          end
        end = Raise e ->
    isMatchFailed e \/
    (e = IndexError /\ exists st, statement = Some st /\
       TestStatement.variant st = TestStatement.NextLine) \/
    (e = EvaluateLineError /\ exists st, statement = Some st /\
       TestStatement.variant st = TestStatement.Eval)) as Hdispatch.
  { intros flushed (Hlen & Hcur & Hdag & Hnot). destruct statement as [st|].
    - destruct (TestStatement.variant st) eqn:Hv; simpl; try done.
      + rewrite handleInOrder_unfold.
        destruct (findMatchingLine _ _ _ _ _ _) as [m|e'] eqn:Hfind.
        * apply findMatchingLine_Return in Hfind as (i & d & -> & Hi & _ & Hs).
          simpl in Hi. intros He.
          apply moveCursor_Raise in He; [by left | simpl; try done; lia ..].
        * simpl. intros [= <-]. left. revert Hfind. unfold findMatchingLine.
          pose proof (findMatchingLine_loop_range MatchLines st (c1Pass flushed)
                        (variables flushed) [] (cursor flushed) (c1Length flushed)
                        ltac:(lia) ltac:(lia)) as Hscan.
          simpl. destruct (findMatchingLine_loop _ _ _ _ _ _) as [[m|]|e'']; try done.
          intros [= <-]. by eexists _, _, _.
      + rewrite handleNextLine_unfold.
        destruct (findMatchingLine _ _ _ _ _ _) as [m|e'] eqn:Hfind.
        * apply findMatchingLine_Return in Hfind as (i & d & -> & Hi & _ & Hs).
          simpl in Hi. intros He.
          apply getitem_is_Some_lt in Hs; [|lia].
          apply moveCursor_Raise in He; [by left | simpl; try done; lia ..].
        * simpl. intros [= <-]. revert Hfind. unfold findMatchingLine. simpl.
          rewrite range_cons by lia. rewrite range_nil by lia. simpl.
          destruct (getitem _ _) as [line|]; [|intros [= <-]; right; left; eauto].
          destruct (MatchLines st line (variables flushed)); [|done].
          intros [= <-]. left. by eexists _, _, _.
      + rewrite handleEval_unfold.
        destruct (EvaluateLine _ _) as [[]|]; simpl; try done.
        * intros [= <-]. left. by eexists _, _, _.
        * intros [= <-]. right. right. eauto.
    - rewrite handleEOF_unfold. intros He.
      apply moveCursor_Raise in He; [by left | simpl; try done; lia ..]. }
  destruct (decide _) as [Hd | Hd]; [by apply Hdispatch|].
  pose proof (handleDagQueue_wellFormed MatchLines self Hwf) as Hflush.
  pose proof (handleDagQueue_Raise self) as Hraise.
  destruct (handleDagQueue _ _ _) as [[[]|e'] flushed]; simpl in *.
  - by apply Hdispatch.
  - intros [= <-]. left. by apply Hraise.
Qed.

Lemma handleAll_Raise statements self e :
  wellFormed self ->
  fst (handleAll MatchLines EvaluateLine (Some <$> statements) self) = Raise e ->
  isMatchFailed e \/
  (e = IndexError /\ exists st, st ∈ statements /\
     TestStatement.variant st = TestStatement.NextLine) \/
  (e = EvaluateLineError /\ exists st, st ∈ statements /\
     TestStatement.variant st = TestStatement.Eval).
Proof.
  revert self. induction statements as [|st rest IH]; intros self Hwf; [done|].
  simpl. unfold bind.
  pose proof (handle_wellFormed MatchLines EvaluateLine st self Hwf) as Hstep.
  pose proof (handle_Raise (Some st) self) as Hraise.
  destruct (handle _ _ (Some st) self) as [[[]|e'] self']; simpl in *.
  - intros He. destruct (IH self' Hstep He) as [? | [(-> & st' & Hin & Hv)
                                                   | (-> & st' & Hin & Hv)]].
    + by left.
    + right. left. split; [done|]. exists st'. rewrite elem_of_cons. auto.
    + right. right. split; [done|]. exists st'. rewrite elem_of_cons. auto.
  - intros [= <-].
    destruct (Hraise e' Hwf eq_refl) as [? | [(-> & st' & [= <-] & Hv)
                                             | (-> & st' & [= <-] & Hv)]].
    + by left.
    + right. left. split; [done|]. exists st. rewrite elem_of_cons. auto.
    + right. right. split; [done|]. exists st. rewrite elem_of_cons. auto.
Qed.

End Runs.

(** ** Properties of whole test cases *)

Section TestCases.

Variable MatchLines : Statement -> string -> Variables -> Variables.
Variable EvaluateLine : Statement -> Variables -> option bool.

Lemma handleAll_app before after self :
  handleAll MatchLines EvaluateLine (before ++ after) self =
  match handleAll MatchLines EvaluateLine before self with
  | (Return _, self') => handleAll MatchLines EvaluateLine after self'
  | (Raise e, self') => (Raise e, self')
  end.
Proof.
  revert self. induction before as [|st before IH]; intros self; [done|].
  simpl. unfold bind.
  destruct (handle _ _ st self) as [[[]|e] self']; [apply IH | done].
Qed.

(** X1. A test case run against a pass of its own name never ends in
    AssertionError or ValueError: the assertions of [moveCursor],
    [handleDagQueue] and [handleNotQueue] and the [min]/[max] of the flush
    cannot fail. AssertionError is raised only when the names differ,
    IndexError only when the test case has a NextLine statement, and the
    evaluator's own error only when it has an Eval statement; everything
    else is MatchFailedException. *)
Theorem MatchTestCase_exceptions (testCase : TestCase.t) (c1Pass : C1visualizerPass.t)
    (e : Exception) :
  MatchTestCase MatchLines EvaluateLine testCase c1Pass = Raise e ->
  isMatchFailed e \/
  (e = AssertionError /\ TestCase.name testCase <> C1visualizerPass.name c1Pass) \/
  (e = IndexError /\ exists st, st ∈ TestCase.statements testCase /\
     TestStatement.variant st = TestStatement.NextLine) \/
  (e = EvaluateLineError /\ exists st, st ∈ TestCase.statements testCase /\
     TestStatement.variant st = TestStatement.Eval).
Proof.
  unfold MatchTestCase. destruct (decide _) as [Hname | Hname].
  - rewrite handleAll_app.
    pose proof (handleAll_Raise MatchLines EvaluateLine (TestCase.statements testCase)
                  (ExecutionState_init c1Pass)) as Hraise.
    pose proof (handleAll_wellFormed MatchLines EvaluateLine
                  (TestCase.statements testCase) (ExecutionState_init c1Pass)
                  (ExecutionState_init_wellFormed c1Pass)) as Hwf.
    destruct (handleAll _ _ (Some <$> _) _) as [[[]|e'] self']; simpl in *.
    + unfold bind.
      pose proof (handle_Raise MatchLines EvaluateLine None self') as Heof.
      destruct (handle _ _ None self') as [[[]|e'] self'']; simpl in *; [done|].
      intros [= <-].
      destruct (Heof e' Hwf eq_refl) as [? | [(_ & st & ? & _) | (_ & st & ? & _)]];
        [by left | done | done].
    + intros [= <-].
      destruct (Hraise e' (ExecutionState_init_wellFormed c1Pass) eq_refl)
        as [? | [? | ?]]; auto.
  - intros [= <-]. right. left. done.
Qed.

(** The flush of a well-formed state, when it returns, has moved the
    cursor past as many lines as there were queued statements. *)
Lemma handleDagQueue_Return_advance self :
  wellFormed self ->
  let out := handleDagQueue MatchLines
               (MatchScope.mk (cursor self) (c1Length self)) self in
  fst out = Return tt ->
  cursor self + Z.of_nat (length (dagQueue self)) <= cursor (snd out) /\
  dagQueue (snd out) = [].
Proof.
  intros Hwf. simpl. rewrite handleDagQueue_unfold.
  pose proof (handleDagQueue_loop_claims MatchLines self) as Hclaims.
  destruct (dagQueue self) as [|st q] eqn:Hq; [simpl; rewrite Hq; split; [lia|done]|].
  destruct (handleDagQueue_loop _ _ _ _ _ _) as [[matched vars]|e'] eqn:Hloop; [|done].
  destruct (Hclaims matched vars Hwf eq_refl) as (Hlenm & Hnd & Hin).
  assert (matched <> []) as Hne by (intros ->; simpl in Hlenm; lia).
  destruct (py_min_max_nonempty matched Hne) as (lo & hi & Hlo & Hhi).
  rewrite Hlo, Hhi. apply py_max_spec in Hhi as [Hhi Hmax].
  destruct (moveCursor_frame MatchLines (MatchInfo.mk (MatchScope.mk lo hi) vars)
              (set_dagQueue [] self))
    as (_ & _ & Hd & [(_ & _ & Hc & _) | ((e & He) & _)]); simpl in *;
    [|intros Hret; congruence].
  intros _. split; [|done]. rewrite Hc, <- Hlenm.
  pose proof (NoDup_bounded_length matched (cursor self) hi Hnd) as Hbound.
  assert (forall i, i ∈ matched -> cursor self <= i <= hi) as Hrange.
  { intros i Hi. specialize (Hin i Hi). specialize (Hmax i Hi). lia. }
  specialize (Hbound Hrange). specialize (Hin hi Hhi). lia.
Qed.

Lemma handle_Return_advance statement self :
  wellFormed self ->
  let out := handle MatchLines EvaluateLine (Some statement) self in
  fst out = Return tt ->
  cursor self + Z.of_nat (length (dagQueue self))
    + (if lineConsuming statement then 1 else 0)
  <= cursor (snd out) + Z.of_nat (length (dagQueue (snd out))).
Proof.
  intros Hwf. simpl. rewrite handle_unfold. simpl. unfold lineConsuming.
  destruct (decide _) as [Hd | Hd].
  - injection Hd as Hd. rewrite Hd. simpl. rewrite length_app. simpl. lia.
  - pose proof (handleDagQueue_Return_advance self Hwf) as Hflush. simpl in Hflush.
    destruct (handleDagQueue _ _ _) as [[[]|e] flushed]; simpl in *; [|done].
    destruct (Hflush eq_refl) as [Hadv Hempty].
    destruct (TestStatement.variant statement) eqn:Hv; simpl.
    + destruct (handleInOrder_frame MatchLines statement flushed)
        as (_ & _ & Hdq & _ & [(_ & Hlt & _) | ((e & He) & _)]); simpl in *;
        [|intros Hret; congruence].
      intros _. rewrite Hdq, Hempty. simpl. lia.
    + destruct (handleNextLine_frame MatchLines statement flushed)
        as (_ & _ & Hdq & _ & [(_ & Hlt & _) | ((e & He) & _)]); simpl in *;
        [|intros Hret; congruence].
      intros _. rewrite Hdq, Hempty. simpl. lia.
    + by destruct Hd.
    + intros _. rewrite Hempty. simpl. lia.
    + intros _. rewrite handleEval_frame, Hempty. simpl. lia.
Qed.

Lemma handleAll_Return_advance statements self :
  wellFormed self ->
  let out := handleAll MatchLines EvaluateLine (Some <$> statements) self in
  fst out = Return tt ->
  cursor self + Z.of_nat (length (dagQueue self))
    + Z.of_nat (length (List.filter lineConsuming statements))
  <= cursor (snd out) + Z.of_nat (length (dagQueue (snd out))).
Proof.
  revert self. induction statements as [|st rest IH]; intros self Hwf.
  - simpl. intros _. lia.
  - rewrite fmap_cons. cbn [handleAll List.filter]. unfold bind.
    pose proof (handle_wellFormed MatchLines EvaluateLine st self Hwf) as Hstep.
    pose proof (handle_Return_advance st self Hwf) as Hadv. simpl in Hadv.
    destruct (handle _ _ (Some st) self) as [[[]|e] self']; cbn [fst snd] in *;
      [|done].
    intros Hret. specialize (IH self' Hstep Hret). specialize (Hadv eq_refl).
    destruct (lineConsuming st); cbn [length] in *; lia.
Qed.

(** X2. Every InOrder, NextLine and DAG statement takes a line of the pass
    for itself, whatever the line matcher: a test case that passes has at
    most as many such statements as the pass has lines. *)
Theorem MatchTestCase_Return_length (testCase : TestCase.t)
    (c1Pass : C1visualizerPass.t) :
  MatchTestCase MatchLines EvaluateLine testCase c1Pass = Return tt ->
  (length (List.filter lineConsuming (TestCase.statements testCase))
   <= length (C1visualizerPass.body c1Pass))%nat.
Proof.
  unfold MatchTestCase. destruct (decide _) as [Hname | Hname]; [|done].
  rewrite handleAll_app.
  pose proof (handleAll_Return_advance (TestCase.statements testCase)
                (ExecutionState_init c1Pass) (ExecutionState_init_wellFormed c1Pass))
    as Hadv.
  pose proof (handleAll_wellFormed MatchLines EvaluateLine
                (TestCase.statements testCase) (ExecutionState_init c1Pass)
                (ExecutionState_init_wellFormed c1Pass)) as Hwf.
  destruct (handleAll_keeps_pass MatchLines EvaluateLine
              (Some <$> TestCase.statements testCase) (ExecutionState_init c1Pass))
    as [_ Hlen].
  simpl in *.
  destruct (handleAll _ _ (Some <$> _) _) as [[[]|e'] self']; simpl in *; [|done].
  specialize (Hadv eq_refl). unfold bind. rewrite handle_unfold. simpl.
  pose proof (handleDagQueue_Return_advance self' Hwf) as Hflush.
  pose proof (handleDagQueue_wellFormed MatchLines self' Hwf) as Hfwf.
  destruct (handleDagQueue_frame MatchLines
              (MatchScope.mk (cursor self') (c1Length self')) self')
    as (_ & Hl & _).
  simpl in *.
  destruct (handleDagQueue _ _ _) as [[[]|e] flushed]; simpl in *; [|done].
  intros _. destruct (Hflush eq_refl) as [Hf _].
  destruct Hfwf as (_ & Hfc & _). rewrite Hl, Hlen in Hfc. lia.
Qed.



(** X4. What a successful [handle] leaves in the queues. After any
    statement other than a DAG one, and after the end-of-file marker, no DAG
    statement is pending; after an InOrder or NextLine statement and after
    the marker no Not statement is pending either. *)
Theorem handle_Return_queues (statement : option Statement) (self : ExecutionState) :
  fst (handle MatchLines EvaluateLine statement self) = Return tt ->
  let self' := snd (handle MatchLines EvaluateLine statement self) in
  (TestStatement.variant <$> statement <> Some TestStatement.DAG ->
   dagQueue self' = []) /\
  (TestStatement.variant <$> statement = None \/
   TestStatement.variant <$> statement = Some TestStatement.InOrder \/
   TestStatement.variant <$> statement = Some TestStatement.NextLine ->
   notQueue self' = []).
Proof.
  rewrite handle_unfold. destruct (decide _) as [Hd | Hd].
  - destruct statement as [st|]; [|done]. injection Hd as Hd. simpl. rewrite Hd.
    simpl. intros _. split; [done|]. intros [? | [? | ?]]; done.
  - destruct (handleDagQueue_frame MatchLines
                (MatchScope.mk (cursor self) (c1Length self)) self)
      as (_ & _ & _ & _ & Hcase). simpl in Hcase.
    destruct (handleDagQueue _ _ _) as [[[]|e] flushed]; simpl in *; [|done].
    destruct Hcase as [(_ & Hempty & _) | ((e & He) & _)]; [|done].
    destruct statement as [st|]; simpl.
    + destruct (TestStatement.variant st) eqn:Hv; simpl.
      * rewrite handleInOrder_unfold.
        destruct (findMatchingLine _ _ _ _ _ _) as [m|e]; [|done].
        destruct (moveCursor_frame MatchLines m flushed)
          as (_ & _ & Hdq & [(_ & _ & _ & _ & Hn) | ((e & He) & _)]); simpl in *;
          [|intros Hret; congruence].
        intros _. rewrite Hdq, Hn. done.
      * rewrite handleNextLine_unfold.
        destruct (findMatchingLine _ _ _ _ _ _) as [m|e]; [|done].
        destruct (moveCursor_frame MatchLines m flushed)
          as (_ & _ & Hdq & [(_ & _ & _ & _ & Hn) | ((e & He) & _)]); simpl in *;
          [|intros Hret; congruence].
        intros _. rewrite Hdq, Hn. done.
      * destruct Hd. simpl. by rewrite Hv.
      * intros _. split; [done|]. intros [? | [? | ?]]; done.
      * rewrite handleEval_frame. intros _. split; [done|].
        intros [? | [? | ?]]; done.
    + rewrite handleEOF_unfold.
      destruct (moveCursor_frame MatchLines
                  (MatchInfo.mk (MatchScope.mk (c1Length flushed) (c1Length flushed))
                     PyNone) flushed)
        as (_ & _ & Hdq & [(_ & _ & _ & _ & Hn) | ((e & He) & _)]); simpl in *;
        [|intros Hret; congruence].
      intros _. rewrite Hdq, Hn. done.
Qed.

End TestCases.

Section MoreHandlers.

Variable MatchLines : Statement -> string -> Variables -> Variables.
Variable EvaluateLine : Statement -> Variables -> option bool.
Variable fileText : string -> Result string.
Variable testFailedOutcome : string -> Statement -> Variables -> Result unit.

(** X5. A NextLine statement skips no line, so the Not statements pending
    when it is handled are verified against nothing: with the cursor inside
    the pass the outcome depends on the current line alone. When that line
    satisfies the statement, the call returns whatever [notQueue] held, even
    a Not statement that the line satisfies; the cursor is one further, the
    bindings are those of the match and [notQueue] is empty. When it does
    not, MatchFailedException carries the statement, the cursor and the
    current bindings, and the object is unchanged. *)
Theorem handleNextLine_discards_notQueue (self : ExecutionState)
    (statement : Statement) (line : string) :
  0 <= cursor self ->
  C1visualizerPass.body (c1Pass self) !! Z.to_nat (cursor self) = Some line ->
  Forall (fun st => TestStatement.variant st = TestStatement.Not) (notQueue self) ->
  let out := handleNextLine MatchLines statement self in
  (forall d,
     MatchLines statement line (variables self) = ImmutableDict d ->
     fst out = Return tt /\
     cursor (snd out) = cursor self + 1 /\ variables (snd out) = ImmutableDict d /\
     notQueue (snd out) = [] /\ dagQueue (snd out) = dagQueue self /\
     c1Pass (snd out) = c1Pass self /\ c1Length (snd out) = c1Length self) /\
  (MatchLines statement line (variables self) = PyNone ->
   out = (Raise (MatchFailedException statement (cursor self) (variables self)), self)).
Proof.
  intros H0 Hline Hq out. unfold out.
  rewrite (handleNextLine_within MatchLines _ _ line) by done.
  split.
  - intros d ->. rewrite handleNotQueue_unfold.
    rewrite handleNotQueue_loop_empty_scope by (done || lia). by simpl.
  - by intros ->.
Qed.

(** The run stops at the first statement that raises: the statements
    after it are not handled, and the object stays as that statement left
    it. When the first part of a run returns, the rest continues from the
    state it reached. *)
Lemma handleAll_stops_at_first_failure
    (before after : list (option Statement)) (self : ExecutionState) :
  (forall e, fst (handleAll MatchLines EvaluateLine before self) = Raise e ->
     handleAll MatchLines EvaluateLine (before ++ after) self
     = handleAll MatchLines EvaluateLine before self) /\
  (fst (handleAll MatchLines EvaluateLine before self) = Return tt ->
   handleAll MatchLines EvaluateLine (before ++ after) self
   = handleAll MatchLines EvaluateLine after
       (snd (handleAll MatchLines EvaluateLine before self))).
Proof.
  rewrite handleAll_app.
  destruct (handleAll _ _ before self) as [[[]|e] self']; simpl; split; done.
Qed.

Lemma handleAll_only_Not statements self :
  dagQueue self = [] ->
  Forall (fun st => TestStatement.variant st = TestStatement.Not) statements ->
  handleAll MatchLines EvaluateLine (Some <$> statements) self
  = (Return tt, set_notQueue (notQueue self ++ statements) self).
Proof.
  intros Hd Hq. revert self Hd.
  induction Hq as [|st rest Hst Hq IH]; intros self Hd.
  - simpl. rewrite app_nil_r. by destruct self.
  - rewrite fmap_cons. cbn [handleAll]. unfold bind. rewrite handle_unfold. simpl.
    rewrite Hst. rewrite decide_False by done.
    rewrite handleDagQueue_unfold, Hd. rewrite IH by done. simpl.
    by rewrite <- app_assoc.
Qed.

(** X6. A test case made of Not statements only passes exactly when no
    line of the whole pass satisfies any of them under the empty bindings:
    the statements are all still pending at the end-of-file marker, which
    verifies them over [0, len). *)
Theorem MatchTestCase_only_Not (testCase : TestCase.t) (c1Pass : C1visualizerPass.t) :
  TestCase.name testCase = C1visualizerPass.name c1Pass ->
  Forall (fun st => TestStatement.variant st = TestStatement.Not)
    (TestCase.statements testCase) ->
  (MatchTestCase MatchLines EvaluateLine testCase c1Pass = Return tt <->
   ~ notQueueViolated MatchLines (TestCase.statements testCase)
       (C1visualizerPass.body c1Pass) (ImmutableDict ∅)
       0 (Z.of_nat (length (C1visualizerPass.body c1Pass)))) /\
  (forall e, MatchTestCase MatchLines EvaluateLine testCase c1Pass = Raise e ->
     exists statement i,
       e = MatchFailedException statement i (ImmutableDict ∅) /\
       statement ∈ TestCase.statements testCase /\
       lineSatisfies MatchLines statement (C1visualizerPass.body c1Pass)
         (ImmutableDict ∅) i).
Proof.
  intros Hname Hq. unfold MatchTestCase. rewrite decide_True by done.
  rewrite handleAll_app, handleAll_only_Not by done. simpl. unfold bind.
  rewrite handle_unfold, handleDagQueue_unfold. simpl.
  rewrite handleEOF_unfold, moveCursor_unfold. simpl.
  rewrite bool_decide_eq_true_2 by lia. rewrite handleNotQueue_unfold. simpl.
  pose proof (handleNotQueue_loop_spec MatchLines (TestCase.statements testCase)
                (C1visualizerPass.body c1Pass) (ImmutableDict ∅)
                (MatchScope.mk 0 (Z.of_nat (length (C1visualizerPass.body c1Pass)))))
    as Hloop.
  simpl in Hloop. specialize (Hloop ltac:(lia) ltac:(lia) Hq).
  destruct (handleNotQueue_loop _ _ _ _ _) as [[]|e]; simpl.
  - split; [done|]. intros e He. done.
  - destruct Hloop as (st & i & -> & Hin & Hi & Hs). split.
    + split; [done|]. intros Hn. destruct Hn. by exists st, i.
    + intros e [= <-]. by exists st, i.
Qed.

(** X7. The test cases whose architecture or debuggable mode does not
    match are never run and leave no trace: the events and the outcome of
    [MatchFiles] are those of the applicable test cases alone. *)
Theorem MatchFiles_skips_others (testCases : list TestCase.t)
    (c1File : C1visualizerFile.t) (targetArch : option string)
    (debuggableMode : bool) :
  MatchFiles_loop MatchLines EvaluateLine fileText testFailedOutcome testCases
    c1File targetArch debuggableMode
  = MatchFiles_loop MatchLines EvaluateLine fileText testFailedOutcome
      (filter (applicable targetArch debuggableMode) testCases)
      c1File targetArch debuggableMode.
Proof.
  induction testCases as [|tc rest IH]; [done|].
  rewrite filter_cons. destruct (decide (applicable _ _ tc)) as [[Harch Hdbg] | Hn].
  - simpl. repeat case_decide; try done. by rewrite IH.
  - simpl. destruct (decide (TestCase.testArch tc ∉ _)) as [|Harch]; [done|].
    destruct (decide (TestCase.forDebuggable tc ≠ _)) as [|Hdbg]; [done|].
    destruct Hn. split.
    + by destruct (decide (TestCase.testArch tc ∈ [None; targetArch])).
    + by destruct (decide (TestCase.forDebuggable tc = debuggableMode)).
Qed.

(** X8. [MatchFiles] catches MatchFailedException and nothing else: when
    the run of an applicable test case raises any other exception (the
    IndexError of a NextLine statement at the end of the pass, for one), the
    loop is left with that exception after the start of the test was
    logged, and the test cases after it are not run. *)
Theorem MatchFiles_aborts
    (checkerFile : CheckerFile.t) (c1File : C1visualizerFile.t)
    (targetArch : option string) (debuggableMode : bool)
    (before after : list TestCase.t) (testCase : TestCase.t)
    (c1Pass : C1visualizerPass.t) (events : list Logger.Event) (e : Exception) :
  CheckerFile.testCases checkerFile = before ++ testCase :: after ->
  MatchFiles_loop MatchLines EvaluateLine fileText testFailedOutcome before
    c1File targetArch debuggableMode = (events, Return tt) ->
  applicable targetArch debuggableMode testCase ->
  C1visualizerFile.findPass c1File (TestCase.name testCase) = Some c1Pass ->
  MatchTestCase MatchLines EvaluateLine testCase c1Pass = Raise e ->
  ~ isMatchFailed e ->
  MatchFiles MatchLines EvaluateLine fileText testFailedOutcome checkerFile c1File
    targetArch debuggableMode
  = (events ++ [Logger.startTest (TestCase.name testCase)], Raise e).
Proof.
  intros Hcases Hbefore [Harch Hdbg] Hpass Hfail Hother.
  unfold MatchFiles. rewrite Hcases, MatchFiles_loop_app, Hbefore. simpl.
  rewrite decide_False by (intros Hn; by apply Hn).
  rewrite decide_False by (intros Hn; by apply Hn).
  rewrite Hpass, Hfail.
  destruct e; try done. destruct Hother. by eexists _, _, _.
Qed.

(** X9. [findMatchingLine] over a scope inside the pass, with any
    exclusion list: it returns exactly the single line that is the earliest
    one of the scope to satisfy the statement without being excluded, with
    the bindings of that match, and it raises exactly when there is no such
    line, with MatchFailedException(statement, scope.start, variables); it
    raises nothing else. *)
Theorem findMatchingLine_spec (statement : Statement) (c1Pass : C1visualizerPass.t)
    (scope : MatchScope.t) (variables : Variables) (excludeLines : list Z) :
  0 <= MatchScope.start scope ->
  MatchScope.end_ scope <= Z.of_nat (length (C1visualizerPass.body c1Pass)) ->
  (forall m,
     findMatchingLine MatchLines statement c1Pass scope variables excludeLines
     = Return m <->
     exists i d, m = MatchInfo.mk (MatchScope.mk i i) (ImmutableDict d) /\
       firstMatch MatchLines statement (C1visualizerPass.body c1Pass) variables
         (MatchScope.start scope) (MatchScope.end_ scope) excludeLines i d) /\
  (forall e,
     findMatchingLine MatchLines statement c1Pass scope variables excludeLines
     = Raise e <->
     e = MatchFailedException statement (MatchScope.start scope) variables /\
     noMatch MatchLines statement (C1visualizerPass.body c1Pass) variables
       (MatchScope.start scope) (MatchScope.end_ scope) excludeLines).
Proof.
  intros H0 Hend.
  destruct (firstMatch_or_noMatch MatchLines statement c1Pass variables
              (MatchScope.start scope) (MatchScope.end_ scope) excludeLines H0 Hend)
    as [(i & d & Hfirst) | Hno].
  - rewrite (findMatchingLine_found MatchLines _ _ _ _ _ i d) by done. split.
    + intros m. split.
      * intros [= <-]. eauto.
      * intros (i' & d' & -> & Hfirst').
        by destruct (firstMatch_unique _ _ _ _ _ _ _ _ _ _ _ Hfirst Hfirst') as [-> ->].
    + intros e. split; [done|]. intros [_ Hno].
      destruct (firstMatch_noMatch _ _ _ _ _ _ _ _ _ Hfirst Hno).
  - rewrite findMatchingLine_not_found by done. split.
    + intros m. split; [done|]. intros (i & d & _ & Hfirst).
      destruct (firstMatch_noMatch _ _ _ _ _ _ _ _ _ Hfirst Hno).
    + intros e. split; [by intros [= <-] | by intros [-> _]].
Qed.

End MoreHandlers.

(** ** SplitStream *)

Section SplitStreamProperties.

Context {D N : Type}.
Variable fnProcessLine : string -> Z -> option D * option N.
Variable fnLineOutsideChunk : string -> Z -> Result unit.

Lemma appendToChunk_last (front : list (Chunk D N)) name data lineNo processedLine :
  appendToChunk processedLine (length front) (front ++ [(name, data, lineNo)])
  = front ++ [(name, data ++ [processedLine], lineNo)].
Proof.
  unfold appendToChunk.
  pose proof (alter_app_r
                (fun chunk : Chunk D N => (chunk.1.1, chunk.1.2 ++ [processedLine], chunk.2))
                front [(name, data, lineNo)] 0) as Halter.
  rewrite Nat.add_0_r in Halter. exact Halter.
Qed.

(** The loop while [currentChunk] is the last chunk of [allChunks]: the
    data lines up to the next chunk start are appended to it in place. *)
Lemma SplitStream_loop_current stream lineNo front name data chunkLineNo :
  SplitStream_loop fnProcessLine fnLineOutsideChunk stream lineNo
    (front ++ [(name, data, chunkLineNo)]) (Some (length front))
  = ([], Return (front
                 ++ [(name, data ++ (snd <$> fst (groupLines fnProcessLine stream lineNo)),
                      chunkLineNo)]
                 ++ snd (groupLines fnProcessLine stream lineNo))).
Proof.
  revert lineNo front name data chunkLineNo.
  induction stream as [|line rest IH]; intros lineNo front name data chunkLineNo.
  - simpl. by rewrite !app_nil_r.
  - cbn [SplitStream_loop groupLines].
    destruct (groupLines fnProcessLine rest (lineNo + 1)) as [loose chunks] eqn:Hg.
    destruct (decide (strip line = "")) as [Hblank | Hline].
    { rewrite IH, Hg. done. }
    destruct (fnProcessLine (strip line) (lineNo + 1)) as [[d|] [newName|]]; simpl.
    + rewrite appendToChunk_last, IH, Hg. simpl.
      by rewrite <- !app_assoc, app_nil_r.
    + rewrite appendToChunk_last, IH, Hg. simpl.
      by rewrite <- !app_assoc.
    + rewrite IH, Hg. simpl. by rewrite <- !app_assoc, app_nil_r.
    + rewrite IH, Hg. done.
Qed.

(** The loop before any chunk was started: data lines are reported to
    [fnLineOutsideChunk]. *)
Lemma SplitStream_loop_outside stream lineNo allChunks :
  SplitStream_loop fnProcessLine fnLineOutsideChunk stream lineNo allChunks None
  = (fst (reportLoose fnLineOutsideChunk (fst (groupLines fnProcessLine stream lineNo))),
     match snd (reportLoose fnLineOutsideChunk
                  (fst (groupLines fnProcessLine stream lineNo))) with
     | None => Return (allChunks ++ snd (groupLines fnProcessLine stream lineNo))
     | Some e => Raise e
     end).
Proof.
  revert lineNo. induction stream as [|line rest IH]; intros lineNo.
  - simpl. by rewrite app_nil_r.
  - cbn [SplitStream_loop groupLines].
    pose proof (SplitStream_loop_current rest (lineNo + 1) allChunks) as Hcur.
    specialize (IH (lineNo + 1)).
    destruct (groupLines fnProcessLine rest (lineNo + 1)) as [loose chunks] eqn:Hg.
    destruct (decide (strip line = "")) as [Hblank | Hline]; [exact IH|].
    destruct (fnProcessLine (strip line) (lineNo + 1)) as [[d|] [newName|]]; simpl.
    + rewrite appendToChunk_last, Hcur. done.
    + destruct (fnLineOutsideChunk (strip line) (lineNo + 1)) as [[]|e]; [|done].
      rewrite IH. simpl in *.
      by destruct (reportLoose fnLineOutsideChunk loose) as [calls [e|]].
    + rewrite Hcur. done.
    + exact IH.
Qed.

(** X10. [SplitStream] computes the grouping [groupLines]: blank lines
    are skipped but counted; every line that starts a chunk opens a tuple
    with its name and its own line number, which receives the data of that
    very line and of the lines after it up to the next chunk start; the data
    lines before the first chunk start go to [fnLineOutsideChunk], in order,
    and the first of these calls that raises ends the run. *)
Theorem SplitStream_groupLines (stream : list string) :
  SplitStream fnProcessLine fnLineOutsideChunk stream =
  let '(loose, chunks) := groupLines fnProcessLine stream 0 in
  let '(calls, e) := reportLoose fnLineOutsideChunk loose in
  (calls, match e with None => Return chunks | Some e => Raise e end).
Proof.
  unfold SplitStream. rewrite SplitStream_loop_outside.
  destruct (groupLines fnProcessLine stream 0) as [loose chunks]. simpl.
  by destruct (reportLoose fnLineOutsideChunk loose) as [calls [e|]].
Qed.

Lemma groupLines_headers stream lineNo :
  Forall (fun chunk : Chunk D N =>
            lineNo < chunk.2 <= lineNo + Z.of_nat (length stream) /\
            exists line, stream !! Z.to_nat (chunk.2 - lineNo - 1) = Some line /\
              strip line <> "" /\
              snd (fnProcessLine (strip line) chunk.2) = Some chunk.1.1)
    (snd (groupLines fnProcessLine stream lineNo)) /\
  StronglySorted Z.lt (snd <$> snd (groupLines fnProcessLine stream lineNo)).
Proof.
  revert lineNo. induction stream as [|line rest IH]; intros lineNo.
  - simpl. split; constructor.
  - cbn [groupLines]. destruct (IH (lineNo + 1)) as [Hall Hsorted].
    assert (Forall (fun chunk : Chunk D N =>
              lineNo < chunk.2 <= lineNo + Z.of_nat (length (line :: rest)) /\
              exists line', (line :: rest) !! Z.to_nat (chunk.2 - lineNo - 1)
                            = Some line' /\
                strip line' <> "" /\
                snd (fnProcessLine (strip line') chunk.2) = Some chunk.1.1)
              (snd (groupLines fnProcessLine rest (lineNo + 1)))) as Hall'.
    { eapply Forall_impl; [exact Hall|]. intros chunk [Hk (line' & Hl & Hrest)].
      simpl. split; [lia|]. exists line'. split; [|done].
      replace (Z.to_nat (chunk.2 - lineNo - 1))
        with (S (Z.to_nat (chunk.2 - (lineNo + 1) - 1))) by lia.
      done. }
    destruct (groupLines fnProcessLine rest (lineNo + 1)) as [loose chunks].
    destruct (decide (strip line = "")) as [Hblank | Hline]; [done|].
    destruct (fnProcessLine (strip line) (lineNo + 1)) as [pd [newName|]] eqn:Hp;
      [|done].
    simpl in *. split.
    + constructor; [|done]. simpl. split; [lia|]. exists line.
      replace (Z.to_nat (lineNo + 1 - lineNo - 1)) with 0%nat by lia.
      by rewrite Hp.
    + constructor; [done|]. apply Forall_fmap.
      eapply Forall_impl; [exact Hall|]. intros chunk [Hk _]. simpl. lia.
Qed.

(** X11. The chunks that [SplitStream] returns are headed by the lines
    that start a chunk: each chunk's [lineNo] is the 1-based position in the
    stream (blank lines counted) of a non-blank line for which
    [fnProcessLine] returned the chunk's name, and the chunks come in
    strictly increasing line order. *)
Theorem SplitStream_headers (stream : list string) (chunks : list (Chunk D N)) :
  snd (SplitStream fnProcessLine fnLineOutsideChunk stream) = Return chunks ->
  Forall (fun chunk : Chunk D N =>
            1 <= chunk.2 <= Z.of_nat (length stream) /\
            exists line, stream !! Z.to_nat (chunk.2 - 1) = Some line /\
              strip line <> "" /\
              snd (fnProcessLine (strip line) chunk.2) = Some chunk.1.1)
    chunks /\
  StronglySorted Z.lt (snd <$> chunks).
Proof.
  unfold SplitStream. rewrite SplitStream_loop_outside. simpl.
  destruct (snd (reportLoose _ _)); [done|]. intros [= <-].
  destruct (groupLines_headers stream 0) as [Hall Hsorted]. split; [|done].
  eapply Forall_impl; [exact Hall|]. intros chunk [Hk (line & Hl & Hrest)].
  split; [lia|]. exists line. split; [|done].
  by replace (chunk.2 - 1) with (chunk.2 - 0 - 1) by lia.
Qed.

Lemma groupLines_data stream lineNo :
  processedData fnProcessLine stream lineNo
  = (snd <$> fst (groupLines fnProcessLine stream lineNo))
    ++ concat ((fun chunk : Chunk D N => chunk.1.2)
                 <$> snd (groupLines fnProcessLine stream lineNo)).
Proof.
  revert lineNo. induction stream as [|line rest IH]; intros lineNo; [done|].
  cbn [groupLines processedData]. specialize (IH (lineNo + 1)).
  destruct (groupLines fnProcessLine rest (lineNo + 1)) as [loose chunks].
  destruct (decide (strip line = "")) as [Hblank | Hline]; [done|].
  destruct (fnProcessLine (strip line) (lineNo + 1)) as [[d|] [newName|]];
    simpl in *; by rewrite IH.
Qed.

Lemma reportLoose_calls (loose : list (string * Z * D)) :
  snd (reportLoose fnLineOutsideChunk loose) = None ->
  fst (reportLoose fnLineOutsideChunk loose) = fst <$> loose.
Proof.
  induction loose as [|[[line lineNo] d] rest IH]; [done|]. simpl.
  destruct (fnLineOutsideChunk line lineNo) as [[]|e]; [|done].
  destruct (reportLoose fnLineOutsideChunk rest) as [calls [e|]]; [done|].
  simpl in *. intros _. by rewrite IH.
Qed.

(** X12. No data is lost, duplicated or reordered: when [SplitStream]
    returns, the data that [fnProcessLine] extracted from the non-blank
    lines, in stream order, is the data of the lines handed to
    [fnLineOutsideChunk] followed by the data of the chunks, chunk after
    chunk. *)
Theorem SplitStream_conserves_data (stream : list string) (chunks : list (Chunk D N)) :
  snd (SplitStream fnProcessLine fnLineOutsideChunk stream) = Return chunks ->
  exists loose : list (string * Z * D),
    fst (SplitStream fnProcessLine fnLineOutsideChunk stream) = fst <$> loose /\
    processedData fnProcessLine stream 0
    = (snd <$> loose) ++ concat ((fun chunk : Chunk D N => chunk.1.2) <$> chunks).
Proof.
  unfold SplitStream. rewrite SplitStream_loop_outside. simpl.
  destruct (snd (reportLoose _ _)) eqn:Hr; [done|]. intros [= <-].
  exists (fst (groupLines fnProcessLine stream 0)). split.
  - by apply reportLoose_calls.
  - apply groupLines_data.
Qed.

End SplitStreamProperties.

(** ** The version bump of classes.dex *)

(** X13. The patch of classes.dex keeps the length of the file and every
    byte except the one at offset 6; it changes the file only when
    [ctx.jvm] is unset and the file starts with the version 35 magic, and
    then that byte goes from "5" to "7". Afterwards the file never starts
    with the version 35 magic (unless [ctx.jvm] kept the patch from running),
    and patching again changes nothing. *)
Theorem patchClassesDex_spec (jvm : bool) (content : list Byte.byte) :
  let out := patchClassesDex jvm content in
  length out = length content /\
  (forall i, i <> 6%nat -> out !! i = content !! i) /\
  (out <> content ->
   jvm = false /\ take 8 content = dexMagic035 /\
   content !! 6%nat = Some Byte.x35 /\ out !! 6%nat = Some Byte.x37) /\
  (jvm = false -> take 8 out <> dexMagic035) /\
  patchClassesDex jvm out = out.
Proof.
  unfold patchClassesDex. destruct jvm; simpl.
  { split_and!; done. }
  destruct (decide (take 8 content = dexMagic035)) as [Hmagic | Hother].
  - assert (content = dexMagic035 ++ drop 8 content) as Hsplit.
    { rewrite <- Hmagic. by rewrite take_drop. }
    unfold writeAtStart. simpl length. set (rest := drop 8 content) in *.
    rewrite Hsplit. split_and!.
    + simpl. done.
    + intros i Hi. do 8 (destruct i as [|i]; [done|]). done.
    + intros _. split_and!; try done.
    + intros _. simpl. done.
    + rewrite decide_False by done. done.
  - split_and!; try done. by rewrite decide_False.
Qed.

(** ** Squashing empty lines *)

Section Squash.

Lemma noTripleNewline_lookup (text : list ascii) :
  (forall i, ~ tripleAt text i) -> noTripleNewline text.
Proof.
  intros Hno before after ->. apply (Hno (length before)). unfold tripleAt.
  rewrite (lookup_app_r before _ (length before)) by lia.
  rewrite (lookup_app_r before _ (S (length before))) by lia.
  rewrite (lookup_app_r before _ (S (S (length before)))) by lia.
  replace (length before - length before)%nat with 0%nat by lia.
  replace (S (length before) - length before)%nat with 1%nat by lia.
  replace (S (S (length before)) - length before)%nat with 2%nat by lia.
  done.
Qed.

Lemma lookup_tripleAt (text : list ascii) (i : nat) :
  tripleAt text i ->
  exists before after, text = before ++ [newline; newline; newline] ++ after.
Proof.
  intros (H0 & H1 & H2). exists (take i text), (drop (S (S (S i))) text).
  rewrite <- (take_drop i text) at 1. f_equal.
  rewrite (drop_S text newline i) by done.
  rewrite (drop_S text newline (S i)) by done.
  by rewrite (drop_S text newline (S (S i))) by done.
Qed.

(** A run of [run] line feeds, then a character, then more text. *)
Lemma lookup_run_cons (run : nat) (c : ascii) (rest : list ascii) (j : nat) :
  (replicate run newline ++ c :: rest) !! j =
  if decide (j < run)%nat then Some newline
  else if decide (j = run) then Some c
  else rest !! (j - run - 1)%nat.
Proof.
  destruct (decide (j < run)%nat) as [Hlt | Hge].
  - rewrite lookup_app_l by (rewrite length_replicate; lia).
    by apply lookup_replicate_2.
  - rewrite lookup_app_r by (rewrite length_replicate; lia).
    rewrite length_replicate. destruct (decide (j = run)) as [-> | Hne].
    + by rewrite Nat.sub_diag.
    + destruct (j - run)%nat as [|k] eqn:Hk; [lia|]. simpl. f_equal. lia.
Qed.

Lemma squashEmptyLines_from_no_triple (text : list ascii) (run : nat) (i : nat) :
  (run <= 2)%nat ->
  ~ tripleAt (replicate run newline ++ squashEmptyLines_from run text) i.
Proof.
  revert run i. induction text as [|c rest IH]; intros run i Hrun.
  - simpl. rewrite app_nil_r. intros (_ & _ & H2).
    apply lookup_replicate in H2 as [_ H2]. lia.
  - simpl. destruct (decide (c = newline)) as [-> | Hc].
    + destruct (decide (run < 2)%nat) as [Hlt | Hge].
      * replace (replicate run newline ++ newline :: squashEmptyLines_from (S run) rest)
          with (replicate (S run) newline ++ squashEmptyLines_from (S run) rest).
        { apply IH. lia. }
        rewrite replicate_S_end. by rewrite <- app_assoc.
      * by apply IH.
    + intros (H0 & H1 & H2). rewrite lookup_run_cons in H0, H1, H2.
      destruct (decide (i < run)%nat) as [Hi | Hi].
      * repeat case_decide; try lia; simplify_eq.
      * destruct (decide (i = run)) as [-> | Hne]; [simplify_eq|].
        repeat case_decide; try lia.
        apply (IH 0%nat (i - run - 1)%nat); [lia|]. simpl. unfold tripleAt.
        replace (S (i - run - 1)) with (S i - run - 1)%nat by lia.
        replace (S (S i - run - 1)) with (S (S i) - run - 1)%nat by lia.
        done.
Qed.

Lemma squashEmptyLines_from_unchanged (text : list ascii) (run : nat) :
  (forall i, ~ tripleAt (replicate run newline ++ text) i) ->
  squashEmptyLines_from run text = text.
Proof.
  revert run. induction text as [|c rest IH]; intros run Hno; [done|].
  simpl. destruct (decide (c = newline)) as [-> | Hc].
  - destruct (decide (run < 2)%nat) as [Hlt | Hge].
    + f_equal. apply IH. intros i.
      replace (replicate (S run) newline ++ rest)
        with (replicate run newline ++ newline :: rest); [apply Hno|].
      rewrite replicate_S_end. by rewrite <- app_assoc.
    + exfalso. apply (Hno 0%nat). unfold tripleAt.
      rewrite !lookup_run_cons. repeat case_decide; done || lia.
  - f_equal. apply IH. intros i (H0 & H1 & H2). simpl in *.
    apply (Hno (i + run + 1)%nat). unfold tripleAt.
    rewrite !lookup_run_cons. repeat case_decide; try lia.
    replace (i + run + 1 - run - 1)%nat with i by lia.
    replace (S (i + run + 1) - run - 1)%nat with (S i) by lia.
    replace (S (S (i + run + 1)) - run - 1)%nat with (S (S i)) by lia.
    done.
Qed.

(** X14. The text written by [generate] never has three line feeds in a
    row, that is, two empty lines in a row; a text that has none is left as
    it is, and squashing twice is squashing once. *)
Theorem squashEmptyLines_no_triple (text : list ascii) :
  noTripleNewline (squashEmptyLines text) /\
  (noTripleNewline text -> squashEmptyLines text = text) /\
  squashEmptyLines (squashEmptyLines text) = squashEmptyLines text.
Proof.
  assert (forall i, ~ tripleAt (squashEmptyLines text) i) as Hno.
  { intros i. apply (squashEmptyLines_from_no_triple text 0 i). lia. }
  split_and!.
  - by apply noTripleNewline_lookup.
  - intros Htext. apply squashEmptyLines_from_unchanged. simpl.
    intros i Hi. apply lookup_tripleAt in Hi as (before & after & Heq).
    by apply (Htext before after).
  - by apply squashEmptyLines_from_unchanged.
Qed.

Lemma squashEmptyLines_from_sublist (text : list ascii) (run : nat) :
  squashEmptyLines_from run text `sublist_of` text /\
  filter (fun c => c <> newline) (squashEmptyLines_from run text)
  = filter (fun c => c <> newline) text.
Proof.
  revert run. induction text as [|c rest IH]; intros run; [done|].
  simpl. destruct (decide (c = newline)) as [-> | Hc].
  - destruct (decide (run < 2)%nat).
    + destruct (IH (S run)) as [Hsub Hfilter]. split; [by constructor|].
      rewrite !filter_cons. by rewrite Hfilter.
    + destruct (IH run) as [Hsub Hfilter]. split; [by constructor|].
      rewrite filter_cons. by rewrite decide_False by (intros Hn; by apply Hn).
  - destruct (IH 0%nat) as [Hsub Hfilter]. split; [by constructor|].
    rewrite !filter_cons. by rewrite Hfilter.
Qed.

(** X15. Squashing only removes line feeds: the result is the text with
    some characters left out, and the characters other than line feeds are
    all kept, in their order. *)
Theorem squashEmptyLines_keeps_text (text : list ascii) :
  squashEmptyLines text `sublist_of` text /\
  filter (fun c => c <> newline) (squashEmptyLines text)
  = filter (fun c => c <> newline) text.
Proof. apply squashEmptyLines_from_sublist. Qed.

(** X16. Run by run: at the start of the text and after any character
    other than a line feed, [k] line feeds in a row come out as [k] when
    there are at most two and as two otherwise, and the scan starts afresh
    after the character that ends the run. *)
Theorem squashEmptyLines_runs (k : nat) (c : ascii) (rest : list ascii) :
  squashEmptyLines (replicate k newline) = replicate (k `min` 2) newline /\
  (c <> newline ->
   squashEmptyLines (replicate k newline ++ c :: rest)
   = replicate (k `min` 2) newline ++ c :: squashEmptyLines rest) /\
  (c <> newline ->
   squashEmptyLines (c :: rest) = c :: squashEmptyLines rest).
Proof.
  assert (forall run tail,
            (forall r, squashEmptyLines_from r tail = squashEmptyLines_from 0 tail) ->
            squashEmptyLines_from run (replicate k newline ++ tail)
            = replicate ((run + k) `min` 2 - run) newline
              ++ squashEmptyLines_from 0 tail) as Hrun.
  { induction k as [|k IH]; intros run tail Htail.
    - simpl. rewrite Htail. by replace ((run + 0) `min` 2 - run)%nat with 0%nat by lia.
    - simpl. destruct (decide (run < 2)%nat) as [Hlt | Hge].
      + rewrite IH by done.
        replace ((run + S k) `min` 2 - run)%nat
          with (S ((S run + k) `min` 2 - S run)) by lia.
        done.
      + rewrite IH by done.
        replace ((run + S k) `min` 2 - run)%nat with 0%nat by lia.
        by replace ((run + k) `min` 2 - run)%nat with 0%nat by lia. }
  unfold squashEmptyLines. split_and!.
  - specialize (Hrun 0%nat [] (fun r => eq_refl)). rewrite app_nil_r in Hrun.
    rewrite Hrun. simpl. by rewrite app_nil_r, Nat.sub_0_r.
  - intros Hc. rewrite Hrun.
    + simpl. case_decide; [done|]. by rewrite Nat.sub_0_r.
    + intros r. simpl. by case_decide.
  - intros Hc. simpl. by case_decide.
Qed.

End Squash.

(** ** Settings from the environment *)

Lemma _getEnvBoolean_spec (_env : gmap string string) (var : string)
    (default : PyValue) :
  (spellsTrue (_env !! var) -> _getEnvBoolean _env var default = PyBool true) /\
  (spellsFalse (_env !! var) -> _getEnvBoolean _env var default = PyBool false) /\
  (~ spellsTrue (_env !! var) -> ~ spellsFalse (_env !! var) ->
   _getEnvBoolean _env var default = default).
Proof.
  unfold _getEnvBoolean, spellsTrue, spellsFalse.
  destruct (_env !! var) as [val|]; repeat case_decide;
    intuition (try congruence; try discriminate; eauto).
Qed.

(** X17. A setting whose default is ART_TEST_FULL, here ART_TEST_JIT, is
    always a boolean. It is true exactly when its own variable is spelled
    True or true, or when that variable is unset, empty or spelled in any
    other way than the four recognised ones and ART_TEST_FULL is spelled
    True or true. ANDROID_COMPILE_WITH_JACK is the string 'default' unless
    its variable has one of the four spellings. *)
Theorem ART_TEST_JIT_spec (_env : gmap string string) :
  (exists b, ART_TEST_JIT _env = PyBool b) /\
  (ART_TEST_JIT _env = PyBool true <->
   spellsTrue (_env !! "ART_TEST_JIT") \/
   (~ spellsFalse (_env !! "ART_TEST_JIT") /\ spellsTrue (_env !! "ART_TEST_FULL"))) /\
  (ANDROID_COMPILE_WITH_JACK _env = PyStr "default" <->
   ~ spellsTrue (_env !! "ANDROID_COMPILE_WITH_JACK") /\
   ~ spellsFalse (_env !! "ANDROID_COMPILE_WITH_JACK")).
Proof.
  unfold ART_TEST_JIT, ART_TEST_FULL, ANDROID_COMPILE_WITH_JACK,
    _getEnvBoolean, spellsTrue, spellsFalse.
  split_and!.
  - destruct (_env !! "ART_TEST_JIT") as [jit|], (_env !! "ART_TEST_FULL") as [full|];
      repeat case_decide; eauto.
  - destruct (_env !! "ART_TEST_JIT") as [jit|], (_env !! "ART_TEST_FULL") as [full|];
      repeat case_decide;
      intuition (try congruence; try discriminate; eauto).
  - destruct (_env !! "ANDROID_COMPILE_WITH_JACK") as [jack|];
      repeat case_decide;
      intuition (try congruence; try discriminate; eauto).
Qed.

(** ** The further theorems at concrete inputs *)

(** [MatchTestCase_exceptions] where a NextLine statement is reached at the
    end of the pass. *)
Lemma MatchTestCase_exceptions_witness :
  let c1Pass := C1visualizerPass.mk "short" ["a"] 300 in
  MatchTestCase sampleMatchLines sampleEvaluateLine nextLineAtEndTestCase c1Pass
    = Raise IndexError /\
  (isMatchFailed IndexError \/
   (IndexError = AssertionError /\
    TestCase.name nextLineAtEndTestCase <> C1visualizerPass.name c1Pass) \/
   (IndexError = IndexError /\
    exists st, st ∈ TestCase.statements nextLineAtEndTestCase /\
      TestStatement.variant st = TestStatement.NextLine) \/
   (IndexError = EvaluateLineError /\
    exists st, st ∈ TestCase.statements nextLineAtEndTestCase /\
      TestStatement.variant st = TestStatement.Eval)).
Proof.
  intros c1Pass.
  assert (MatchTestCase sampleMatchLines sampleEvaluateLine nextLineAtEndTestCase c1Pass
          = Raise IndexError) as Hraise by (by vm_compute).
  exact (conj Hraise
           (MatchTestCase_exceptions sampleMatchLines sampleEvaluateLine
              nextLineAtEndTestCase c1Pass IndexError Hraise)).
Defined.

(** [MatchTestCase_Return_length] on the two DAG statements of
    [passingTestCase] and the two lines of its pass. *)
Lemma MatchTestCase_Return_length_witness :
  let c1Pass := C1visualizerPass.mk "second" ["x"; "y"] 200 in
  MatchTestCase sampleMatchLines sampleEvaluateLine passingTestCase c1Pass
    = Return tt /\
  (length (List.filter lineConsuming (TestCase.statements passingTestCase))
   <= length (C1visualizerPass.body c1Pass))%nat.
Proof.
  intros c1Pass.
  assert (MatchTestCase sampleMatchLines sampleEvaluateLine passingTestCase c1Pass
          = Return tt) as Hret by (by vm_compute).
  exact (conj Hret
           (MatchTestCase_Return_length sampleMatchLines sampleEvaluateLine
              passingTestCase c1Pass Hret)).
Defined.


(** [handle_Return_queues] on an InOrder statement handled with a DAG and
    a Not statement pending. *)
Lemma handle_Return_queues_witness :
  let self := sampleState ["a"; "b"] 0 [stmt TestStatement.DAG "a"]
                [stmt TestStatement.Not "z"] in
  let statement := Some (stmt TestStatement.InOrder "b") in
  fst (handle sampleMatchLines sampleEvaluateLine statement self) = Return tt /\
  let self' := snd (handle sampleMatchLines sampleEvaluateLine statement self) in
  (TestStatement.variant <$> statement <> Some TestStatement.DAG ->
   dagQueue self' = []) /\
  (TestStatement.variant <$> statement = None \/
   TestStatement.variant <$> statement = Some TestStatement.InOrder \/
   TestStatement.variant <$> statement = Some TestStatement.NextLine ->
   notQueue self' = []).
Proof.
  intros self statement.
  assert (fst (handle sampleMatchLines sampleEvaluateLine statement self) = Return tt)
    as Hret by (by vm_compute).
  exact (conj Hret
           (handle_Return_queues sampleMatchLines sampleEvaluateLine statement self Hret)).
Defined.

(** [handleNextLine_discards_notQueue]: the pending statement [Not a] does
    not keep [NextLine a] from matching the line [a]; the cursor moves from
    0 to 1 and [notQueue] is empty afterwards. *)
Lemma handleNextLine_discards_notQueue_witness :
  let self := sampleState ["a"] 0 [] [stmt TestStatement.Not "a"] in
  let statement := stmt TestStatement.NextLine "a" in
  let out := handleNextLine sampleMatchLines statement self in
  0 <= cursor self /\
  C1visualizerPass.body (c1Pass self) !! Z.to_nat (cursor self) = Some "a" /\
  Forall (fun st => TestStatement.variant st = TestStatement.Not) (notQueue self) /\
  sampleMatchLines statement "a" (variables self) = ImmutableDict {["a" := "a"]} /\
  notQueue self = [stmt TestStatement.Not "a"] /\
  fst out = Return tt /\
  cursor (snd out) = 0 + 1 /\ variables (snd out) = ImmutableDict {["a" := "a"]} /\
  notQueue (snd out) = [].
Proof.
  intros self statement out.
  assert (0 <= cursor self) as H0 by (simpl; lia).
  assert (C1visualizerPass.body (c1Pass self) !! Z.to_nat (cursor self) = Some "a")
    as Hline by reflexivity.
  assert (Forall (fun st => TestStatement.variant st = TestStatement.Not)
            (notQueue self)) as Hq by (repeat constructor).
  assert (sampleMatchLines statement "a" (variables self)
          = ImmutableDict {["a" := "a"]}) as Hm by (by vm_compute).
  destruct (proj1 (handleNextLine_discards_notQueue sampleMatchLines self statement
                     "a" H0 Hline Hq) _ Hm) as (Hret & Hc & Hv & Hnq & _).
  exact (conj H0 (conj Hline (conj Hq (conj Hm (conj eq_refl
           (conj Hret (conj Hc (conj Hv Hnq)))))))).
Defined.

(** [MatchTestCase_only_Not] on the statements [Not x; Not y] and the pass
    [a; b; c]. *)
Lemma MatchTestCase_only_Not_witness :
  let c1Pass := C1visualizerPass.mk "first" ["a"; "b"; "c"] 100 in
  TestCase.name onlyNotTestCase = C1visualizerPass.name c1Pass /\
  Forall (fun st => TestStatement.variant st = TestStatement.Not)
    (TestCase.statements onlyNotTestCase) /\
  (MatchTestCase sampleMatchLines sampleEvaluateLine onlyNotTestCase c1Pass = Return tt <->
   ~ notQueueViolated sampleMatchLines (TestCase.statements onlyNotTestCase)
       (C1visualizerPass.body c1Pass) (ImmutableDict ∅)
       0 (Z.of_nat (length (C1visualizerPass.body c1Pass)))) /\
  MatchTestCase sampleMatchLines sampleEvaluateLine onlyNotTestCase c1Pass = Return tt.
Proof.
  intros c1Pass.
  assert (TestCase.name onlyNotTestCase = C1visualizerPass.name c1Pass) as Hname
    by reflexivity.
  assert (Forall (fun st => TestStatement.variant st = TestStatement.Not)
            (TestCase.statements onlyNotTestCase)) as Hq by (repeat constructor).
  assert (MatchTestCase sampleMatchLines sampleEvaluateLine onlyNotTestCase c1Pass
          = Return tt) as Hret by (by vm_compute).
  exact (conj Hname (conj Hq (conj
           (proj1 (MatchTestCase_only_Not sampleMatchLines sampleEvaluateLine
                     onlyNotTestCase c1Pass Hname Hq)) Hret))).
Defined.

(** [MatchFiles_aborts] on three test cases, the second of which ends in
    IndexError: the third is not run. *)
Lemma MatchFiles_aborts_witness :
  let checkerFile :=
    CheckerFile.mk [passingTestCase; nextLineAtEndTestCase; passingTestCase] in
  let c1Pass := C1visualizerPass.mk "short" ["a"] 300 in
  CheckerFile.testCases checkerFile
    = [passingTestCase] ++ nextLineAtEndTestCase :: [passingTestCase] /\
  MatchFiles_loop sampleMatchLines sampleEvaluateLine sampleFileText
    sampleTestFailedOutcome [passingTestCase] sampleFile None false
    = ([Logger.startTest "second"; Logger.testPassed], Return tt) /\
  applicable None false nextLineAtEndTestCase /\
  C1visualizerFile.findPass sampleFile (TestCase.name nextLineAtEndTestCase)
    = Some c1Pass /\
  MatchTestCase sampleMatchLines sampleEvaluateLine nextLineAtEndTestCase c1Pass
    = Raise IndexError /\
  ~ isMatchFailed IndexError /\
  MatchFiles sampleMatchLines sampleEvaluateLine sampleFileText
    sampleTestFailedOutcome checkerFile sampleFile None false
  = ([Logger.startTest "second"; Logger.testPassed] ++ [Logger.startTest "short"],
     Raise IndexError).
Proof.
  intros checkerFile c1Pass.
  assert (CheckerFile.testCases checkerFile
          = [passingTestCase] ++ nextLineAtEndTestCase :: [passingTestCase]) as Hcases
    by reflexivity.
  assert (MatchFiles_loop sampleMatchLines sampleEvaluateLine sampleFileText
            sampleTestFailedOutcome [passingTestCase] sampleFile None false
          = ([Logger.startTest "second"; Logger.testPassed], Return tt)) as Hbefore
    by (by vm_compute).
  assert (applicable None false nextLineAtEndTestCase) as Happ.
  { split; [apply elem_of_cons; by left | reflexivity]. }
  assert (C1visualizerFile.findPass sampleFile (TestCase.name nextLineAtEndTestCase)
          = Some c1Pass) as Hpass by (by vm_compute).
  assert (MatchTestCase sampleMatchLines sampleEvaluateLine nextLineAtEndTestCase c1Pass
          = Raise IndexError) as Hfail by (by vm_compute).
  assert (~ isMatchFailed IndexError) as Hother.
  { intros (st & i & v & Heq). discriminate Heq. }
  exact (conj Hcases (conj Hbefore (conj Happ (conj Hpass (conj Hfail (conj Hother
           (MatchFiles_aborts sampleMatchLines sampleEvaluateLine sampleFileText
              sampleTestFailedOutcome checkerFile sampleFile None false
              [passingTestCase] [passingTestCase] nextLineAtEndTestCase c1Pass
              [Logger.startTest "second"; Logger.testPassed] IndexError
              Hcases Hbefore Happ Hpass Hfail Hother))))))).
Defined.

(** [findMatchingLine_spec] on the pass [x; x] with line 0 excluded. *)
Lemma findMatchingLine_spec_witness :
  let statement := stmt TestStatement.DAG "x" in
  let c1Pass := samplePass ["x"; "x"] in
  let scope := MatchScope.mk 0 2 in
  let found := MatchInfo.mk (MatchScope.mk 1 1) (ImmutableDict {["x" := "x"]}) in
  0 <= MatchScope.start scope /\
  MatchScope.end_ scope <= Z.of_nat (length (C1visualizerPass.body c1Pass)) /\
  findMatchingLine sampleMatchLines statement c1Pass scope (ImmutableDict ∅) [0]
    = Return found /\
  exists i d, found = MatchInfo.mk (MatchScope.mk i i) (ImmutableDict d) /\
    firstMatch sampleMatchLines statement (C1visualizerPass.body c1Pass)
      (ImmutableDict ∅) (MatchScope.start scope) (MatchScope.end_ scope) [0] i d.
Proof.
  intros statement c1Pass scope found.
  assert (0 <= MatchScope.start scope) as H0 by (simpl; lia).
  assert (MatchScope.end_ scope
          <= Z.of_nat (length (C1visualizerPass.body c1Pass))) as Hend by (simpl; lia).
  assert (findMatchingLine sampleMatchLines statement c1Pass scope (ImmutableDict ∅) [0]
          = Return found) as Hfound by (by vm_compute).
  exact (conj H0 (conj Hend (conj Hfound
           (proj1 (proj1 (findMatchingLine_spec sampleMatchLines statement c1Pass scope
                            (ImmutableDict ∅) [0] H0 Hend) found) Hfound)))).
Defined.

(** [SplitStream_headers] on a stream of six lines with two chunks. *)
Lemma SplitStream_headers_witness :
  let chunks := [("first", ["a"; "b"], 1); ("second", ["x"], 5)] in
  snd (SplitStream sampleProcessLine sampleLineOutsideChunk sampleStream)
    = Return chunks /\
  Forall (fun chunk : Chunk string string =>
            1 <= chunk.2 <= Z.of_nat (length sampleStream) /\
            exists line, sampleStream !! Z.to_nat (chunk.2 - 1) = Some line /\
              strip line <> "" /\
              snd (sampleProcessLine (strip line) chunk.2) = Some chunk.1.1)
    chunks /\
  StronglySorted Z.lt (snd <$> chunks).
Proof.
  intros chunks.
  assert (snd (SplitStream sampleProcessLine sampleLineOutsideChunk sampleStream)
          = Return chunks) as Hret by (by vm_compute).
  exact (conj Hret
           (SplitStream_headers sampleProcessLine sampleLineOutsideChunk
              sampleStream chunks Hret)).
Defined.

(** [SplitStream_conserves_data] on the same stream. *)
Lemma SplitStream_conserves_data_witness :
  let chunks := [("first", ["a"; "b"], 1); ("second", ["x"], 5)] in
  snd (SplitStream sampleProcessLine sampleLineOutsideChunk sampleStream)
    = Return chunks /\
  exists loose : list (string * Z * string),
    fst (SplitStream sampleProcessLine sampleLineOutsideChunk sampleStream)
      = fst <$> loose /\
    processedData sampleProcessLine sampleStream 0
    = (snd <$> loose)
      ++ concat ((fun chunk : Chunk string string => chunk.1.2) <$> chunks).
Proof.
  intros chunks.
  assert (snd (SplitStream sampleProcessLine sampleLineOutsideChunk sampleStream)
          = Return chunks) as Hret by (by vm_compute).
  exact (conj Hret
           (SplitStream_conserves_data sampleProcessLine sampleLineOutsideChunk
              sampleStream chunks Hret)).
Defined.

(** [patchClassesDex_spec] on a version 35 file. *)
Lemma patchClassesDex_spec_witness :
  let out := patchClassesDex false sampleDex in
  out <> sampleDex /\
  take 8 sampleDex = dexMagic035 /\
  sampleDex !! 6%nat = Some Byte.x35 /\ out !! 6%nat = Some Byte.x37 /\
  take 8 out <> dexMagic035.
Proof.
  intros out.
  assert (out <> sampleDex) as Hne by (by vm_compute).
  destruct (patchClassesDex_spec false sampleDex) as (_ & _ & Hchanged & Hmagic & _).
  destruct (Hchanged Hne) as (_ & H35 & H5 & H7).
  exact (conj Hne (conj H35 (conj H5 (conj H7 (Hmagic eq_refl))))).
Defined.

(** [squashEmptyLines_no_triple] on a text with one empty line. *)
Lemma squashEmptyLines_no_triple_witness :
  let text := [letterA; newline; newline; letterA] in
  noTripleNewline text /\ squashEmptyLines text = text.
Proof.
  intros text.
  assert (noTripleNewline text) as Hno.
  { apply noTripleNewline_lookup. intros i (H0 & H1 & H2).
    do 4 (destruct i as [|i]; [by vm_compute in H0, H1, H2|]). done. }
  exact (conj Hno (proj1 (proj2 (squashEmptyLines_no_triple text)) Hno)).
Defined.

(** [squashEmptyLines_runs] on four line feeds before a letter. *)
Lemma squashEmptyLines_runs_witness :
  letterA <> newline /\
  squashEmptyLines (replicate 4 newline ++ letterA :: [newline])
  = replicate (4 `min` 2) newline ++ letterA :: squashEmptyLines [newline].
Proof.
  assert (letterA <> newline) as Hc by (by vm_compute).
  exact (conj Hc
           (proj1 (proj2 (squashEmptyLines_runs 4 letterA [newline])) Hc)).
Defined.
